(** * IntelliClaim: the decision pipeline of [backend/chatgpt_app.py]

    A shallow embedding of the response normaliser, the resilient model
    client, the entity extractor, the evidence retriever, the decision
    reasoner, the query orchestrator and the batch question answering
    helper, with the properties the specification states about them.

    Conventions.
    - Text is [string]: a sequence of code points below 256, one [ascii] per
      code point.  The character classes ([isspace], [lower_char],
      [is_word], ...) are Python's [str] classes restricted to that range.
    - Python values that come out of [json.loads] are [pyval]; Python floats
      are binary64 primitive floats.
    - Exceptions are values of [exn]; code that may raise returns a
      [result].  Only subclasses of [Exception] are modelled (task
      cancellation and interpreter exits are not).
    - The remote model API, the vector store and [json.loads] are parameters
      of the development: every theorem holds whatever they answer. *)

From Stdlib Require Import String Ascii List ZArith Lia Bool Arith DecimalString.
From Stdlib Require Import PrimFloat FloatOps SpecFloat.
From Stdlib Require Import Permutation Sorted.
Import ListNotations.
Open Scope list_scope.
Open Scope string_scope.
Open Scope nat_scope.

(** ** Python strings *)

Module PyStr.

Definition is_empty (s : string) : bool :=
  match s with "" => true | _ => false end.

(** [str.isspace] on one code point; also the class [\s] of [re]. *)
Definition isspace (c : ascii) : bool :=
  let n := nat_of_ascii c in
  ((9 <=? n) && (n <=? 13)) || ((28 <=? n) && (n <=? 32))
  || (n =? 133) || (n =? 160).

(** The class [\d] of [re]. *)
Definition is_digit (c : ascii) : bool :=
  let n := nat_of_ascii c in (48 <=? n) && (n <=? 57).

(** The class [\w] of [re] on [str] patterns. *)
Definition is_word (c : ascii) : bool :=
  let n := nat_of_ascii c in
  is_digit c || ((65 <=? n) && (n <=? 90)) || (n =? 95)
  || ((97 <=? n) && (n <=? 122)) || (n =? 170) || (n =? 178) || (n =? 179)
  || (n =? 181) || (n =? 185) || (n =? 186) || ((188 <=? n) && (n <=? 190))
  || ((192 <=? n) && (n <=? 214)) || ((216 <=? n) && (n <=? 246))
  || (248 <=? n).

Definition lower_char (c : ascii) : ascii :=
  let n := nat_of_ascii c in
  if ((65 <=? n) && (n <=? 90))
     || ((192 <=? n) && (n <=? 222) && negb (n =? 215))
  then ascii_of_nat (n + 32) else c.

Definition upper_char (c : ascii) : ascii :=
  let n := nat_of_ascii c in
  if (97 <=? n) && (n <=? 122) then ascii_of_nat (n - 32) else c.

(** [s.lower()].  Below 256 every code point has one code point as its
    lower case, so the length is kept; on other text [str.lower] can
    lengthen (U+0130 becomes two code points). *)
Fixpoint lower (s : string) : string :=
  match s with
  | "" => ""
  | String c s' => String (lower_char c) (lower s')
  end.

(** [s.startswith(p)] *)
Fixpoint startswith (s p : string) : bool :=
  match p, s with
  | "", _ => true
  | String a p', String b s' => Ascii.eqb a b && startswith s' p'
  | String _ _, "" => false
  end.

(** [s.endswith(p)]: [p] is [s] or a suffix of its tail. *)
Fixpoint endswith (s p : string) : bool :=
  String.eqb s p
  || match s with "" => false | String _ s' => endswith s' p end.

(** [p in s] *)
Fixpoint str_in (p s : string) : bool :=
  startswith s p
  || match s with "" => false | String _ s' => str_in p s' end.

(** [s.find(p)]; [None] stands for the result [-1]. *)
Fixpoint find (s p : string) : option nat :=
  if startswith s p then Some 0
  else match s with
       | "" => None
       | String _ s' => option_map S (find s' p)
       end.

Fixpoint lstrip (s : string) : string :=
  match s with
  | "" => ""
  | String c s' => if isspace c then lstrip s' else s
  end.

Fixpoint rstrip (s : string) : string :=
  match s with
  | "" => ""
  | String c s' =>
      let r := rstrip s' in
      if isspace c && is_empty r then "" else String c r
  end.

(** [s.strip()] *)
Definition strip (s : string) : string := rstrip (lstrip s).

Fixpoint take (n : nat) (s : string) : string :=
  match n, s with
  | S n', String c s' => String c (take n' s')
  | _, _ => ""
  end.

Fixpoint drop (n : nat) (s : string) : string :=
  match n, s with
  | S n', String _ s' => drop n' s'
  | _, _ => s
  end.

(** A slice bound as Python normalises it: a negative index counts from the
    end, and both ends are clamped to [0, len]. *)
Definition norm_index (len i : Z) : Z :=
  if (i <? 0)%Z then Z.max 0 (len + i) else Z.min i len.

(** [s[lo:hi]]; [None] is an omitted bound. *)
Definition slice (s : string) (lo hi : option Z) : string :=
  let len := Z.of_nat (String.length s) in
  let a := match lo with Some i => norm_index len i | None => 0%Z end in
  let b := match hi with Some j => norm_index len j | None => len end in
  take (Z.to_nat (b - a)) (drop (Z.to_nat a) s).

Fixpoint last (s : string) : option ascii :=
  match s with
  | "" => None
  | String c "" => Some c
  | String _ s' => last s'
  end.

(** [re.findall(r"\w+", s)]: the maximal runs of word characters. *)
Fixpoint findall_words (s : string) : list string :=
  match s with
  | "" => []
  | String c s' =>
      let r := findall_words s' in
      if is_word c then
        match s' with
        | String d _ =>
            if is_word d then
              match r with
              | w :: ws => String c w :: ws
              | [] => [String c ""]
              end
            else String c "" :: r
        | "" => [String c ""]
        end
      else r
  end.

(** [sep.join(parts)] *)
Fixpoint join (sep : string) (parts : list string) : string :=
  match parts with
  | [] => ""
  | [p] => p
  | p :: ps => p ++ sep ++ join sep ps
  end.

(** Offset of the first occurrence of a character, as
    [re.search(c, s).start()]. *)
Fixpoint index_of (c : ascii) (s : string) : option nat :=
  match s with
  | "" => None
  | String a s' => if Ascii.eqb a c then Some 0 else option_map S (index_of c s')
  end.

(** The prefix of [s] that ends at the last occurrence of [c]. *)
Fixpoint up_to_last (c : ascii) (s : string) : option string :=
  match s with
  | "" => None
  | String a s' =>
      match up_to_last c s' with
      | Some r => Some (String a r)
      | None => if Ascii.eqb a c then Some (String a "") else None
      end
  end.

End PyStr.
Import PyStr.

(** ** Heuristics and constants *)

Definition MAX_CONTEXT_CHARS : Z := 1500.
Definition PER_CLAUSE_WINDOW : Z := 400.

Definition first_hit (cl : string) (q_terms : list string) : option nat :=
  fold_right
    (fun term later => match find cl term with Some idx => Some idx | None => later end)
    None q_terms.

Definition build_windowed_context (query chunk : string) (window : Z) : string :=
  let q_terms :=
    filter (fun w => 4 <=? String.length w) (findall_words (lower query)) in
  let cl := lower chunk in
  let len := Z.of_nat (String.length chunk) in
  match first_hit cl q_terms with
  | None => slice chunk None (Some (Z.min len window))
  | Some hit =>
      let start := Z.max 0 (Z.of_nat hit - window / 2) in
      slice chunk (Some start) (Some (Z.min len (start + window)))
  end.

(** ** Response normaliser *)

(** The match of an opening character, anything, a closing character, with
    DOTALL: the leftmost opening character that has a closing one after it,
    up to the last closing character of the text. *)
Fixpoint re_search_span (opening closing : ascii) (s : string) : option string :=
  match s with
  | "" => None
  | String c s' =>
      if Ascii.eqb c opening then
        match up_to_last closing s' with
        | Some r => Some (String c r)
        | None => re_search_span opening closing s'
        end
      else re_search_span opening closing s'
  end.

(** [re.search(r'\{.*\}', s, re.DOTALL).group(0)] *)
Definition re_search_braces (s : string) : option string :=
  re_search_span "{" "}" s.

(** [re.search(r"\[.*\]", s, re.DOTALL).group(0)] *)
Definition re_search_brackets (s : string) : option string :=
  re_search_span "[" "]" s.

(** The text after [strip], removal of a leading [```json], removal of a
    trailing [```], and [strip] again. *)
Definition fence_stripped (text : string) : string :=
  let text := strip text in
  let text := if startswith text "```json" then slice text (Some 7%Z) None else text in
  let text := if endswith text "```" then slice text None (Some (-3)%Z) else text in
  strip text.

Definition clean_json_response (text : string) : string :=
  if is_empty text || is_empty (strip text) then text
  else
    let text := fence_stripped text in
    match index_of "{" text with
    | None => text
    | Some start =>
        let json_str := slice text (Some (Z.of_nat start)) None in
        match re_search_braces json_str with
        | Some group0 => group0
        | None => text
        end
    end.

(** The number of brace groups that open at depth 0: what the idempotence
    property of the specification calls the top-level objects of a text. *)
Fixpoint count_objects (depth : nat) (s : string) : nat :=
  match s with
  | "" => 0
  | String c s' =>
      if Ascii.eqb c "{" then
        (if depth =? 0 then 1 else 0) + count_objects (S depth) s'
      else if Ascii.eqb c "}" then count_objects (Nat.pred depth) s'
      else count_objects depth s'
  end.

Definition top_level_objects (s : string) : nat := count_objects 0 s.

(** ** Decision normalisation *)

Definition any_in (words : list string) (s : string) : bool :=
  existsb (fun word => str_in word s) words.

Definition APPROVE_WORDS : list string :=
  ["approved"; "approve"; "eligible"; "accept"].
Definition REJECT_WORDS : list string :=
  ["rejected"; "reject"; "denied"; "deny"; "not eligible"].
Definition PENDING_WORDS : list string :=
  ["pending"; "further"; "investigation"; "information"; "undecided"].

(** [DecisionReasoningAgent._normalize_decision] on a [str] argument. *)
Definition _normalize_decision (decision_str : string) : string :=
  if is_empty decision_str then "PENDING"
  else
    let decision_lower := strip (lower decision_str) in
    if any_in APPROVE_WORDS decision_lower then "APPROVED"
    else if any_in REJECT_WORDS decision_lower then "REJECTED"
    else if any_in PENDING_WORDS decision_lower then "PENDING"
    else "PENDING".

(** A word that neither starts nor ends with whitespace. *)
Definition trimmed (w : string) : bool :=
  match w with
  | "" => false
  | String a _ =>
      negb (isspace a)
      && match last w with Some z => negb (isspace z) | None => false end
  end.

(** The cascade of the specification, on the lower-cased text: the first
    list of words with a member that occurs in the text decides. *)
Definition decision_cascade (decision_lower : string) : string :=
  if any_in APPROVE_WORDS decision_lower then "APPROVED"
  else if any_in REJECT_WORDS decision_lower then "REJECTED"
  else "PENDING".

(** ** Clause keyword bias *)

Definition CLAUSE_KEYWORDS : list (string * list string) :=
  [ ("waiting period", ["waiting period"; "cooling period"; "initial waiting"]);
    ("pre-existing", ["pre-existing"; "PED"]);
    ("maternity", ["maternity"; "pregnancy"; "childbirth"]);
    ("cataract", ["cataract"]);
    ("organ donor", ["organ donor"; "donor expenses"]);
    ("no claim", ["no claim discount"; "NCD"]);
    ("preventive", ["preventive"; "health check"]);
    ("hospital", ["hospital"; "inpatient"]);
    ("ayush", ["ayush"; "ayurveda"; "homeopathy"; "siddha"; "unani"]);
    ("room rent", ["room rent"; "icu charges"; "sub-limit"]) ].

Definition score_clause_bias (query text : string) : nat :=
  let ql := lower query in
  let tl := lower text in
  fold_left
    (fun hits entry =>
       let keywords := snd entry in
       if any_in keywords ql
       then hits + List.length (filter (fun k => str_in k tl) keywords)
       else hits)
    CLAUSE_KEYWORDS 0.

(** [sorted(l, key=key, reverse=True)]: descending, and stable (elements with
    equal keys keep their order). *)
Fixpoint insert_desc {A} (key : A -> nat) (x : A) (l : list A) : list A :=
  match l with
  | [] => [x]
  | y :: l' => if key y <=? key x then x :: l else y :: insert_desc key x l'
  end.

Definition sorted_reverse {A} (key : A -> nat) (l : list A) : list A :=
  fold_right (insert_desc key) [] l.

(** ** Exceptions and results *)

Inductive exn_class :=
| Exception | TypeError | ValueError | AttributeError | KeyError
| JSONDecodeError | OverflowError | TimeoutError.

(** An exception: its class and [str(e)]. *)
Record exn := mk_exn { exn_cls : exn_class; exn_str : string }.

Inductive result (A : Type) :=
| Ok (a : A)
| Raise (e : exn).
Arguments Ok {A} a.
Arguments Raise {A} e.

Definition rbind {A B} (r : result A) (f : A -> result B) : result B :=
  match r with Ok a => f a | Raise e => Raise e end.

(** ** Python values *)

#[local] Set Warnings "-register-all".

Inductive pyval :=
| PNone
| PBool (b : bool)
| PInt (z : Z)
| PFloat (f : float)
| PStr (s : string)
| PList (l : list pyval)
| PDict (d : list (string * pyval)).

Definition type_name (v : pyval) : string :=
  match v with
  | PNone => "NoneType" | PBool _ => "bool" | PInt _ => "int"
  | PFloat _ => "float" | PStr _ => "str" | PList _ => "list"
  | PDict _ => "dict"
  end.

(** Truth value of an object: [not v] is its negation. *)
Definition truthy (v : pyval) : bool :=
  match v with
  | PNone => false
  | PBool b => b
  | PInt z => negb (z =? 0)%Z
  | PFloat f => negb (PrimFloat.eqb f 0%float)
  | PStr s => negb (is_empty s)
  | PList l => match l with [] => false | _ => true end
  | PDict d => match d with [] => false | _ => true end
  end.

(** [v == s] for a string constant [s]. *)
Definition eq_str (v : pyval) (s : string) : bool :=
  match v with PStr t => String.eqb t s | _ => false end.

Fixpoint dict_lookup (d : list (string * pyval)) (k : string) : option pyval :=
  match d with
  | [] => None
  | (k', v) :: d' => if String.eqb k' k then Some v else dict_lookup d' k
  end.

(** [d[k] = v] on a dict: an existing key keeps its place. *)
Fixpoint dict_store (d : list (string * pyval)) (k : string) (v : pyval)
  : list (string * pyval) :=
  match d with
  | [] => [(k, v)]
  | (k', v') :: d' =>
      if String.eqb k' k then (k', v) :: d' else (k', v') :: dict_store d' k v
  end.

Definition attribute_error (v : pyval) (attr : string) : exn :=
  mk_exn AttributeError
    ("'" ++ type_name v ++ "' object has no attribute '" ++ attr ++ "'").

(** [v.get(k, default)] *)
Definition py_get (v : pyval) (k : string) (default : pyval) : result pyval :=
  match v with
  | PDict d => Ok (match dict_lookup d k with Some x => x | None => default end)
  | _ => Raise (attribute_error v "get")
  end.

(** [k in v] for a string [k] *)
Definition py_in (k : string) (v : pyval) : result bool :=
  match v with
  | PDict d => Ok (match dict_lookup d k with Some _ => true | None => false end)
  | PList l => Ok (existsb (fun x => eq_str x k) l)
  | PStr s => Ok (str_in k s)
  | _ => Raise (mk_exn TypeError
                  ("argument of type '" ++ type_name v ++ "' is not iterable"))
  end.

(** [v[k]] for a string [k] *)
Definition py_getitem (v : pyval) (k : string) : result pyval :=
  match v with
  | PDict d =>
      match dict_lookup d k with
      | Some x => Ok x
      | None => Raise (mk_exn KeyError ("'" ++ k ++ "'"))
      end
  | PList _ =>
      Raise (mk_exn TypeError "list indices must be integers or slices, not str")
  | PStr _ => Raise (mk_exn TypeError "string indices must be integers, not 'str'")
  | _ => Raise (mk_exn TypeError
                  ("'" ++ type_name v ++ "' object is not subscriptable"))
  end.

(** [v[k] = x] for a string [k] *)
Definition py_setitem (v : pyval) (k : string) (x : pyval) : result pyval :=
  match v with
  | PDict d => Ok (PDict (dict_store d k x))
  | PList _ =>
      Raise (mk_exn TypeError "list indices must be integers or slices, not str")
  | _ => Raise (mk_exn TypeError
                  ("'" ++ type_name v ++ "' object does not support item assignment"))
  end.

(** *** Numbers *)

Fixpoint digits_value (acc : Z) (s : string) : Z :=
  match s with
  | "" => acc
  | String c s' => digits_value (10 * acc + Z.of_nat (nat_of_ascii c - 48))%Z s'
  end.

(** [int(s)] for a string of ASCII digits, as a regular expression group
    [\d+] yields it (the interpreter's optional limit on the number of
    digits is not modelled). *)
Definition int_of_digits (s : string) : Z := digits_value 0 s.

(** [str(n)] for a natural number *)
Definition str_of_nat (n : nat) : string :=
  NilEmpty.string_of_uint (Nat.to_uint n).

(** The whitespace [int] accepts around a number: the ASCII whitespace of
    the C locale and, below 256, the two other code points that
    [str.isspace] accepts outside ASCII (the separators 28 to 31 are not
    among them). *)
Definition int_space (c : ascii) : bool :=
  let n := nat_of_ascii c in
  ((9 <=? n) && (n <=? 13)) || (n =? 32) || (n =? 133) || (n =? 160).

Fixpoint skip_int_space (s : string) : string :=
  match s with
  | "" => ""
  | String c s' => if int_space c then skip_int_space s' else s
  end.

(** The scan of the digits of a literal, in which single underscores may
    stand between digits: the digits read and the text that follows them;
    [None] on a doubled underscore and on an underscore that no digit
    follows. *)
Fixpoint scan_digits (prev_underscore : bool) (s : string)
  : option (string * string) :=
  match s with
  | "" => if prev_underscore then None else Some ("", "")
  | String c s' =>
      if is_digit c then
        match scan_digits false s' with
        | Some (digits, rest) => Some (String c digits, rest)
        | None => None
        end
      else if Ascii.eqb c "_" then
        if prev_underscore then None else scan_digits true s'
      else if prev_underscore then None else Some ("", s)
  end.

(** [repr(s)] of a string: between single quotes, or between double quotes
    when the text holds a single quote and no double quote; the quote and
    the backslash are escaped, and so is every code point that is not
    printable. *)
Definition isprintable (c : ascii) : bool :=
  let n := nat_of_ascii c in
  ((32 <=? n) && (n <? 127)) || ((161 <=? n) && negb (n =? 173)).

Definition hex_digit (n : nat) : ascii :=
  ascii_of_nat (if n <? 10 then 48 + n else 87 + n).

Definition repr_char (quote c : ascii) : string :=
  if Ascii.eqb c quote || Ascii.eqb c "\" then String "\" (String c "")
  else if Ascii.eqb c "009" then "\t"
  else if Ascii.eqb c "010" then "\n"
  else if Ascii.eqb c "013" then "\r"
  else if isprintable c then String c ""
  else String "\" (String "x"
         (String (hex_digit (nat_of_ascii c / 16))
            (String (hex_digit (nat_of_ascii c mod 16)) ""))).

Fixpoint repr_chars (quote : ascii) (s : string) : string :=
  match s with
  | "" => ""
  | String c s' => repr_char quote c ++ repr_chars quote s'
  end.

Fixpoint has_char (c : ascii) (s : string) : bool :=
  match s with
  | "" => false
  | String a s' => Ascii.eqb a c || has_char c s'
  end.

Definition py_repr_str (s : string) : string :=
  let quote :=
    if has_char "'" s && negb (has_char "034" s) then "034"%char
    else "'"%char in
  String quote (repr_chars quote s ++ String quote "").

(** The largest number of digits [int] converts by default
    ([sys.int_info.default_max_str_digits]). *)
Definition INT_MAX_STR_DIGITS : nat := 4300.

(** [int(s)] on a string: whitespace, an optional sign, decimal digits with
    single underscores allowed between them, whitespace.  A number of
    more than [INT_MAX_STR_DIGITS] digits is refused (the limit of
    Python 3.11, with its message). *)
Definition int_of_str (s : string) : result Z :=
  let invalid :=
    Raise (mk_exn ValueError
             ("invalid literal for int() with base 10: "
              ++ take 200 (py_repr_str s))) in
  let t := skip_int_space s in
  let (negative, t) :=
    match t with
    | String "-" t' => (true, t')
    | String "+" t' => (false, t')
    | _ => (false, t)
    end in
  match t with
  | String "_" _ => invalid
  | _ =>
      match scan_digits false t with
      | None => invalid
      | Some (digits, rest) =>
          if INT_MAX_STR_DIGITS <? String.length digits then
            Raise (mk_exn ValueError
                     ("Exceeds the limit (" ++ str_of_nat INT_MAX_STR_DIGITS
                      ++ " digits) for integer string conversion: value has "
                      ++ str_of_nat (String.length digits)
                      ++ " digits; use sys.set_int_max_str_digits() to increase the limit"))
          else if is_empty digits then invalid
          else if is_empty (skip_int_space rest)
               then Ok (if negative then - int_of_digits digits
                        else int_of_digits digits)%Z
               else invalid
      end
  end.

(** [int(f)] on a float: truncation towards zero; it raises on NaN and on
    the infinities. *)
Definition int_of_float (f : float) : result Z :=
  match Prim2SF f with
  | S754_zero _ => Ok 0%Z
  | S754_finite sign m e =>
      let v := if (0 <=? e)%Z then Z.shiftl (Zpos m) e
               else Z.shiftr (Zpos m) (- e) in
      Ok (if sign then (- v)%Z else v)
  | S754_infinity _ =>
      Raise (mk_exn OverflowError "cannot convert float infinity to integer")
  | S754_nan => Raise (mk_exn ValueError "cannot convert float NaN to integer")
  end.

(** [int(v)] *)
Definition py_int (v : pyval) : result Z :=
  match v with
  | PInt z => Ok z
  | PBool b => Ok (if b then 1 else 0)%Z
  | PFloat f => int_of_float f
  | PStr s => int_of_str s
  | _ => Raise (mk_exn TypeError
                  ("int() argument must be a string, a bytes-like object or a real number, not '"
                   ++ type_name v ++ "'"))
  end.

(** [v < 3] *)
Definition py_lt_3 (v : pyval) : result bool :=
  match v with
  | PInt z => Ok (z <? 3)%Z
  | PBool _ => Ok true
  | PFloat f => Ok (PrimFloat.ltb f 3%float)
  | _ => Raise (mk_exn TypeError
                  ("'<' not supported between instances of '" ++ type_name v
                   ++ "' and 'int'"))
  end.

(** ** Regular expressions

    A backtracking matcher in the order of Python's [re]: alternatives left
    to right, greedy repetition longest first, lazy repetition shortest
    first.  One capture group is tracked. *)

Inductive regex :=
| Cls (p : ascii -> bool)          (* one character of a class *)
| Lit (s : string)                 (* a literal text *)
| Seq (a b : regex)
| Alt (a b : regex)
| Opt (a : regex)                  (* a? *)
| Star (a : regex)                 (* a*  *)
| LazyStar (a : regex)             (* a*? *)
| Group (a : regex).               (* (a), the group 1 *)

Definition Plus (a : regex) : regex := Seq a (Star a).

Record re_match := mk_match
  { m_start : nat; group0 : string; group1 : option string }.

Fixpoint rmatch {R} (r : regex) (s : string) (g : option string)
  (k : string -> option string -> option R) : option R :=
  match r with
  | Cls p =>
      match s with
      | String c s' => if p c then k s' g else None
      | "" => None
      end
  | Lit l => if startswith s l then k (drop (String.length l) s) g else None
  | Seq a b => rmatch a s g (fun s1 g1 => rmatch b s1 g1 k)
  | Alt a b =>
      match rmatch a s g k with
      | Some x => Some x
      | None => rmatch b s g k
      end
  | Opt a =>
      match rmatch a s g k with
      | Some x => Some x
      | None => k s g
      end
  | Star a =>
      (fix loop (fuel : nat) (s : string) (g : option string) : option R :=
         match fuel with
         | 0 => k s g
         | S fuel' =>
             match rmatch a s g
                     (fun s1 g1 =>
                        if String.length s1 <? String.length s
                        then loop fuel' s1 g1 else None)
             with
             | Some x => Some x
             | None => k s g
             end
         end) (String.length s) s g
  | LazyStar a =>
      (fix loop (fuel : nat) (s : string) (g : option string) : option R :=
         match k s g with
         | Some x => Some x
         | None =>
             match fuel with
             | 0 => None
             | S fuel' =>
                 rmatch a s g
                   (fun s1 g1 =>
                      if String.length s1 <? String.length s
                      then loop fuel' s1 g1 else None)
             end
         end) (String.length s) s g
  | Group a =>
      rmatch a s g
        (fun s1 _ => k s1 (Some (take (String.length s - String.length s1) s)))
  end.

(** [re.search(r, s)]: the match at the leftmost offset that has one. *)
Fixpoint re_search_from (r : regex) (offset : nat) (s : string) : option re_match :=
  match rmatch r s None
          (fun rest g =>
             Some (mk_match offset (take (String.length s - String.length rest) s) g))
  with
  | Some m => Some m
  | None =>
      match s with
      | "" => None
      | String _ s' => re_search_from r (S offset) s'
      end
  end.

Definition re_search (r : regex) (s : string) : option re_match :=
  re_search_from r 0 s.

Definition digit : regex := Cls is_digit.
Definition space_or_dash : regex :=
  Cls (fun c => isspace c || Ascii.eqb c "-").
(** [.] without DOTALL: any character but a newline *)
Definition dot : regex := Cls (fun c => negb (Ascii.eqb c "010")).
Definition seq (rs : list regex) : regex := fold_right Seq (Lit "") rs.
Definition alts (ls : list string) : regex :=
  match ls with
  | [] => Lit ""
  | l :: ls' => fold_left (fun r x => Alt r (Lit x)) ls' (Lit l)
  end.

(** ** Entity extraction without the model *)

(** [(\d+)[\s-]*(?:year|yr)s?[\s-]*old] *)
Definition AGE_RE : regex :=
  seq [Group (Plus digit); Star space_or_dash; alts ["year"; "yr"];
       Opt (Lit "s"); Star space_or_dash; Lit "old"].

(** [(\d+)[\s-]*(?:month|year|yr)s?[\s-]*old[\s-]*policy] *)
Definition OLD_POLICY_RE : regex :=
  seq [Group (Plus digit); Star space_or_dash; alts ["month"; "year"; "yr"];
       Opt (Lit "s"); Star space_or_dash; Lit "old"; Star space_or_dash;
       Lit "policy"].

(** [(\d+)[\s-]*(?:month|year|yr)s?[\s-]*policy] *)
Definition POLICY_RE : regex :=
  seq [Group (Plus digit); Star space_or_dash; alts ["month"; "year"; "yr"];
       Opt (Lit "s"); Star space_or_dash; Lit "policy"].

(** [(\d+)[\s-]*(?:month|year|yr)s?] *)
Definition DURATION_RE : regex :=
  seq [Group (Plus digit); Star space_or_dash; alts ["month"; "year"; "yr"];
       Opt (Lit "s")].

(** [year[\s-]*old|years[\s-]*old] *)
Definition YEAR_OLD_RE : regex :=
  Alt (seq [Lit "year"; Star space_or_dash; Lit "old"])
      (seq [Lit "years"; Star space_or_dash; Lit "old"]).

(** [int(m.group(1))]; the group is [\d+] in every pattern used here. *)
Definition group1_int (m : re_match) : Z :=
  int_of_digits (match group1 m with Some d => d | None => "" end).

(** The first entry of a list that occurs in the text. *)
Definition first_in (candidates : list string) (s : string) : option string :=
  List.find (fun w => str_in w s) candidates.

Definition is_ascii_alpha (c : ascii) : bool :=
  let n := nat_of_ascii c in
  ((65 <=? n) && (n <=? 90)) || ((97 <=? n) && (n <=? 122)).

(** [s.title()] on ASCII text (it is applied to the gazetteer entries). *)
Fixpoint title_from (prev_cased : bool) (s : string) : string :=
  match s with
  | "" => ""
  | String c s' =>
      let cased := is_ascii_alpha c in
      String (if cased then if prev_cased then lower_char c else upper_char c
              else c)
             (title_from cased s')
  end.
Definition title (s : string) : string := title_from false s.

Definition LOCATIONS : list string :=
  ["pune"; "mumbai"; "delhi"; "chennai"; "bangalore"; "hyderabad"; "kolkata"].
Definition PROCEDURES : list string :=
  ["surgery"; "treatment"; "operation"; "dental"; "cataract"; "heart"; "knee"].

Definition opt_str (o : option string) : pyval :=
  match o with Some s => PStr s | None => PNone end.

Definition fallback_gender (query_lower : string) : option string :=
  if str_in "male" query_lower || str_in "m" query_lower then Some "male"
  else if str_in "female" query_lower || str_in "woman" query_lower
       then Some "female"
       else None.

Definition fallback_policy_duration (query_lower : string) : Z :=
  match re_search OLD_POLICY_RE query_lower with
  | Some policy_match => group1_int policy_match
  | None =>
      match re_search POLICY_RE query_lower with
      | Some policy_match => group1_int policy_match
      | None =>
          match re_search DURATION_RE query_lower with
          | Some duration_match =>
              let match_pos := m_start duration_match in
              match re_search YEAR_OLD_RE
                      (slice query_lower None (Some (Z.of_nat match_pos + 20)%Z))
              with
              | None => group1_int duration_match
              | Some _ => 1%Z
              end
          | None => 1%Z
          end
      end
  end.

(** [QueryUnderstandingAgent._extract_entities_fallback] *)
Definition _extract_entities_fallback (query : string) : pyval :=
  let query_lower := lower query in
  let age :=
    match re_search AGE_RE query_lower with
    | Some age_match => PInt (group1_int age_match)
    | None => PNone
    end in
  let gender := fallback_gender query_lower in
  let location := option_map title (first_in LOCATIONS query_lower) in
  let procedure := first_in PROCEDURES query_lower in
  let policy_duration := fallback_policy_duration query_lower in
  PDict [ ("age", age);
          ("gender", opt_str gender);
          ("location", opt_str location);
          ("procedure", opt_str procedure);
          ("policy_duration_months", PInt policy_duration);
          ("intent", PStr "claim_eligibility") ].

(** ** Documents, prompts and the model API *)

Record Document := mk_doc
  { page_content : string; metadata : list (string * pyval) }.

(** A prompt, by the template it is built from and the data inserted in it
    (the wording of the templates is not reproduced). *)
Inductive prompt :=
| ExtractionPrompt (query : string)
| ReasoningPrompt (original_query : string) (structured_query : pyval)
                  (windows : list (pyval * string))
| RulesPrompt (structured_query : pyval) (policy_text : string)
| DecisionPrompt (original_query : string) (structured_query policy_rules : pyval)
| SummaryPrompt (question context : string)
| BatchPrompt (questions : list string) (contexts : list string).

(** What one [chat.completions.create] call does: it raises, or it returns
    a response whose [choices[0].message.content] is [None] or a text. *)
Inductive api_reply :=
| ApiRaises (e : exn)
| ApiContent (content : option string).

Definition primary_model : string := "openai/gpt-5-mini-2025-08-07".
Definition fallback_models : list string :=
  [ "openai/gpt-5-2025-08-07"; "openai/gpt-5-chat-latest";
    "openai/gpt-4o-mini"; "openai/gpt-3.5-turbo" ].

(** [content and content.strip()] *)
Definition usable (content : option string) : bool :=
  match content with
  | Some c => negb (is_empty c) && negb (is_empty (strip c))
  | None => false
  end.

Definition reply_usable (r : api_reply) : bool :=
  match r with ApiContent c => usable c | ApiRaises _ => false end.

(** An entry of the call log whose reply makes the client go on to the next
    model. *)
Definition unusable (entry : string * api_reply) : Prop :=
  reply_usable (snd entry) = false.

(** ** Records of the query pipeline *)

Record ClauseMapping := mk_clause { clause_text : string; source : pyval }.

Record Explanation := mk_explanation
  { exp_clause_mappings : list ClauseMapping; exp_audit_trail : list string }.

Record QueryContext := mk_context
  { original_query : string;
    structured_query : pyval;
    retrieved_docs : option (list Document);
    reasoning_chain : option (prompt * string);
    decision : pyval;
    explanation : option Explanation }.

(** [DecisionResponse]; [processing_time], a wall-clock reading, is left
    out. *)
Record DecisionResponse := mk_response
  { r_decision : pyval;
    r_amount : pyval;
    r_justification : pyval;
    r_clause_mappings : list ClauseMapping;
    r_confidence_score : pyval;
    r_audit_trail : list string }.

Definition QueryContext_new (query : string) : QueryContext :=
  mk_context query PNone None None PNone None.

Definition set_structured_query (c : QueryContext) (v : pyval) : QueryContext :=
  mk_context (original_query c) v (retrieved_docs c) (reasoning_chain c)
             (decision c) (explanation c).
Definition set_retrieved_docs (c : QueryContext) (d : list Document) : QueryContext :=
  mk_context (original_query c) (structured_query c) (Some d) (reasoning_chain c)
             (decision c) (explanation c).
Definition set_decision (c : QueryContext) (v : pyval) : QueryContext :=
  mk_context (original_query c) (structured_query c) (retrieved_docs c)
             (reasoning_chain c) v (explanation c).
Definition set_reasoning_chain (c : QueryContext) (p : prompt) (r : string)
  : QueryContext :=
  mk_context (original_query c) (structured_query c) (retrieved_docs c)
             (Some (p, r)) (decision c) (explanation c).
Definition set_explanation (c : QueryContext) (e : Explanation) : QueryContext :=
  mk_context (original_query c) (structured_query c) (retrieved_docs c)
             (reasoning_chain c) (decision c) (Some e).

(** ** State and effects

    The state threaded through the code: the outside world (the remote API
    and the vector store answer from it and may change it), the log of the
    API calls made so far, the retrieval cache of the
    [SemanticRetrievalAgent] and the pauses taken by [asyncio.sleep]. *)

Record state (W : Type) := mk_state
  { world : W;
    api_log : list (string * api_reply);
    retrieval_cache : list (string * list Document);
    sleeps : list Z }.
Arguments mk_state {W}.
Arguments world {W}.
Arguments api_log {W}.
Arguments retrieval_cache {W}.
Arguments sleeps {W}.

Definition M (W A : Type) : Type := state W -> result A * state W.

Definition ret {W A} (a : A) : M W A := fun st => (Ok a, st).
Definition raise {W A} (e : exn) : M W A := fun st => (Raise e, st).
Definition bind {W A B} (m : M W A) (f : A -> M W B) : M W B :=
  fun st => match m st with
            | (Ok a, st') => f a st'
            | (Raise e, st') => (Raise e, st')
            end.
(** [try: m  except Exception as e: handler e] *)
Definition catch {W A} (m : M W A) (handler : exn -> M W A) : M W A :=
  fun st => match m st with
            | (Ok a, st') => (Ok a, st')
            | (Raise e, st') => handler e st'
            end.
Definition lift {W A} (r : result A) : M W A := fun st => (r, st).
(** [if cond: raise e] *)
Definition raise_if {W} (cond : bool) (e : exn) : M W unit :=
  if cond then raise e else ret tt.

Notation "x <- m ;; k" := (bind m (fun x => k))
  (at level 61, m at next level, right associativity).
Notation "m ;;; k" := (bind m (fun _ => k))
  (at level 61, right associativity).

Fixpoint mapM {W A B} (f : A -> M W B) (l : list A) : M W (list B) :=
  match l with
  | [] => ret []
  | a :: l' => b <- f a ;; bs <- mapM f l' ;; ret (b :: bs)
  end.

(** An endpoint of the web application returns a value, raises an
    [HTTPException], which the framework answers with that status code
    and detail, or lets another exception escape. *)
Inductive endpoint_result (A : Type) :=
| Returned (a : A)
| HTTPException (status_code : Z) (detail : string)
| Escaped (e : exn).
Arguments Returned {A} a.
Arguments HTTPException {A} status_code detail.
Arguments Escaped {A} e.

Definition Endpoint (W A : Type) : Type := state W -> endpoint_result A * state W.

Definition http_raise {W A} (status_code : Z) (detail : string) : Endpoint W A :=
  fun st => (HTTPException status_code detail, st).
Definition returns {W A} (a : A) : Endpoint W A := fun st => (Returned a, st).
Definition then_ {W A B} (m : Endpoint W A) (f : A -> Endpoint W B)
  : Endpoint W B :=
  fun st => match m st with
            | (Returned a, st') => f a st'
            | (HTTPException status_code detail, st') =>
                (HTTPException status_code detail, st')
            | (Escaped e, st') => (Escaped e, st')
            end.
(** A computation inside an endpoint: what it raises escapes. *)
Definition run {W A} (m : M W A) : Endpoint W A :=
  fun st => match m st with
            | (Ok a, st') => (Returned a, st')
            | (Raise e, st') => (Escaped e, st')
            end.

(** ** Values shared by the decision tiers *)

Definition decision_record (d justification : string) (confidence : Z) : pyval :=
  PDict [ ("decision", PStr d);
          ("justification", PStr justification);
          ("amount", PNone);
          ("confidence_score", PInt confidence) ].

(** [_normalize_decision] as the call sites use it, on any value. *)
Definition normalize_decision_value (v : pyval) : result string :=
  if negb (truthy v) then Ok "PENDING"
  else match v with
       | PStr s => Ok (_normalize_decision s)
       | _ => Raise (attribute_error v "lower")
       end.

(** [str.isdigit] on one code point *)
Definition isdigit_char (c : ascii) : bool :=
  let n := nat_of_ascii c in
  is_digit c || (n =? 178) || (n =? 179) || (n =? 185).

Fixpoint str_filter (keep : ascii -> bool) (s : string) : string :=
  match s with
  | "" => ""
  | String c s' => if keep c then String c (str_filter keep s') else str_filter keep s'
  end.

Fixpoint str_forall (p : ascii -> bool) (s : string) : bool :=
  match s with
  | "" => true
  | String c s' => p c && str_forall p s'
  end.

(** The characters the amount pattern removes (those below 256): comma,
    [r], [s], whitespace, dollar, pound and yen signs. *)
Definition amount_noise (c : ascii) : bool :=
  isspace c || Ascii.eqb c "," || Ascii.eqb c "r" || Ascii.eqb c "s"
  || Ascii.eqb c "$" || (nat_of_ascii c =? 163) || (nat_of_ascii c =? 165).

Definition COVERAGE_KEYS : list string :=
  ["general_coverage"; "surgery"; "room_rent"; "icu"].

Fixpoint first_coverage (coverage : pyval) (keys : list string)
  : result (option pyval) :=
  match keys with
  | [] => Ok None
  | key :: keys' =>
      rbind (py_in key coverage) (fun present =>
        if present then
          rbind (py_getitem coverage key) (fun v =>
            if negb (eq_str v "as_per_policy") then Ok (Some v)
            else first_coverage coverage keys')
        else first_coverage coverage keys')
  end.

(** The body of the [try] block of [_process_amount_field]; a result of
    [Ok None] falls through to the policy rules. *)
Definition amount_from_model (amount_value : pyval) : result (option pyval) :=
  let provided :=
    truthy amount_value && negb (eq_str amount_value "null")
    && negb (match amount_value with
             | PStr s => String.eqb (lower s) "pending"
             | _ => false
             end) in
  if provided then
    match amount_value with
    | PStr s =>
        let clean_amount := str_filter (fun c => negb (amount_noise c)) s in
        if negb (is_empty clean_amount) && str_forall isdigit_char clean_amount
        then rbind (int_of_str clean_amount) (fun z => Ok (Some (PInt z)))
        else Ok None
    | PInt z => Ok (Some (PInt z))
    | PBool b => Ok (Some (PInt (if b then 1 else 0)))
    | PFloat f => rbind (int_of_float f) (fun z => Ok (Some (PInt z)))
    | _ => Ok None
    end
  else Ok None.

Definition amount_from_rules (policy_rules : pyval) : result pyval :=
  if truthy policy_rules then
    rbind (py_in "coverage_limits" policy_rules) (fun present =>
      if present then
        rbind (py_getitem policy_rules "coverage_limits") (fun coverage =>
          rbind (first_coverage coverage COVERAGE_KEYS) (fun found =>
            Ok (match found with Some v => v | None => PNone end)))
      else Ok PNone)
  else Ok PNone.

(** [DecisionReasoningAgent._process_amount_field] *)
Definition _process_amount_field (amount_value policy_rules : pyval) : pyval :=
  match rbind (amount_from_model amount_value) (fun r =>
          match r with
          | Some v => Ok v
          | None => amount_from_rules policy_rules
          end)
  with
  | Ok v => v
  | Raise _ => PNone
  end.

(** ** Policy rules without the model *)

(** The captured amount: digits, then any number of groups of a comma
    and digits. *)
Definition amount_group : regex :=
  Group (seq [Plus digit; Star (seq [Lit ","; Plus digit])]).

(** [waiting\s+period.*?(\d+)\s*(?:month|year)] *)
Definition WAITING_RE : regex :=
  seq [Lit "waiting"; Plus (Cls isspace); Lit "period"; LazyStar dot;
       Group (Plus digit); Star (Cls isspace); alts ["month"; "year"]].

(** The amount patterns with the key each one fills.  In the last one the
    alternatives for the rupee and euro signs, which lie above code point
    255, are omitted. *)
Definition AMOUNT_PATTERNS : list (regex * string) :=
  [ (seq [Lit "room"; Plus (Cls isspace); Lit "rent"; LazyStar dot; amount_group],
     "room_rent");
    (seq [Lit "icu"; LazyStar dot; amount_group], "icu");
    (seq [Lit "surgery"; LazyStar dot; amount_group], "surgery");
    (seq [Lit "coverage"; LazyStar dot; amount_group], "general_coverage");
    (seq [Lit "limit"; LazyStar dot; amount_group], "general_coverage");
    (seq [amount_group; Star (Cls isspace);
          Alt (Alt (Alt (Alt (Lit "rs") (Seq (Lit "rupee") (Opt (Lit "s"))))
                         (Seq (Lit "dollar") (Opt (Lit "s"))))
                    (Lit "$"))
              (Seq (Lit "euro") (Opt (Lit "s")))],
     "general_coverage") ].

Definition NEWLINE : string := String "010" "".

(** [DecisionReasoningAgent._extract_policy_rules_fallback] *)
Definition _extract_policy_rules_fallback (docs : list Document) : pyval :=
  let combined_text := join " " (map (fun doc => lower (page_content doc)) docs) in
  let waiting_periods :=
    match re_search WAITING_RE combined_text with
    | Some waiting_match =>
        [ ("major_surgery", PInt (group1_int waiting_match));
          ("minor_procedure", PInt (group1_int waiting_match));
          ("preventive_care", PStr "not_specified") ]
    | None =>
        [ ("major_surgery", PStr "not_specified");
          ("minor_procedure", PStr "not_specified");
          ("preventive_care", PStr "not_specified") ]
    end in
  let coverage_limits :=
    fold_left
      (fun coverage entry =>
         match re_search (fst entry) combined_text with
         | Some m =>
             let amount_str :=
               str_filter (fun c => negb (Ascii.eqb c ","))
                          (match group1 m with Some g => g | None => "" end) in
             let amount := PInt (int_of_digits amount_str) in
             match dict_lookup coverage (snd entry) with
             | Some v => if eq_str v "as_per_policy"
                         then dict_store coverage (snd entry) amount
                         else coverage
             | None => dict_store coverage (snd entry) amount
             end
         | None => coverage
         end)
      AMOUNT_PATTERNS
      [ ("room_rent", PStr "as_per_policy"); ("icu", PStr "as_per_policy");
        ("surgery", PStr "as_per_policy");
        ("general_coverage", PStr "as_per_policy") ] in
  PDict [ ("waiting_periods", PDict waiting_periods);
          ("coverage_limits", PDict coverage_limits);
          ("exclusions", PList []);
          ("special_benefits", PList []) ].

(** ** The evidence retriever's search string *)

(** The items of [" ".join(...)]: every one must be a [str]. *)
Fixpoint join_items (i : nat) (items : list pyval) : result (list string) :=
  match items with
  | [] => Ok []
  | PStr s :: rest => rbind (join_items (S i) rest) (fun l => Ok (s :: l))
  | v :: _ =>
      Raise (mk_exn TypeError
               ("sequence item " ++ str_of_nat i ++ ": expected str instance, "
                ++ type_name v ++ " found"))
  end.

(** The first statements of [SemanticRetrievalAgent.process]. *)
Definition search_query_of (structured_query : pyval) (original_query : string)
  : result string :=
  rbind (py_get structured_query "procedure" PNone) (fun procedure =>
  rbind (py_get structured_query "intent" PNone) (fun intent =>
  rbind (py_get structured_query "location" PNone) (fun location =>
  rbind (join_items 0
           (filter truthy [procedure; intent; location; PStr "waiting period"]))
        (fun parts =>
           let search_query := strip (join " " parts) in
           Ok (if is_empty search_query then original_query else search_query))))).

(** The value of an entry as a list of the words it contributes to the
    search string: nothing for null and for the empty string. *)
Definition present (o : option string) : list string :=
  match o with
  | Some s => if is_empty s then [] else [s]
  | None => []
  end.

(** ** The basic rules *)

Definition REQUIRED_KEYS : list string :=
  ["decision"; "justification"; "amount"; "confidence_score"].

(** [all(key in v for key in keys)] *)
Fixpoint all_keys_in (keys : list string) (v : pyval) : result bool :=
  match keys with
  | [] => Ok true
  | key :: keys' =>
      rbind (py_in key v) (fun present =>
        if present then all_keys_in keys' v else Ok false)
  end.

Fixpoint assoc_lookup {A} (l : list (string * A)) (k : string) : option A :=
  match l with
  | [] => None
  | (k', v) :: l' => if String.eqb k' k then Some v else assoc_lookup l' k
  end.

Fixpoint assoc_store {A} (l : list (string * A)) (k : string) (v : A)
  : list (string * A) :=
  match l with
  | [] => [(k, v)]
  | (k', v') :: l' =>
      if String.eqb k' k then (k', v) :: l' else (k', v') :: assoc_store l' k v
  end.

Definition docs_of (o : option (list Document)) : list Document :=
  match o with Some l => l | None => [] end.

(** The excerpts of [_build_reasoning_prompt], each with the [source] entry
    of its document. *)
Fixpoint reasoning_windows (original_query : string) (docs : list Document)
  (remaining : Z) : list (pyval * string) :=
  match docs with
  | [] => []
  | doc :: docs' =>
      if (remaining <=? 0)%Z then []
      else
        let excerpt :=
          build_windowed_context original_query (page_content doc)
                                 PER_CLAUSE_WINDOW in
        let take_ := slice excerpt None (Some remaining) in
        (match dict_lookup (metadata doc) "source" with
         | Some v => v
         | None => PStr "unknown"
         end, take_)
        :: reasoning_windows original_query docs'
             (remaining - Z.of_nat (String.length take_))
  end.

Definition _build_reasoning_prompt (structured_query : pyval)
  (docs : list Document) (original_query : string) : prompt :=
  ReasoningPrompt original_query structured_query
    (reasoning_windows original_query docs MAX_CONTEXT_CHARS).

Definition SENTINEL : string := "Not specified in the provided context.".

(** The decision values a response may carry, and the well-formedness of
    the decision record of a context: when it is a dict with a "decision"
    entry, the entry is one of the three normalised values. *)
Definition NORMALIZED : list string := ["APPROVED"; "REJECTED"; "PENDING"].
Definition DECISIONS : list string := ["APPROVED"; "REJECTED"; "PENDING"; "ERROR"].

Definition decision_entry_ok (v : pyval) : Prop :=
  forall d x,
    v = PDict d -> dict_lookup d "decision" = Some x ->
    exists s, x = PStr s /\ In s NORMALIZED.

(** A decision record as the tiers below the primary prompt produce it: a
    dict with a normalised decision and an integer confidence from 0 to
    100. *)
Definition tier_record (v : pyval) : Prop :=
  exists d s c,
    v = PDict d
    /\ dict_lookup d "decision" = Some (PStr s) /\ In s NORMALIZED
    /\ dict_lookup d "confidence_score" = Some (PInt c) /\ (0 <= c <= 100)%Z.

(** ** Stand-ins for the collaborators, used in the examples *)

Module Doubles.

(** A scripted API: the world is the list of the replies still to come, and
    every call takes the next one. *)
Definition scripted_create (model : string) (p : prompt) (w : list api_reply)
  : api_reply * list api_reply :=
  match w with
  | reply :: w' => (reply, w')
  | [] => (ApiRaises (mk_exn Exception "Connection error."), [])
  end.

(** A vector store that answers every search with the same documents. *)
Definition search_returning {W} (docs : list Document) (query : string) (k : Z)
  (w : W) : result (list Document) * W :=
  (Ok docs, w).

(** [json.loads] given by its value on the texts of an example. *)
Definition json_table (table : list (string * pyval)) (text : string)
  : result pyval :=
  match assoc_lookup table text with
  | Some v => Ok v
  | None =>
      Raise (mk_exn JSONDecodeError "Expecting value: line 1 column 1 (char 0)")
  end.

Definition no_deadline {W} (timeout : Z) (before after : W) : bool := false.

Definition context_stub {W} (k : Z) (docs : list Document)
  (doc_hash question : string) : M W string :=
  ret "".

Definition str_stub (v : pyval) : string := "?".

Definition start (replies : list api_reply) : state (list api_reply) :=
  mk_state replies [] [] [].

Definition policy_doc : Document :=
  mk_doc "Knee surgery is covered after a waiting period of 24 months."
         [("source", PStr "policy.pdf")].

Definition knee_query : string :=
  "46-year-old male, knee surgery in Pune, 3-month-old insurance policy".

(** A text between double quotes. *)
Definition quoted (s : string) : string := String "034" (s ++ String "034" "").

(** Two answers of the model, as JSON texts, and what [json.loads] makes of
    them. *)
Definition entities_text : string :=
  "{" ++ quoted "age" ++ ": 46, " ++ quoted "gender" ++ ": " ++ quoted "male"
  ++ ", " ++ quoted "location" ++ ": " ++ quoted "Pune" ++ ", "
  ++ quoted "procedure" ++ ": " ++ quoted "knee surgery" ++ ", "
  ++ quoted "policy_duration_months" ++ ": 3, " ++ quoted "intent" ++ ": "
  ++ quoted "claim_eligibility" ++ "}".

Definition entities_value : pyval :=
  PDict [ ("age", PInt 46); ("gender", PStr "male"); ("location", PStr "Pune");
          ("procedure", PStr "knee surgery");
          ("policy_duration_months", PInt 3);
          ("intent", PStr "claim_eligibility") ].

Definition decision_text : string :=
  "{" ++ quoted "decision" ++ ": " ++ quoted "APPROVED" ++ ", "
  ++ quoted "amount" ++ ": 50000, " ++ quoted "justification" ++ ": "
  ++ quoted "Covered." ++ ", " ++ quoted "confidence_score" ++ ": 250}".

Definition decision_value : pyval :=
  PDict [ ("decision", PStr "APPROVED"); ("amount", PInt 50000);
          ("justification", PStr "Covered.");
          ("confidence_score", PInt 250) ].

Definition example_json : string -> result pyval :=
  json_table [ (entities_text, entities_value); (decision_text, decision_value);
               ("null", PNone) ].

Definition timed_out : api_reply :=
  ApiRaises (mk_exn Exception "Request timed out.").

(** An API that is down: every call raises, whatever the world. *)
Definition failing_create {W} (model : string) (p : prompt) (w : W)
  : api_reply * W :=
  (ApiRaises (mk_exn Exception "Connection error."), w).

(** Collaborators of the batch endpoint: a document source that yields
    one file, a splitter that makes one chunk of a text, a model client
    that is ready, and a request with one question. *)
Definition fetched_text {W} (documents_url : pyval)
  : Endpoint W (string * string) :=
  returns ("policy.pdf",
           "Knee surgery is covered after a waiting period of 24 months.").
Definition hash_stub (raw_text : string) : string := "0f".
Definition one_chunk (chunk_size chunk_overlap : Z) (raw_text : string)
  : list string := [raw_text].
Definition client_ready {W} : M W unit := ret tt.
Definition no_other_questions {W} (questions : list pyval)
  (documents : list Document) (doc_length : Z) (doc_hash : string)
  : M W (list pyval) :=
  raise (mk_exn TypeError "object of type 'NoneType' has no len()").
Definition one_question_request : pyval :=
  PDict [ ("documents", PStr "https://example.org/policy.pdf");
          ("questions", PList [PStr "Is knee surgery covered?"]) ].

(** A vector store that is down. *)
Definition failing_search {W} (query : string) (k : Z) (w : W)
  : result (list Document) * W :=
  (Raise (mk_exn Exception "Vector store unavailable."), w).

End Doubles.

(** ** The pipeline over its collaborators *)

Section Pipeline.

Context {W : Type}.

(** [client.chat.completions.create(model=..., messages=[prompt], ...)] *)
Variable chat_completions_create : string -> prompt -> W -> api_reply * W.
(** [vector_store.similarity_search(query, k=k)] *)
Variable similarity_search : string -> Z -> W -> result (list Document) * W.
(** [json.loads] *)
Variable json_loads : string -> result pyval.
(** [str(v)] as an f-string renders a value that is not a [str] *)
Variable py_str : pyval -> string.

Definition format_value (v : pyval) : string :=
  match v with PStr s => s | _ => py_str v end.

(** *** GPT5Client *)

(** One API call; it is recorded in the log. *)
Definition call_model (model : string) (p : prompt) : M W (option string) :=
  fun st =>
    let (reply, w') := chat_completions_create model p (world st) in
    let st' := mk_state w' (api_log st ++ [(model, reply)])
                        (retrieval_cache st) (sleeps st) in
    match reply with
    | ApiRaises e => (Raise e, st')
    | ApiContent content => (Ok content, st')
    end.

(** The body of one [try] block: the call, then the check of the content. *)
Definition try_model (model : string) (p : prompt) : M W string :=
  content <- call_model model p ;;
  match content with
  | Some c =>
      if usable content then ret c
      else raise (mk_exn ValueError ("Empty response from " ++ model))
  | None => raise (mk_exn ValueError ("Empty response from " ++ model))
  end.

Definition all_models_failed : exn :=
  mk_exn Exception "All models failed to generate content".

Fixpoint try_fallbacks (models : list string) (p : prompt) : M W string :=
  match models with
  | [] => raise all_models_failed
  | fallback_model :: rest =>
      catch (try_model fallback_model p) (fun _ => try_fallbacks rest p)
  end.

(** [GPT5Client.generate_content_async] *)
Definition generate_content_async (p : prompt) : M W string :=
  catch (try_model primary_model p)
        (fun _ => try_fallbacks fallback_models p).

(** *** QueryUnderstandingAgent *)

Definition query_agent_process (context : QueryContext) : M W QueryContext :=
  let p := ExtractionPrompt (original_query context) in
  catch
    (response_text <- generate_content_async p ;;
     let cleaned_response := clean_json_response response_text in
     structured <- lift (json_loads cleaned_response) ;;
     ret (set_structured_query context structured))
    (fun _ =>
       ret (set_structured_query context
              (_extract_entities_fallback (original_query context)))).

(** *** SemanticRetrievalAgent *)

(** The cache lookup and, on a miss, the search and the cache update. *)
Definition cached_search (search_query : string) : M W (list Document) :=
  fun st =>
    match assoc_lookup (retrieval_cache st) search_query with
    | Some docs => (Ok docs, st)
    | None =>
        let (r, w') := similarity_search search_query 4%Z (world st) in
        match r with
        | Ok docs =>
            (Ok docs,
             mk_state w' (api_log st)
                      (assoc_store (retrieval_cache st) search_query docs)
                      (sleeps st))
        | Raise e =>
            (Raise e, mk_state w' (api_log st) (retrieval_cache st) (sleeps st))
        end
    end.

Definition retrieval_agent_process (context : QueryContext) : M W QueryContext :=
  search_query <- lift (search_query_of (structured_query context)
                                        (original_query context)) ;;
  catch
    (docs <- cached_search search_query ;;
     let ranked :=
       sorted_reverse
         (fun d => score_clause_bias (original_query context) (page_content d))
         docs in
     ret (set_retrieved_docs context ranked))
    (fun _ => ret (set_retrieved_docs context [])).

(** *** DecisionReasoningAgent *)

Definition _extract_policy_rules_ai (docs : list Document)
  (structured : pyval) : M W pyval :=
  catch
    (let policy_text :=
       join (NEWLINE ++ NEWLINE) (map page_content (firstn 3 docs)) in
     response <- generate_content_async
                   (RulesPrompt structured (slice policy_text None (Some 3000%Z))) ;;
     let rules_text := strip response in
     raise_if (is_empty rules_text || is_empty (strip rules_text))
              (mk_exn ValueError "Empty response from GPT-5") ;;;
     catch
       (let cleaned_rules := clean_json_response rules_text in
        raise_if (is_empty cleaned_rules || String.eqb (strip cleaned_rules) "")
                 (mk_exn ValueError "No JSON content after cleaning") ;;;
        lift (json_loads cleaned_rules))
       (fun _ => ret (_extract_policy_rules_fallback docs)))
    (fun _ => ret (_extract_policy_rules_fallback docs)).

Definition _make_ai_decision (structured policy_rules : pyval)
  (original : string) : M W pyval :=
  response <- generate_content_async
                (DecisionPrompt original structured policy_rules) ;;
  let decision_text := strip response in
  match re_search_braces decision_text with
  | Some json_text =>
      d <- lift (json_loads json_text) ;;
      complete <- lift (all_keys_in REQUIRED_KEYS d) ;;
      if complete then
        raw <- lift (py_getitem d "decision") ;;
        normalized <- lift (normalize_decision_value raw) ;;
        d <- lift (py_setitem d "decision" (PStr normalized)) ;;
        confidence <- lift (py_get d "confidence_score" (PInt 50)) ;;
        confidence <- lift (py_int confidence) ;;
        d <- lift (py_setitem d "confidence_score"
                     (PInt (Z.min 100 (Z.max 0 confidence)))) ;;
        original_amount <- lift (py_get d "amount" PNone) ;;
        lift (py_setitem d "amount"
                (_process_amount_field original_amount policy_rules))
      else raise (mk_exn ValueError "Missing required decision fields")
  | None => raise (mk_exn ValueError "No JSON found in decision response")
  end.

Definition _apply_basic_rules (structured : pyval) (docs : list Document)
  : result pyval :=
  rbind (py_get structured "age" PNone) (fun age =>
  rbind (py_get structured "procedure" PNone) (fun procedure =>
  rbind (py_get structured "policy_duration_months" (PInt 1)) (fun policy_duration =>
    if negb (truthy procedure) then
      Ok (decision_record "PENDING"
            "Procedure type not specified. Please provide more details about the medical procedure."
            30)
    else
      rbind (py_lt_3 policy_duration) (fun short =>
        if short then
          Ok (decision_record "PENDING"
                ("Policy is only " ++ format_value policy_duration
                 ++ " month(s) old. Please check waiting period requirements.")
                40)
        else
          Ok (decision_record "PENDING"
                ("Policy duration (" ++ format_value policy_duration
                 ++ " months) appears sufficient, but specific coverage details needed.")
                60))))).

Definition _make_decision_fallback (structured : pyval) (docs : list Document)
  (original : string) : M W pyval :=
  match docs with
  | [] =>
      ret (decision_record "PENDING"
             "Could not retrieve relevant policy documents. Please upload policy documents for accurate assessment."
             20)
  | _ =>
      catch
        (policy_rules <- _extract_policy_rules_ai docs structured ;;
         _make_ai_decision structured policy_rules original)
        (fun _ => lift (_apply_basic_rules structured docs))
  end.

Definition reasoning_agent_process (context : QueryContext) : M W QueryContext :=
  match docs_of (retrieved_docs context) with
  | [] =>
      ret (set_decision context
             (decision_record "PENDING"
                "Could not retrieve relevant policy documents." 20))
  | docs =>
      let p := _build_reasoning_prompt (structured_query context) docs
                                       (original_query context) in
      catch
        (response_text <- generate_content_async p ;;
         raise_if (is_empty response_text || is_empty (strip response_text))
                  (mk_exn ValueError "Empty response from GPT-5") ;;;
         let cleaned_response := clean_json_response response_text in
         raise_if (is_empty cleaned_response
                   || String.eqb (strip cleaned_response) "")
                  (mk_exn ValueError "No JSON content in response") ;;;
         d <- lift (json_loads cleaned_response) ;;
         present <- lift (py_in "decision" d) ;;
         d <- (if present then
                 raw <- lift (py_getitem d "decision") ;;
                 normalized <- lift (normalize_decision_value raw) ;;
                 lift (py_setitem d "decision" (PStr normalized))
               else ret d) ;;
         ret (set_reasoning_chain (set_decision context d) p response_text))
        (fun _ =>
           d <- _make_decision_fallback (structured_query context) docs
                                        (original_query context) ;;
           ret (set_decision context d))
  end.

(** *** ExplainabilityAgent *)

Definition explanation_agent_process (context : QueryContext) : M W QueryContext :=
  let decision_text :=
    match decision context with
    | PDict d =>
        if truthy (PDict d) then
          match dict_lookup d "decision" with
          | Some v => v
          | None => PStr "unknown"
          end
        else PStr "unknown"
    | _ => PStr "unknown"
    end in
  let docs := docs_of (retrieved_docs context) in
  ret (set_explanation context
         (mk_explanation
            (map (fun doc =>
                    mk_clause
                      (slice (page_content doc) None (Some 200%Z) ++ "...")
                      (match dict_lookup (metadata doc) "source" with
                       | Some v => v
                       | None => PStr "policy_document"
                       end))
                 (firstn 3 docs))
            [ "Extracted key entities from query.";
              "Retrieved " ++ str_of_nat (List.length docs)
              ++ " relevant policy documents.";
              "Applied rules to make a " ++ format_value decision_text
              ++ " decision." ])).

(** *** IntelliClaimRAG.process_query *)

(** The statements of the [try] block. *)
Definition process_query_body (query : string) : M W DecisionResponse :=
  let context := QueryContext_new query in
  context <- query_agent_process context ;;
  context <- retrieval_agent_process context ;;
  context <- reasoning_agent_process context ;;
  context <- explanation_agent_process context ;;
  let decision_data :=
    if truthy (decision context) then decision context else PDict [] in
  let explanation_data :=
    match explanation context with
    | Some e => e
    | None => mk_explanation [] []
    end in
  d <- lift (py_get decision_data "decision" (PStr "ERROR")) ;;
  amount <- lift (py_get decision_data "amount" PNone) ;;
  justification <- lift (py_get decision_data "justification"
                           (PStr "An unknown error occurred.")) ;;
  confidence <- lift (py_get decision_data "confidence_score" (PInt 0)) ;;
  ret (mk_response d amount justification
                   (exp_clause_mappings explanation_data)
                   confidence
                   (exp_audit_trail explanation_data)).

(** The response of the [except Exception as e] block. *)
Definition error_response (e : exn) : DecisionResponse :=
  mk_response (PStr "ERROR") PNone
              (PStr ("Processing failed: " ++ exn_str e))
              [] (PInt 0) ["Error occurred during processing"].

Definition process_query (query : string) (st : state W)
  : DecisionResponse * state W :=
  match process_query_body query st with
  | (Ok response, st') => (response, st')
  | (Raise e, st') => (error_response e, st')
  end.

(** *** Batched question answering ([generate_answer] and the batching at
    the end of [hackrx_run])

    These are the parts of the body of the endpoint [hackrx_run], which is
    defined after them. *)

(** [asyncio.wait_for] decides from the outside world whether the deadline
    passed before the call completed. *)
Variable deadline_passed : Z -> W -> W -> bool.
(** The statements of the loop over the questions that follow the
    computation of [k_val]: retrieval, windowing and summarisation, which
    yield the context of the question. *)
Variable context_for_question : Z -> list Document -> string -> string -> M W string.

Definition batch_max_retries : nat := 3.

Definition is_complex_batch (questions_batch : list string) : bool :=
  existsb (fun q => (50 <? String.length q)
                    || any_in ["derive"; "explain"; "list"; "how does"] (lower q))
          questions_batch.

Definition batch_timeout (questions_batch : list string) : Z :=
  if is_complex_batch questions_batch then 30%Z else 20%Z.

Definition dynamic_k (doc_length : Z) : Z :=
  if (doc_length <? 100000)%Z then 3%Z
  else if (doc_length <? 500000)%Z then 4%Z else 5%Z.

(** A call [obj.name(args)] where [name] is a plain function stored in the
    namespace of the class of [obj] (here the class made by
    [type('SimpleRetriever', (), {...})]): the function is bound to the
    instance, which is passed as one more positional argument, before the
    [supplied] ones. *)
Definition bound_call {A} (name : string) (positional_params supplied : nat)
  (body : M W A) : M W A :=
  if S supplied <=? positional_params then body
  else raise (mk_exn TypeError
                (name ++ "() takes " ++ str_of_nat positional_params
                 ++ (if positional_params =? 1 then " positional argument but "
                     else " positional arguments but ")
                 ++ str_of_nat (S supplied) ++ " were given")).

(** The name of [dynamic_k] in error messages (Python 3.10 and later use
    the qualified name of a nested function). *)
Definition dynamic_k_name : string :=
  "hackrx_run.<locals>.generate_answer.<locals>.dynamic_k".

(** One iteration of [for question in questions_batch].  The statements
    before the computation of [k_val] lower-case the question and set three
    flags from regular expressions; they cannot raise, and their values
    are used only by the statements after it. *)
Definition question_context (all_documents : list Document) (doc_length : Z)
  (doc_hash question : string) : M W string :=
  k_val <- bound_call dynamic_k_name 1 1 (ret (dynamic_k doc_length)) ;;
  context_for_question k_val all_documents doc_hash question.

Definition sentinels (questions_batch : list string) : list pyval :=
  map (fun _ => PStr SENTINEL) questions_batch.

Definition wait_for {A} (m : M W A) (timeout : Z) : M W A :=
  fun st =>
    let (r, st') := m st in
    if deadline_passed timeout (world st) (world st')
    then (Raise (mk_exn TimeoutError ""), st')
    else (r, st').

Definition sleep (seconds : Z) : M W unit :=
  fun st => (Ok tt, mk_state (world st) (api_log st) (retrieval_cache st)
                             (sleeps st ++ [seconds])).

Definition removeprefix (s p : string) : string :=
  if startswith s p then drop (String.length p) s else s.
Definition removesuffix (s p : string) : string :=
  if endswith s p && negb (is_empty p)
  then take (String.length s - String.length p) s else s.

(** The body of the [try] block of one attempt. *)
Definition batch_attempt (questions_batch : list string) (p : prompt)
  : M W (list pyval) :=
  response <- wait_for (generate_content_async p) (batch_timeout questions_batch) ;;
  let answers_text := strip response in
  answers <-
    match json_loads (strip (removesuffix (removeprefix answers_text "```json") "```")) with
    | Ok v => ret v
    | Raise _ =>
        match re_search_brackets answers_text with
        | Some m => lift (json_loads m)
        | None => ret (PList [])
        end
    end ;;
  match answers with
  | PList l =>
      if List.length l =? List.length questions_batch then ret l
      else raise (mk_exn ValueError "Mismatched answer count")
  | _ => raise (mk_exn ValueError "Mismatched answer count")
  end.

(** [for attempt in range(batch_max_retries)], from the given attempt on;
    [None] is the initial value of [answers]. *)
Fixpoint retry_from (remaining attempt : nat) (questions_batch : list string)
  (p : prompt) : M W (option (list pyval)) :=
  match remaining with
  | 0 => ret None
  | S remaining' =>
      catch
        (answers <- batch_attempt questions_batch p ;; ret (Some answers))
        (fun e =>
           if str_in "429" (exn_str e) && (attempt <? batch_max_retries - 1)
           then sleep (5 * 2 ^ Z.of_nat attempt)%Z ;;;
                retry_from remaining' (S attempt) questions_batch p
           else ret (Some (sentinels questions_batch)))
  end.

(** [try: m  except asyncio.TimeoutError: handler] *)
Definition catch_timeout {A} (m : M W A) (handler : M W A) : M W A :=
  fun st => match m st with
            | (Raise (mk_exn TimeoutError _), st') => handler st'
            | other => other
            end.

Definition generate_answer (questions_batch : list string)
  (all_documents : list Document) (doc_length : Z) (doc_hash : string)
  : M W (list pyval) :=
  catch_timeout
    (contexts <- mapM (question_context all_documents doc_length doc_hash)
                      questions_batch ;;
     let p := BatchPrompt questions_batch contexts in
     answers <- retry_from batch_max_retries 0 questions_batch p ;;
     match answers with
     | Some l => ret l
     | None => raise (mk_exn TypeError "'NoneType' object is not iterable")
     end)
    (ret (sentinels questions_batch)).

Definition batch_size : nat := 5.

(** [[questions[i:i + batch_size] for i in range(0, len(questions), batch_size)]] *)
Definition batches_of (questions : list string) : list (list string) :=
  map (fun i => firstn batch_size (skipn (batch_size * i) questions))
      (List.seq 0 ((List.length questions + (batch_size - 1)) / batch_size)).

(** The batching, the gathering of the batches (in batch order) and the
    flattening: three statements of the body of [hackrx_run], which
    reaches them only after its guards (see [hackrx_run] below). *)
Definition answer_batch (questions : list string) (documents : list Document)
  (doc_length : Z) (doc_hash : string) : M W (list pyval) :=
  batched_answers <- mapM (fun batch => generate_answer batch documents doc_length doc_hash)
                          (batches_of questions) ;;
  ret (concat batched_answers).

(** *** The chunking parameters

    [DocumentProcessor._split_text_dynamic] and [hackrx_run] choose the
    chunk size and the overlap handed to the text splitter from the length
    of the text. *)

Definition _split_text_dynamic_params (length : Z) : Z * Z :=
  if (length <? 100000)%Z then (400, 80)%Z
  else if (length <? 500000)%Z then (800, 150)%Z
  else (1500, 200)%Z.

Definition hackrx_chunk_size (doc_length : Z) : Z :=
  if (doc_length <? 100000)%Z then 500%Z
  else if (doc_length <? 500000)%Z then 1000%Z else 2000%Z.

Definition hackrx_chunk_overlap (doc_length : Z) : Z :=
  if (200000 <=? doc_length)%Z then 300%Z else 100%Z.

(** *** The endpoint [hackrx_run] *)

Section Endpoint.

(** The download of the document and the extraction of its text (from the
    parsing of the URL to the end of the extraction): the name of the file
    and the raw text, or the HTTP errors 500 and 400 of these statements.
    The file written there is removed by the [finally] clause at the end
    of the endpoint. *)
Variable fetch_text : pyval -> Endpoint W (string * string).
(** [hashlib.sha256(raw_text.encode(...)).hexdigest()] *)
Variable sha256_hexdigest : string -> string.
(** [RecursiveCharacterTextSplitter(chunk_size, chunk_overlap).split_text] *)
Variable split_text : Z -> Z -> string -> list string.
(** The choice of the vector store and the construction of the model
    client, which read the environment of the process. *)
Variable new_model_client : M W unit.
(** The batching on a list of questions with an entry that is not a
    string, on which [generate_answer] is not modelled. *)
Variable answer_other_questions :
  list pyval -> list Document -> Z -> string -> M W (list pyval).

(** [[Document(page_content=chunk, metadata={...}) for i, chunk in enumerate(chunks)]] *)
Fixpoint documents_from (filename : string) (i : Z) (chunks : list string)
  : list Document :=
  match chunks with
  | [] => []
  | chunk :: chunks' =>
      mk_doc chunk [("source", PStr filename); ("chunk", PInt i)]
      :: documents_from filename (i + 1)%Z chunks'
  end.

(** The questions of a request when every one is a string. *)
Fixpoint question_texts (questions : list pyval) : option (list string) :=
  match questions with
  | [] => Some []
  | PStr q :: questions' => option_map (cons q) (question_texts questions')
  | _ => None
  end.

(** [sum(1 for ans in answers if ans != SENTINEL and "Error" not in ans)] *)
Fixpoint successful_answers (answers : list pyval) : result nat :=
  match answers with
  | [] => Ok 0
  | ans :: answers' =>
      if negb (eq_str ans SENTINEL) then
        rbind (py_in "Error" ans) (fun found =>
          rbind (successful_answers answers') (fun n =>
            Ok (if found then n else S n)))
      else successful_answers answers'
  end.

(** [hackrx_run], on what [await request.json()] gives.  The test
    [not documents_url or not isinstance(questions, list) or not questions]
    is the last branch of the match together with the test of
    [documents_url].  The metrics are only printed; their computation is
    kept for what it can raise. *)
Definition hackrx_run (request_json : result pyval) : Endpoint W pyval :=
  then_ (http_raise 410
           "Endpoint deprecated. Use /upload-document, /upload-document-url, and /query.")
        (fun _ : unit =>
  then_ (run (lift request_json)) (fun body =>
  then_ (run (lift (py_get body "documents" PNone))) (fun documents_url =>
  then_ (run (lift (py_get body "questions" (PList [])))) (fun questions =>
  match questions with
  | PList (question :: more) =>
      if negb (truthy documents_url) then
        http_raise 400 "Missing or invalid documents URL or questions"
      else
        then_ (fetch_text documents_url) (fun fetched =>
        let (filename, raw_text) := fetched in
        let doc_hash := sha256_hexdigest raw_text in
        if is_empty (strip raw_text) then
          http_raise 400 "No text could be extracted from the document"
        else
          let doc_length := Z.of_nat (String.length raw_text) in
          let chunks :=
            split_text (hackrx_chunk_size doc_length)
                       (hackrx_chunk_overlap doc_length) raw_text in
          let documents := documents_from filename 0 chunks in
          then_ (run new_model_client) (fun _ =>
          then_ (run (match question_texts (question :: more) with
                      | Some texts =>
                          answer_batch texts documents doc_length doc_hash
                      | None =>
                          answer_other_questions (question :: more) documents
                                                 doc_length doc_hash
                      end)) (fun answers =>
          then_ (run (lift (successful_answers answers))) (fun _ =>
          returns (PDict [("answers", PList answers)])))))
  | _ => http_raise 400 "Missing or invalid documents URL or questions"
  end)))).

End Endpoint.

(** ** Notions used in the statements *)

(** [g] is a contiguous part of [s]. *)
Definition is_part (g s : string) : Prop :=
  exists pre post, s = pre ++ g ++ post.

(** The number of characters of the excerpts of a reasoning prompt. *)
Definition windows_total (windows : list (pyval * string)) : nat :=
  fold_right (fun w total => String.length (snd w) + total) 0 windows.

(** The query words [build_windowed_context] looks for. *)
Definition query_terms (query : string) : list string :=
  filter (fun w => 4 <=? String.length w) (findall_words (lower query)).

(** [score_clause_bias] over a given table of keywords. *)
Definition score_over (table : list (string * list string)) (query text : string)
  : nat :=
  let ql := lower query in
  let tl := lower text in
  fold_left
    (fun hits entry =>
       let keywords := snd entry in
       if any_in keywords ql
       then hits + List.length (filter (fun k => str_in k tl) keywords)
       else hits)
    table 0.

(** The table of keywords without its two upper-case entries. *)
Definition LOWER_CASE_KEYWORDS : list (string * list string) :=
  [ ("waiting period", ["waiting period"; "cooling period"; "initial waiting"]);
    ("pre-existing", ["pre-existing"]);
    ("maternity", ["maternity"; "pregnancy"; "childbirth"]);
    ("cataract", ["cataract"]);
    ("organ donor", ["organ donor"; "donor expenses"]);
    ("no claim", ["no claim discount"]);
    ("preventive", ["preventive"; "health check"]);
    ("hospital", ["hospital"; "inpatient"]);
    ("ayush", ["ayush"; "ayurveda"; "homeopathy"; "siddha"; "unani"]);
    ("room rent", ["room rent"; "icu charges"; "sub-limit"]) ].

(** A text that [lower] leaves unchanged. *)
Definition is_lower (s : string) : bool :=
  str_forall (fun c => Ascii.eqb (lower_char c) c) s.

(** The key by which the retriever ranks the documents of a query. *)
Definition bias_of (query : string) (d : Document) : nat :=
  score_clause_bias query (page_content d).

(** A text without any decimal digit. *)
Definition no_digits (s : string) : bool :=
  str_forall (fun c => negb (is_digit c)) s.

(** What is left of an amount text once the amount pattern has removed the
    separators and currency marks. *)
Definition clean_amount_of (s : string) : string :=
  str_filter (fun c => negb (amount_noise c)) s.

(** A coverage limit as the regular expression fallback produces it: the
    default marker or an amount that is not negative. *)
Definition coverage_value_ok (v : pyval) : Prop :=
  v = PStr "as_per_policy" \/ exists n, v = PInt n /\ (0 <= n)%Z.


(** Every model is down: no call to the API gives a usable reply. *)
Definition models_down : Prop :=
  forall model p w, reply_usable (fst (chat_completions_create model p w)) = false.

(** The texts in which no number has more digits than the interpreter
    converts to an integer by default: [longest_number] is the length of
    the longest run of decimal digits. *)
Fixpoint digit_runs (current best : nat) (s : string) : nat :=
  match s with
  | "" => Nat.max current best
  | String c s' =>
      if is_digit c then digit_runs (S current) best s'
      else digit_runs 0 (Nat.max current best) s'
  end.

Definition longest_number (s : string) : nat := digit_runs 0 0 s.

Definition numbers_convertible (s : string) : Prop :=
  longest_number s <= INT_MAX_STR_DIGITS.

(** A computation that makes at most [n] calls to the API, on any state:
    the call log grows by at most [n] entries. *)
Definition makes_at_most {A} (n : nat) (m : M W A) : Prop :=
  forall st, exists entries,
    api_log (snd (m st)) = (api_log st ++ entries)%list
    /\ List.length entries <= n.

(** * Properties *)

(** ** Facts about strings *)

Lemma length_take (n : nat) (s : string) :
  String.length (take n s) = Nat.min n (String.length s).
Proof.
  revert s; induction n as [|n IH]; intros [|c s]; simpl; auto.
Qed.

Lemma length_drop (n : nat) (s : string) :
  String.length (drop n s) = String.length s - n.
Proof.
  revert s; induction n as [|n IH]; intros [|c s]; simpl; auto.
Qed.

Lemma length_append (s t : string) :
  String.length (s ++ t) = String.length s + String.length t.
Proof. induction s as [|c s IH]; simpl; auto. Qed.

Lemma append_nil_r (s : string) : s ++ "" = s.
Proof. induction s as [|c s IH]; simpl; congruence. Qed.

Lemma append_assoc (s t u : string) : (s ++ t) ++ u = s ++ (t ++ u).
Proof. induction s as [|c s IH]; simpl; congruence. Qed.

Lemma drop_length_append (s t : string) : drop (String.length s) (s ++ t) = t.
Proof. induction s as [|c s IH]; simpl; auto. Qed.

Lemma take_all (n : nat) (s : string) : String.length s <= n -> take n s = s.
Proof.
  revert s; induction n as [|n IH]; intros [|c s] H; simpl in *; auto.
  - lia.
  - rewrite IH by lia. reflexivity.
Qed.

Lemma length_slice (s : string) (lo hi : option Z) :
  String.length (slice s lo hi) <= String.length s.
Proof.
  unfold slice. rewrite length_take, length_drop. lia.
Qed.

Lemma startswith_append (p s : string) : startswith (p ++ s) p = true.
Proof.
  induction p as [|c p IH]; simpl.
  - destruct s; reflexivity.
  - rewrite Ascii.eqb_refl. exact IH.
Qed.

Lemma startswith_inv (s p : string) :
  startswith s p = true -> exists post, s = p ++ post.
Proof.
  revert s; induction p as [|a p IH]; intros s H.
  - exists s. reflexivity.
  - destruct s as [|b s]; simpl in H; [discriminate|].
    apply andb_true_iff in H as [Hab Hrest].
    apply Ascii.eqb_eq in Hab. subst b.
    destruct (IH _ Hrest) as [post ->]. exists post. reflexivity.
Qed.

Lemma str_in_startswith (p s : string) :
  startswith s p = true -> str_in p s = true.
Proof. intros H. destruct s; cbn [str_in]; rewrite H; reflexivity. Qed.

Lemma str_in_append (p pre post : string) : str_in p (pre ++ p ++ post) = true.
Proof.
  induction pre as [|c pre IH]; simpl.
  - apply str_in_startswith, startswith_append.
  - rewrite IH. apply orb_true_r.
Qed.

Lemma str_in_inv (p s : string) :
  str_in p s = true -> exists pre post, s = pre ++ p ++ post.
Proof.
  induction s as [|c s IH]; cbn [str_in]; intros H.
  - rewrite orb_false_r in H. apply startswith_inv in H as [post ->].
    exists "", post. reflexivity.
  - apply orb_true_iff in H as [H|H].
    + apply startswith_inv in H as [post ->]. exists "", post. reflexivity.
    + destruct (IH H) as (pre & post & ->).
      exists (String c pre), post. reflexivity.
Qed.

(** A text that contains [b] contains every text that [b] contains. *)
Lemma str_in_trans (a b s : string) :
  str_in a b = true -> str_in b s = true -> str_in a s = true.
Proof.
  intros Hab Hbs.
  apply str_in_inv in Hab as (p1 & q1 & ->).
  apply str_in_inv in Hbs as (p2 & q2 & ->).
  replace (p2 ++ (p1 ++ a ++ q1) ++ q2) with ((p2 ++ p1) ++ a ++ (q1 ++ q2)).
  - apply str_in_append.
  - rewrite !append_assoc. reflexivity.
Qed.

(** ** The windowed excerpt *)

Lemma norm_index_nonneg (len i : Z) :
  (0 <= len)%Z -> (0 <= i)%Z -> norm_index len i = Z.min i len.
Proof.
  intros Hl Hi. unfold norm_index.
  destruct (Z.ltb_spec i 0); [lia | reflexivity].
Qed.

(** C9, excerpt bounded by the window size and by the source text: for
    every query, document text and window size, the excerpt of
    [build_windowed_context] is no longer than the document text and no
    longer than the window size.  A size is a number that is not negative,
    which is the hypothesis of the second part (the code passes the
    configured [PER_CLAUSE_WINDOW], 400). *)
Theorem build_windowed_context_bounded (query chunk : string) (window : Z) :
  String.length (build_windowed_context query chunk window) <= String.length chunk
  /\ ((0 <= window)%Z ->
      (Z.of_nat (String.length (build_windowed_context query chunk window))
       <= window)%Z).
Proof.
  split.
  - unfold build_windowed_context.
    destruct (first_hit _ _); apply length_slice.
  - intros Hw. unfold build_windowed_context.
    set (len := Z.of_nat (String.length chunk)).
    assert (Hlen : (0 <= len)%Z) by (unfold len; lia).
    destruct (first_hit _ _) as [hit|]; unfold slice; fold len;
      rewrite length_take, length_drop.
    + set (start := Z.max 0 (Z.of_nat hit - window / 2)).
      assert (Hs : (0 <= start)%Z) by (unfold start; lia).
      rewrite (norm_index_nonneg len start) by lia.
      rewrite (norm_index_nonneg len (Z.min len (start + window))) by lia.
      lia.
    + rewrite (norm_index_nonneg len (Z.min len window)) by lia.
      lia.
Qed.

(** ** The gender of the regular expression fallback *)

(** C10, the fallback extractor never answers "female": for every query the
    gender entry of [_extract_entities_fallback] is "male" or null; it is
    "male" exactly when the lower-cased query contains "male" or the letter
    "m"; and a query that contains "female" or "woman" contains the letter
    "m", so that the female branch is never taken. *)
Theorem fallback_gender_never_female (query : string) :
  let gender := py_get (_extract_entities_fallback query) "gender" PNone in
  let query_lower := lower query in
  (gender = Ok (PStr "male") \/ gender = Ok PNone)
  /\ gender <> Ok (PStr "female")
  /\ (gender = Ok (PStr "male") <->
      str_in "male" query_lower || str_in "m" query_lower = true)
  /\ (str_in "female" query_lower = true \/ str_in "woman" query_lower = true ->
      str_in "m" query_lower = true /\ gender = Ok (PStr "male")).
Proof using.
  cbv zeta.
  assert (Hm : str_in "female" (lower query) = true
               \/ str_in "woman" (lower query) = true ->
               str_in "m" (lower query) = true).
  { intros [H|H]; refine (str_in_trans "m" _ _ _ H); reflexivity. }
  assert (Hg : py_get (_extract_entities_fallback query) "gender" PNone
               = Ok (opt_str (fallback_gender (lower query)))) by reflexivity.
  rewrite Hg. unfold fallback_gender.
  destruct (str_in "male" (lower query) || str_in "m" (lower query)) eqn:Emale.
  - simpl. split; [left; reflexivity|]. split; [discriminate|].
    split; [split; reflexivity|].
    intros H. split; [exact (Hm H) | reflexivity].
  - apply orb_false_iff in Emale as [_ Em].
    destruct (str_in "female" (lower query) || str_in "woman" (lower query))
      eqn:Efem.
    + apply orb_true_iff in Efem. apply Hm in Efem. congruence.
    + simpl. split; [right; reflexivity|]. split; [discriminate|].
      split; [split; discriminate|].
      intros H. apply Hm in H. congruence.
Qed.

(** ** Decision normalisation *)

Lemma _normalize_decision_range (s : string) :
  In (_normalize_decision s) ["APPROVED"; "REJECTED"; "PENDING"].
Proof.
  unfold _normalize_decision.
  destruct (is_empty s); [simpl; auto|].
  destruct (any_in APPROVE_WORDS _); [simpl; auto|].
  destruct (any_in REJECT_WORDS _); [simpl; auto|].
  destruct (any_in PENDING_WORDS _); simpl; auto.
Qed.

(** The examples of the specification on which the code agrees. *)
Lemma _normalize_decision_examples :
  _normalize_decision "Approved" = "APPROVED"
  /\ _normalize_decision "claim rejected" = "REJECTED"
  /\ _normalize_decision "needs further investigation" = "PENDING"
  /\ _normalize_decision "" = "PENDING"
  /\ _normalize_decision "banana" = "PENDING".
Proof. repeat split; reflexivity. Qed.

Lemma lstrip_prefix (t : string) : exists pre, t = pre ++ lstrip t.
Proof.
  induction t as [|c t IH]; simpl.
  - exists "". reflexivity.
  - destruct (isspace c).
    + destruct IH as [pre IH]. exists (String c pre). simpl. congruence.
    + exists "". reflexivity.
Qed.

Lemma rstrip_suffix (t : string) : exists post, t = rstrip t ++ post.
Proof.
  induction t as [|c t IH]; simpl.
  - exists "". reflexivity.
  - destruct IH as [post IH].
    destruct (isspace c && is_empty (rstrip t)).
    + exists (String c t). reflexivity.
    + exists post. simpl. congruence.
Qed.

Lemma last_inv (w : string) (z : ascii) :
  last w = Some z -> exists w0, w = w0 ++ String z "".
Proof.
  induction w as [|c w IH]; simpl; [discriminate|].
  destruct w as [|d w].
  - intros H. injection H as ->. exists "". reflexivity.
  - intros H. destruct (IH H) as [w0 Hw0].
    exists (String c w0). simpl. congruence.
Qed.

Lemma rstrip_append (x y : string) :
  is_empty (rstrip y) = false -> rstrip (x ++ y) = x ++ rstrip y.
Proof.
  intros Hy. induction x as [|c x IH]; simpl; auto.
  rewrite IH.
  assert (E : is_empty (x ++ rstrip y) = false).
  { destruct x; simpl; auto. }
  rewrite E, andb_false_r. reflexivity.
Qed.

Lemma lstrip_keeps (p : string) (a : ascii) (rest : string) :
  isspace a = false ->
  exists p', lstrip (p ++ String a rest) = p' ++ String a rest.
Proof.
  intros Ha. induction p as [|c p IH]; simpl.
  - rewrite Ha. exists "". reflexivity.
  - destruct (isspace c); [exact IH|].
    exists (String c p). reflexivity.
Qed.

(** A trimmed word occurs in a text exactly when it occurs in the stripped
    text. *)
Lemma str_in_strip (w t : string) :
  trimmed w = true -> str_in w (strip t) = str_in w t.
Proof.
  intros Hw.
  destruct w as [|a w']; [discriminate|].
  cbn [trimmed] in Hw. apply andb_true_iff in Hw as [Ha Hz].
  apply negb_true_iff in Ha.
  destruct (last (String a w')) as [z|] eqn:El; [|discriminate].
  apply negb_true_iff in Hz.
  destruct (last_inv _ _ El) as [w0 Hw0].
  assert (Hto : str_in (String a w') (strip t) = true ->
                str_in (String a w') t = true).
  { intros H. apply str_in_inv in H as (p & q & Hs).
    destruct (lstrip_prefix t) as [pre Hpre].
    destruct (rstrip_suffix (lstrip t)) as [post Hpost].
    fold (strip t) in Hpost. rewrite Hpre, Hpost, Hs.
    replace (pre ++ (p ++ String a w' ++ q) ++ post)
      with ((pre ++ p) ++ String a w' ++ (q ++ post))
      by (rewrite !append_assoc; reflexivity).
    apply str_in_append. }
  assert (Hfrom : str_in (String a w') t = true ->
                  str_in (String a w') (strip t) = true).
  { intros H. apply str_in_inv in H as (p & q & ->).
    destruct (lstrip_keeps p a (w' ++ q) Ha) as [p' Hl].
    unfold strip. cbn [append] in Hl |- *. rewrite Hl.
    change (String a (w' ++ q)) with (String a w' ++ q). rewrite Hw0.
    replace (p' ++ (w0 ++ String z "") ++ q)
      with ((p' ++ w0) ++ String z q)
      by (rewrite !append_assoc; reflexivity).
    rewrite rstrip_append by (simpl; rewrite Hz; reflexivity).
    simpl. rewrite Hz. simpl.
    replace ((p' ++ w0) ++ String z (rstrip q))
      with (p' ++ (w0 ++ String z "") ++ rstrip q)
      by (rewrite !append_assoc; reflexivity).
    apply str_in_append. }
  destruct (str_in (String a w') (strip t)) eqn:E1,
           (str_in (String a w') t) eqn:E2;
    first [ reflexivity
          | symmetry; apply Hto; reflexivity
          | apply Hfrom; reflexivity ].
Qed.

Lemma any_in_strip (words : list string) (t : string) :
  forallb trimmed words = true -> any_in words (strip t) = any_in words t.
Proof.
  unfold any_in. induction words as [|w words IH]; simpl; auto.
  intros H. apply andb_true_iff in H as [Hw Hrest].
  rewrite (str_in_strip w t Hw), (IH Hrest). reflexivity.
Qed.

(** [_normalize_decision] is the cascade on the lower-cased text: the
    [strip] and the test for the empty text change nothing. *)
Lemma _normalize_decision_cascade (s : string) :
  _normalize_decision s = decision_cascade (lower s).
Proof.
  unfold _normalize_decision, decision_cascade.
  destruct s as [|c s]; [reflexivity|]. cbn [is_empty].
  rewrite !any_in_strip by reflexivity.
  destruct (any_in APPROVE_WORDS _); auto.
  destruct (any_in REJECT_WORDS _); auto.
  destruct (any_in PENDING_WORDS _); auto.
Qed.

(** C5, every text that contains "not eligible", in any letter case, is
    normalised to APPROVED and not to REJECTED: the approval words, which
    hold "eligible", are tried before the rejection words, which hold
    "not eligible". *)
Theorem normalize_decision_not_eligible (s : string) :
  str_in "not eligible" (lower s) = true ->
  any_in REJECT_WORDS (lower s) = true
  /\ _normalize_decision s = "APPROVED".
Proof.
  intros H. split.
  - unfold any_in, REJECT_WORDS. cbn [existsb]. rewrite H.
    rewrite !orb_true_r. reflexivity.
  - rewrite _normalize_decision_cascade. unfold decision_cascade.
    assert (He : str_in "eligible" (lower s) = true).
    { refine (str_in_trans "eligible" _ _ _ H). reflexivity. }
    unfold any_in, APPROVE_WORDS. cbn [existsb]. rewrite He.
    rewrite !orb_true_r. reflexivity.
Qed.

(** ** The response normaliser *)

Lemma rstrip_idempotent (s : string) : rstrip (rstrip s) = rstrip s.
Proof.
  induction s as [|c s IH]; simpl; auto.
  destruct (isspace c && is_empty (rstrip s)) eqn:E; simpl; auto.
  rewrite IH, E. reflexivity.
Qed.

Lemma lstrip_shape (s : string) :
  lstrip s = "" \/ exists c r, lstrip s = String c r /\ isspace c = false.
Proof.
  induction s as [|c s IH]; simpl; auto.
  destruct (isspace c) eqn:E; auto. right. eauto.
Qed.

Lemma strip_idempotent (s : string) : strip (strip s) = strip s.
Proof.
  unfold strip. destruct (lstrip_shape s) as [-> | (c & r & -> & Hc)].
  - reflexivity.
  - simpl. rewrite Hc. simpl. rewrite Hc. simpl.
    rewrite rstrip_idempotent, Hc. reflexivity.
Qed.

Lemma last_append_char (s : string) (c : ascii) :
  last (s ++ String c "") = Some c.
Proof.
  induction s as [|a s IH]; simpl; auto.
  rewrite IH. destruct (s ++ String c "") eqn:E; auto.
  destruct s; discriminate.
Qed.

Lemma rstrip_last (s : string) (c : ascii) :
  last s = Some c -> isspace c = false -> rstrip s = s.
Proof.
  induction s as [|a s IH]; simpl; intros Hl Hc; auto.
  destruct s as [|b s].
  - injection Hl as ->. simpl. rewrite Hc. reflexivity.
  - rewrite (IH Hl Hc). simpl. rewrite andb_false_r. reflexivity.
Qed.

Lemma endswith_last (s p : string) :
  endswith s p = true -> p <> "" -> last s = last p.
Proof.
  induction s as [|a s IH]; cbn [endswith]; intros H Hp.
  - rewrite orb_false_r in H. apply String.eqb_eq in H. congruence.
  - apply orb_true_iff in H as [H|H].
    + apply String.eqb_eq in H. congruence.
    + destruct s as [|b s].
      * cbn [endswith] in H. rewrite orb_false_r in H.
        apply String.eqb_eq in H. congruence.
      * rewrite <- (IH H Hp). reflexivity.
Qed.

Lemma index_of_append (c : ascii) (pre rest : string) :
  index_of c pre = None ->
  index_of c (pre ++ String c rest) = Some (String.length pre).
Proof.
  induction pre as [|a pre IH]; simpl; intros H.
  - rewrite Ascii.eqb_refl. reflexivity.
  - destruct (Ascii.eqb a c); [discriminate|].
    destruct (index_of c pre); [discriminate|].
    rewrite IH by reflexivity. reflexivity.
Qed.

Lemma slice_from_append (pre t : string) :
  slice (pre ++ t) (Some (Z.of_nat (String.length pre))) None = t.
Proof.
  unfold slice. rewrite length_append.
  rewrite norm_index_nonneg by lia.
  replace (Z.to_nat (Z.min (Z.of_nat (String.length pre))
                           (Z.of_nat (String.length pre + String.length t))))
    with (String.length pre) by lia.
  rewrite drop_length_append. apply take_all. lia.
Qed.

Lemma slice_from_zero (s : string) : slice s (Some (Z.of_nat 0)) None = s.
Proof. exact (slice_from_append "" s). Qed.

Lemma up_to_last_none (c : ascii) (s : string) :
  index_of c s = None -> up_to_last c s = None.
Proof.
  induction s as [|a s IH]; simpl; auto.
  destruct (Ascii.eqb a c); [discriminate|].
  destruct (index_of c s); [discriminate|].
  intros _. rewrite IH by reflexivity. reflexivity.
Qed.

Lemma up_to_last_append (c : ascii) (mid post : string) :
  index_of c post = None ->
  up_to_last c (mid ++ String c post) = Some (mid ++ String c "").
Proof.
  intros H. induction mid as [|a mid IH]; simpl.
  - rewrite (up_to_last_none _ _ H), Ascii.eqb_refl. reflexivity.
  - rewrite IH. reflexivity.
Qed.

Lemma up_to_last_shape (c : ascii) (s r : string) :
  up_to_last c s = Some r -> exists mid, r = mid ++ String c "".
Proof.
  revert r; induction s as [|a s IH]; simpl; intros r H; [discriminate|].
  destruct (up_to_last c s) as [r'|].
  - injection H as <-. destruct (IH r' eq_refl) as [mid ->].
    exists (String a mid). reflexivity.
  - destruct (Ascii.eqb a c) eqn:E; [|discriminate].
    apply Ascii.eqb_eq in E. subst a. injection H as <-.
    exists "". reflexivity.
Qed.

Lemma re_search_span_none (o c : ascii) (s : string) :
  index_of c s = None -> re_search_span o c s = None.
Proof.
  induction s as [|a s IH]; simpl; auto.
  destruct (Ascii.eqb a c); [discriminate|].
  destruct (index_of c s) eqn:E; [discriminate|]. intros _.
  rewrite (up_to_last_none _ _ E), IH by reflexivity.
  destruct (Ascii.eqb a o); reflexivity.
Qed.

Lemma re_search_span_shape (o c : ascii) (s g : string) :
  re_search_span o c s = Some g -> exists mid, g = String o (mid ++ String c "").
Proof.
  induction s as [|a s IH]; simpl; [discriminate|].
  destruct (Ascii.eqb a o) eqn:E; auto.
  destruct (up_to_last c s) as [r|] eqn:Er; auto.
  intros H. injection H as <-.
  apply Ascii.eqb_eq in E. subst a.
  destruct (up_to_last_shape _ _ _ Er) as [mid ->]. eauto.
Qed.

Lemma fence_stripped_blank (text : string) :
  is_empty text || is_empty (strip text) = true -> fence_stripped text = "".
Proof.
  intros H. unfold fence_stripped.
  assert (E : strip text = "").
  { apply orb_true_iff in H as [H|H].
    - destruct text; [reflexivity|discriminate].
    - destruct (strip text); [reflexivity|discriminate]. }
  rewrite E. reflexivity.
Qed.

Lemma clean_json_response_nonblank (text : string) :
  fence_stripped text <> "" ->
  clean_json_response text =
    match index_of "{" (fence_stripped text) with
    | None => fence_stripped text
    | Some start =>
        match re_search_braces
                (slice (fence_stripped text) (Some (Z.of_nat start)) None) with
        | Some g => g
        | None => fence_stripped text
        end
    end.
Proof.
  intros H. unfold clean_json_response.
  destruct (is_empty text || is_empty (strip text)) eqn:E; [|reflexivity].
  apply fence_stripped_blank in E. congruence.
Qed.

Lemma append_not_empty (pre rest : string) (c : ascii) :
  pre ++ String c rest <> "".
Proof. destruct pre; discriminate. Qed.

(** A closing brace follows the first opening brace: the span from the
    first opening brace to the last closing brace is returned. *)
Lemma clean_json_response_span (text pre mid post : string) :
  fence_stripped text = pre ++ String "{" (mid ++ String "}" post) ->
  index_of "{" pre = None ->
  index_of "}" post = None ->
  clean_json_response text = String "{" (mid ++ "}").
Proof.
  intros Ht Hpre Hpost.
  rewrite clean_json_response_nonblank
    by (rewrite Ht; apply append_not_empty).
  rewrite Ht, (index_of_append _ _ _ Hpre), slice_from_append.
  unfold re_search_braces. simpl.
  rewrite (up_to_last_append _ _ _ Hpost). reflexivity.
Qed.

(** No closing brace follows the first opening brace: the whole text is
    returned, as it is after the fences are removed. *)
Lemma clean_json_response_unclosed (text pre rest : string) :
  fence_stripped text = pre ++ String "{" rest ->
  index_of "{" pre = None ->
  index_of "}" rest = None ->
  clean_json_response text = fence_stripped text.
Proof.
  intros Ht Hpre Hrest.
  rewrite clean_json_response_nonblank
    by (rewrite Ht; apply append_not_empty).
  rewrite Ht, (index_of_append _ _ _ Hpre), slice_from_append.
  unfold re_search_braces. simpl.
  rewrite (up_to_last_none _ _ Hrest), (re_search_span_none _ _ _ Hrest).
  reflexivity.
Qed.

Lemma index_of_split (c : ascii) (t : string) (i : nat) :
  index_of c t = Some i ->
  t = take i t ++ String c (drop (S i) t) /\ index_of c (take i t) = None.
Proof.
  revert i. induction t as [|a t IH]; simpl; intros i H; [discriminate|].
  destruct (Ascii.eqb a c) eqn:E.
  - injection H as <-. apply Ascii.eqb_eq in E. subst a. auto.
  - destruct (index_of c t) as [k|]; [|discriminate].
    injection H as <-. destruct (IH k eq_refl) as [Ht Hn].
    cbn [take drop append index_of]. rewrite E, Hn. split; [|reflexivity].
    f_equal. exact Ht.
Qed.

(** A character that occurs in a text has a last occurrence. *)
Lemma last_occurrence (c : ascii) (s : string) (j : nat) :
  index_of c s = Some j ->
  exists mid post, s = mid ++ String c post /\ index_of c post = None.
Proof.
  revert j. induction s as [|a s IH]; simpl; intros j H; [discriminate|].
  destruct (index_of c s) as [k|] eqn:Es.
  - destruct (IH k eq_refl) as (mid & post & -> & Hp).
    exists (String a mid), post. auto.
  - destruct (Ascii.eqb a c) eqn:E; [|discriminate].
    apply Ascii.eqb_eq in E. subst a. exists "", s. auto.
Qed.

(** C6, what [clean_json_response] returns when the text, after the
    fences are removed, contains an opening brace: with a closing brace
    after the first opening brace, the span from the first opening brace to
    the last closing brace; with none, the whole text as it is after the
    fences are removed, the part before the opening brace included. *)
Theorem clean_json_response_object (text : string) (start : nat) :
  index_of "{" (fence_stripped text) = Some start ->
  let rest := drop (S start) (fence_stripped text) in
  (forall mid post,
      rest = mid ++ String "}" post -> index_of "}" post = None ->
      clean_json_response text = String "{" (mid ++ "}"))
  /\ (index_of "}" rest = None ->
      clean_json_response text = fence_stripped text).
Proof.
  intros Hstart rest.
  destruct (index_of_split _ _ _ Hstart) as [Ht Hpre]. fold rest in Ht.
  split.
  - intros mid post Hrest Hpost. rewrite Hrest in Ht.
    exact (clean_json_response_span text _ mid post Ht Hpre Hpost).
  - intros Hrest.
    exact (clean_json_response_unclosed text _ rest Ht Hpre Hrest).
Qed.

Lemma fence_stripped_stripped (text : string) :
  strip (fence_stripped text) = fence_stripped text.
Proof. unfold fence_stripped. apply strip_idempotent. Qed.

(** A text already stripped, with no fence at either end, is its own
    fence-stripped form. *)
Lemma fence_stripped_fixed (t : string) :
  strip t = t ->
  startswith t "```json" = false ->
  endswith t "```" = false ->
  fence_stripped t = t.
Proof.
  intros Hs Hp He. unfold fence_stripped. rewrite Hs, Hp, He. exact Hs.
Qed.

(** Cleaning a text that is its own fence-stripped form runs the search for
    the braces on that very text. *)
Lemma clean_json_response_fixed (t : string) :
  fence_stripped t = t ->
  clean_json_response t =
    match index_of "{" t with
    | None => t
    | Some start =>
        match re_search_braces (slice t (Some (Z.of_nat start)) None) with
        | Some g => g
        | None => t
        end
    end.
Proof.
  intros Hf. destruct t as [|c t].
  - reflexivity.
  - rewrite clean_json_response_nonblank by (rewrite Hf; discriminate).
    rewrite Hf. reflexivity.
Qed.

(** An extracted span is returned unchanged when it is cleaned again. *)
Lemma clean_json_response_of_span (mid : string) :
  clean_json_response (String "{" (mid ++ "}")) = String "{" (mid ++ "}").
Proof.
  assert (Hl : last (String "{" (mid ++ "}")) = Some "}"%char).
  { exact (last_append_char (String "{" mid) "}"). }
  assert (Hf : fence_stripped (String "{" (mid ++ "}")) = String "{" (mid ++ "}")).
  { apply fence_stripped_fixed.
    - unfold strip. cbn [lstrip]. change (isspace "{") with false. cbv iota.
      apply (rstrip_last _ "}"); [exact Hl | reflexivity].
    - reflexivity.
    - destruct (endswith (String "{" (mid ++ "}")) "```") eqn:E; auto.
      apply endswith_last in E; [|discriminate].
      rewrite Hl in E. discriminate. }
  rewrite (clean_json_response_fixed _ Hf).
  cbn [index_of]. change (Ascii.eqb "{" "{") with true. cbv iota.
  rewrite slice_from_zero.
  unfold re_search_braces. cbn [re_search_span].
  change (Ascii.eqb "{" "{") with true. cbv iota.
  rewrite (up_to_last_append "}" mid "" eq_refl). reflexivity.
Qed.

Lemma clean_json_response_idempotent_unfenced (x : string) :
  startswith (clean_json_response x) "```json" = false ->
  endswith (clean_json_response x) "```" = false ->
  clean_json_response (clean_json_response x) = clean_json_response x.
Proof.
  intros Hp He.
  destruct (is_empty x || is_empty (strip x)) eqn:Eblank.
  - assert (Hx : clean_json_response x = x).
    { unfold clean_json_response. rewrite Eblank. reflexivity. }
    rewrite Hx. exact Hx.
  - assert (Hc : clean_json_response x = fence_stripped x
                 \/ exists mid, clean_json_response x = String "{" (mid ++ "}")).
    { unfold clean_json_response. rewrite Eblank.
      destruct (index_of "{" (fence_stripped x)) as [start|]; auto.
      destruct (re_search_braces _) as [g|] eqn:E; auto.
      right. unfold re_search_braces in E.
      apply re_search_span_shape in E as [mid ->]. eauto. }
    destruct Hc as [Hc | [mid Hc]].
    + assert (Hfix : fence_stripped (fence_stripped x) = fence_stripped x).
      { apply fence_stripped_fixed.
        - apply fence_stripped_stripped.
        - rewrite <- Hc. exact Hp.
        - rewrite <- Hc. exact He. }
      rewrite Hc at 1. rewrite (clean_json_response_fixed _ Hfix).
      rewrite Hc. unfold clean_json_response in Hc. rewrite Eblank in Hc.
      exact Hc.
    + rewrite Hc. apply clean_json_response_of_span.
Qed.

(** C7, idempotence of [clean_json_response] on the texts whose cleaned
    form carries no further fence: for every text x such that
    clean_json_response(x) neither begins with a json fence nor ends with a
    fence, cleaning twice equals cleaning once; this covers every text
    that, after the fences are removed, has a closing brace after its first
    opening brace, whatever the number of its top-level objects. *)
Theorem clean_json_response_idempotent (x : string) :
  (startswith (clean_json_response x) "```json" = false ->
   endswith (clean_json_response x) "```" = false ->
   clean_json_response (clean_json_response x) = clean_json_response x)
  /\ (forall start j,
        index_of "{" (fence_stripped x) = Some start ->
        index_of "}" (drop (S start) (fence_stripped x)) = Some j ->
        clean_json_response (clean_json_response x) = clean_json_response x).
Proof.
  split.
  - apply clean_json_response_idempotent_unfenced.
  - intros start j Hstart Hj.
    destruct (index_of_split _ _ _ Hstart) as [Ht Hpre].
    destruct (last_occurrence _ _ _ Hj) as (mid & post & Hrest & Hpost).
    rewrite Hrest in Ht.
    rewrite (clean_json_response_span x _ mid post Ht Hpre Hpost).
    apply clean_json_response_of_span.
Qed.

(** ** The resilient model client *)

(** One [try] block makes one call; it returns the content of a usable
    reply and raises on any other reply. *)
Lemma try_model_spec (model : string) (p : prompt) (st : state W) :
  exists reply,
    api_log (snd (try_model model p st)) = (api_log st ++ [(model, reply)])%list
    /\ match fst (try_model model p st) with
       | Ok c => reply = ApiContent (Some c) /\ usable (Some c) = true
       | Raise _ => reply_usable reply = false
       end.
Proof.
  unfold try_model, bind, call_model.
  destruct (chat_completions_create model p (world st)) as [reply w'].
  exists reply.
  destruct reply as [e | [c|]];
    [ | destruct (usable (Some c)) eqn:E | ];
    unfold ret, raise; cbn [fst snd api_log reply_usable]; auto.
Qed.

Lemma try_fallbacks_spec (models : list string) (p : prompt) (st : state W) :
  exists entries rest,
    api_log (snd (try_fallbacks models p st)) = (api_log st ++ entries)%list
    /\ (map fst entries ++ rest)%list = models
    /\ match fst (try_fallbacks models p st) with
       | Ok c =>
           usable (Some c) = true
           /\ exists failed m,
               entries = (failed ++ [(m, ApiContent (Some c))])%list
               /\ Forall unusable failed
       | Raise e => e = all_models_failed /\ rest = [] /\ Forall unusable entries
       end.
Proof.
  revert st. induction models as [|m models IH]; intros st.
  - exists [], []. simpl. rewrite app_nil_r. auto.
  - cbn [try_fallbacks]. unfold catch.
    destruct (try_model_spec m p st) as (reply & Hlog & Hres).
    destruct (try_model m p st) as [[c|e] st1]; simpl in Hlog, Hres.
    + destruct Hres as [-> Hc].
      exists [(m, ApiContent (Some c))], models. simpl.
      repeat split; auto. exists [], m. auto.
    + destruct (IH st1) as (entries & rest & Hlog' & Hmodels & Hres').
      exists ((m, reply) :: entries), rest.
      rewrite Hlog', Hlog, <- app_assoc. simpl.
      repeat split; auto.
      * rewrite Hmodels. reflexivity.
      * destruct (fst (try_fallbacks models p st1)) as [c|e'].
        -- destruct Hres' as (Hc & failed & m' & -> & Hf).
           split; auto. exists ((m, reply) :: failed), m'.
           split; [reflexivity | constructor; assumption].
        -- destruct Hres' as (-> & -> & Hf).
           split; [reflexivity | split; [reflexivity | constructor; assumption]].
Qed.

(** C3, the order of the model calls: one call to [generate_content_async]
    calls the primary model first and exactly once; the calls that follow
    go to the fallback models in their configured order; the first usable
    reply (a content that is neither empty nor whitespace) is returned and
    no model is called after it; and an error is raised only when the
    primary and every fallback model gave an unusable reply. *)
Theorem generate_content_async_spec (p : prompt) (st : state W) :
  exists reply0 later rest,
    api_log (snd (generate_content_async p st))
    = (api_log st ++ (primary_model, reply0) :: later)%list
    /\ (map fst later ++ rest)%list = fallback_models
    /\ ~ In primary_model (map fst later)
    /\ match fst (generate_content_async p st) with
       | Ok c =>
           usable (Some c) = true
           /\ ((reply0 = ApiContent (Some c) /\ later = [])
               \/ (reply_usable reply0 = false
                   /\ exists failed m,
                       later = (failed ++ [(m, ApiContent (Some c))])%list
                       /\ Forall unusable failed))
       | Raise e =>
           e = all_models_failed /\ rest = []
           /\ reply_usable reply0 = false /\ Forall unusable later
       end.
Proof.
  unfold generate_content_async, catch.
  destruct (try_model_spec primary_model p st) as (reply0 & Hlog & Hres).
  destruct (try_model primary_model p st) as [[c|e] st1]; simpl in Hlog, Hres.
  - destruct Hres as [-> Hc].
    exists (ApiContent (Some c)), [], fallback_models.
    split; [exact Hlog|]. split; [reflexivity|]. split; [intros []|].
    split; [exact Hc | left; split; reflexivity].
  - destruct (try_fallbacks_spec fallback_models p st1)
      as (later & rest & Hlog' & Hmodels & Hres').
    exists reply0, later, rest.
    rewrite Hlog', Hlog, <- app_assoc.
    split; [reflexivity|]. split; [exact Hmodels|]. split.
    + intros Hin.
      assert (Hin' : In primary_model fallback_models).
      { rewrite <- Hmodels. apply in_or_app. auto. }
      simpl in Hin'. unfold primary_model in Hin'.
      repeat destruct Hin' as [Hin' | Hin']; try discriminate; auto.
    + destruct (fst (try_fallbacks fallback_models p st1)) as [c|e'].
      * destruct Hres' as (Hc & failed & m & -> & Hf). split; auto.
        right. split; auto. eauto.
      * destruct Hres' as (-> & -> & Hf). auto.
Qed.

(** ** The search string of the evidence retriever *)

Lemma str_forall_append (p : ascii -> bool) (a b : string) :
  str_forall p (a ++ b) = str_forall p a && str_forall p b.
Proof.
  induction a as [|c a IH]; simpl; auto. rewrite IH, andb_assoc. reflexivity.
Qed.

Lemma strip_not_empty (s : string) :
  str_forall isspace s = false -> is_empty (strip s) = false.
Proof.
  unfold strip. induction s as [|c s IH]; simpl; [discriminate|].
  destruct (isspace c) eqn:E; simpl; auto.
  intros _. rewrite E. reflexivity.
Qed.

Lemma join_snoc (sep w : string) (parts : list string) :
  exists pre, join sep (parts ++ [w])%list = pre ++ w.
Proof.
  induction parts as [|a parts IH].
  - exists "". reflexivity.
  - destruct IH as [pre IH]. cbn [app join].
    destruct (parts ++ [w])%list eqn:E.
    + destruct parts; discriminate.
    + rewrite IH. exists (a ++ sep ++ pre). rewrite !append_assoc. reflexivity.
Qed.

Lemma hinted_join_not_empty (parts : list string) :
  is_empty (strip (join " " (parts ++ ["waiting period"])%list)) = false.
Proof.
  destruct (join_snoc " " "waiting period" parts) as [pre ->].
  apply strip_not_empty. rewrite str_forall_append.
  apply andb_false_r.
Qed.

(** C8, the search string of [SemanticRetrievalAgent.process]: for every
    structured query whose procedure, intent and location entries are null
    or strings, the search string is the space-join of the non-null,
    non-empty values among procedure, intent and location, in that order,
    followed by the fixed hint "waiting period", with surrounding
    whitespace stripped; it is never empty, so the original query text is
    never used in its place. *)
Theorem search_query_of_spec (structured : pyval) (original : string)
  (procedure intent location : option string) :
  py_get structured "procedure" PNone = Ok (opt_str procedure) ->
  py_get structured "intent" PNone = Ok (opt_str intent) ->
  py_get structured "location" PNone = Ok (opt_str location) ->
  let words :=
    (present procedure ++ present intent ++ present location
     ++ ["waiting period"])%list in
  search_query_of structured original = Ok (strip (join " " words))
  /\ is_empty (strip (join " " words)) = false.
Proof.
  intros Hp Hi Hl words.
  assert (Hne : forall parts,
             (if is_empty (strip (join " " (parts ++ ["waiting period"])%list))
              then original
              else strip (join " " (parts ++ ["waiting period"])%list))
             = strip (join " " (parts ++ ["waiting period"])%list)).
  { intros parts. rewrite hinted_join_not_empty. reflexivity. }
  split.
  - unfold search_query_of. rewrite Hp, Hi, Hl. cbn [rbind].
    subst words.
    destruct procedure as [[|a1 s1]|], intent as [[|a2 s2]|],
             location as [[|a3 s3]|];
      cbn [opt_str filter truthy is_empty negb join_items rbind present app];
      match goal with
      | |- Ok (if is_empty (strip (join " " ?l)) then _ else _) = _ =>
          first [ exact (f_equal Ok (Hne [])) 
                | exact (f_equal Ok (Hne [_]))
                | exact (f_equal Ok (Hne [_; _]))
                | exact (f_equal Ok (Hne [_; _; _])) ]
      end.
  - subst words. rewrite !app_assoc. apply hinted_join_not_empty.
Qed.

(** ** Reasoning about the effects *)

Lemma bind_ok {A B} (m : M W A) (f : A -> M W B) (st st' : state W) (b : B) :
  bind m f st = (Ok b, st') ->
  exists a st1, m st = (Ok a, st1) /\ f a st1 = (Ok b, st').
Proof.
  unfold bind. destruct (m st) as [[a|e] st1]; intros H; [eauto|discriminate].
Qed.

Lemma catch_ok {A} (m : M W A) (h : exn -> M W A) (st st' : state W) (a : A) :
  catch m h st = (Ok a, st') ->
  m st = (Ok a, st')
  \/ exists e st1, m st = (Raise e, st1) /\ h e st1 = (Ok a, st').
Proof.
  unfold catch. destruct (m st) as [[x|e] st1]; intros H; [left|right]; eauto.
Qed.

Lemma lift_ok {A} (r : result A) (st st' : state W) (a : A) :
  lift r st = (Ok a, st') -> r = Ok a /\ st' = st.
Proof. unfold lift. intros H. injection H as -> ->. auto. Qed.

Lemma ret_ok {A} (x a : A) (st st' : state W) :
  ret x st = (Ok a, st') -> a = x /\ st' = st.
Proof. unfold ret. intros H. injection H as -> ->. auto. Qed.

Lemma raise_not_ok {A} (e : exn) (st st' : state W) (a : A) :
  raise e st = (Ok a, st') -> False.
Proof. unfold raise. discriminate. Qed.

Lemma rbind_ok {A B} (r : result A) (f : A -> result B) (b : B) :
  rbind r f = Ok b -> exists a, r = Ok a /\ f a = Ok b.
Proof. destruct r as [a|e]; simpl; intros H; [eauto|discriminate]. Qed.

Ltac invert_run :=
  repeat match goal with
    | H : bind _ _ _ = (Ok _, _) |- _ =>
        apply bind_ok in H; destruct H as (? & ? & ? & H)
    | H : lift _ _ = (Ok _, _) |- _ =>
        apply lift_ok in H; destruct H as [H ?]; subst
    | H : ret _ _ = (Ok _, _) |- _ =>
        apply ret_ok in H; destruct H as [? ?]; subst
    | H : raise _ _ = (Ok _, _) |- _ => destruct (raise_not_ok _ _ _ _ H)
    | H : rbind _ _ = Ok _ |- _ =>
        apply rbind_ok in H; destruct H as (? & ? & H)
    end.

(** ** Dictionaries *)

Lemma dict_lookup_store_same (d : list (string * pyval)) (k : string) (v : pyval) :
  dict_lookup (dict_store d k v) k = Some v.
Proof.
  induction d as [|[k' v'] d IH]; simpl.
  - rewrite String.eqb_refl. reflexivity.
  - destruct (String.eqb k' k) eqn:E; simpl; rewrite E; auto.
Qed.

Lemma dict_lookup_store_other (d : list (string * pyval)) (k k' : string)
  (v : pyval) :
  k <> k' -> dict_lookup (dict_store d k v) k' = dict_lookup d k'.
Proof.
  intros Hk. induction d as [|[k0 v0] d IH]; simpl.
  - destruct (String.eqb k k') eqn:E; auto.
    apply String.eqb_eq in E. contradiction.
  - destruct (String.eqb k0 k) eqn:E; simpl.
    + apply String.eqb_eq in E. subst k0.
      destruct (String.eqb k k') eqn:E'; auto.
      apply String.eqb_eq in E'. contradiction.
    + rewrite IH. reflexivity.
Qed.

Lemma py_setitem_ok (v x w : pyval) (k : string) :
  py_setitem v k x = Ok w ->
  exists d, v = PDict d /\ w = PDict (dict_store d k x).
Proof.
  destruct v; simpl; intros H; try discriminate.
  injection H as <-. eauto.
Qed.

(** ** The decision of a context *)

Lemma normalize_decision_value_range (v : pyval) (s : string) :
  normalize_decision_value v = Ok s -> In s NORMALIZED.
Proof.
  unfold normalize_decision_value.
  destruct (negb (truthy v)).
  - intros H. injection H as <-. simpl. auto.
  - destruct v; try discriminate. intros H. injection H as <-.
    apply _normalize_decision_range.
Qed.

Lemma decision_record_ok (d j : string) (c : Z) :
  In d NORMALIZED -> decision_entry_ok (decision_record d j c).
Proof.
  intros Hd d0 x H Hx. unfold decision_record in H. injection H as <-.
  simpl in Hx. injection Hx as <-. eauto.
Qed.

Lemma pending_normalized : In "PENDING" NORMALIZED.
Proof. simpl. auto. Qed.

Lemma stored_decision_ok (d : list (string * pyval)) (s : string) :
  In s NORMALIZED -> decision_entry_ok (PDict (dict_store d "decision" (PStr s))).
Proof.
  intros Hs d0 x H Hx. injection H as <-.
  rewrite dict_lookup_store_same in Hx. injection Hx as <-. eauto.
Qed.

Lemma _apply_basic_rules_ok (structured : pyval) (docs : list Document)
  (v : pyval) :
  _apply_basic_rules structured docs = Ok v ->
  exists j c, v = decision_record "PENDING" j c /\ In c [30; 40; 60]%Z.
Proof.
  unfold _apply_basic_rules. intros H. invert_run.
  destruct (negb (truthy _)).
  - injection H as <-. eexists _, _. split; [reflexivity|simpl; auto].
  - invert_run. destruct x2; injection H as <-;
      (eexists _, _; split; [reflexivity|simpl; auto]).
Qed.

Lemma decision_record_tier (d j : string) (c : Z) :
  In d NORMALIZED -> (0 <= c <= 100)%Z -> tier_record (decision_record d j c).
Proof.
  intros Hd Hc. unfold decision_record. eexists _, d, c.
  split; [reflexivity|]. simpl. auto.
Qed.

Lemma tier_record_entry_ok (v : pyval) : tier_record v -> decision_entry_ok v.
Proof.
  intros (d & s & c & -> & Hd & Hs & _) d0 x H Hx. injection H as <-.
  rewrite Hd in Hx. injection Hx as <-. eauto.
Qed.

(** The decision of the rule extraction tier: normalised, with the
    confidence clamped. *)
Lemma _make_ai_decision_ok (structured rules : pyval) (original : string)
  (st st' : state W) (v : pyval) :
  _make_ai_decision structured rules original st = (Ok v, st') -> tier_record v.
Proof.
  unfold _make_ai_decision. intros H. invert_run.
  destruct (re_search_braces _); [|invert_run].
  invert_run.
  match goal with
  | H : (if ?c then _ else _) _ = _ |- _ => destruct c; [|invert_run]
  end.
  invert_run.
  repeat match goal with
    | H : py_setitem _ _ _ = Ok _ |- _ =>
        apply py_setitem_ok in H; destruct H as (? & ? & ?); subst
    end.
  repeat match goal with
    | H : PDict _ = PDict _ |- _ => injection H as H; subst
    end.
  match goal with
  | H : normalize_decision_value _ = Ok ?s |- _ =>
      apply normalize_decision_value_range in H;
      eexists _, s, _; split; [reflexivity|]
  end.
  rewrite !dict_lookup_store_other by discriminate.
  rewrite dict_lookup_store_same.
  rewrite dict_lookup_store_other by discriminate.
  rewrite dict_lookup_store_same.
  repeat split; auto; lia.
Qed.

Lemma _make_decision_fallback_ok (structured : pyval) (docs : list Document)
  (original : string) (st st' : state W) (v : pyval) :
  _make_decision_fallback structured docs original st = (Ok v, st') ->
  tier_record v.
Proof.
  unfold _make_decision_fallback. destruct docs as [|doc docs].
  - intros H. invert_run. apply decision_record_tier; [apply pending_normalized|lia].
  - intros H. apply catch_ok in H as [H | (e & st1 & _ & H)].
    + invert_run. eapply _make_ai_decision_ok; eauto.
    + invert_run. apply _apply_basic_rules_ok in H as (j & c & -> & Hc).
      apply decision_record_tier; [apply pending_normalized|].
      simpl in Hc. lia.
Qed.

(** After the reasoning stage the decision record of the context is well
    formed. *)
Lemma reasoning_agent_process_ok (context context' : QueryContext)
  (st st' : state W) :
  reasoning_agent_process context st = (Ok context', st') ->
  decision_entry_ok (decision context').
Proof.
  unfold reasoning_agent_process.
  destruct (docs_of (retrieved_docs context)) as [|doc docs].
  - intros H. invert_run. cbn [set_decision decision].
    apply decision_record_ok, pending_normalized.
  - intros H. apply catch_ok in H as [H | (e & st1 & _ & H)].
    + invert_run. cbn [set_reasoning_chain set_decision decision].
      match goal with
      | H : (if ?c then _ else _) _ = _ |- _ => destruct c eqn:Epresent
      end.
      * invert_run.
        match goal with
        | H : py_setitem _ _ _ = Ok _ |- _ =>
            apply py_setitem_ok in H; destruct H as (? & ? & ?); subst
        end.
        apply stored_decision_ok.
        eapply normalize_decision_value_range; eauto.
      * invert_run. intros d0 entry Hd Hentry. subst.
        match goal with
        | H : py_in "decision" (PDict _) = Ok false |- _ =>
            simpl in H; rewrite Hentry in H; discriminate
        end.
    + invert_run. cbn [set_decision decision].
      apply tier_record_entry_ok. eapply _make_decision_fallback_ok; eauto.
Qed.

(** ** The query orchestrator *)

(** Whenever the four stages and the construction of the response complete,
    the decision of the response is one of the four decision values. *)
Lemma process_query_body_decision (query : string) (st st' : state W)
  (r : DecisionResponse) :
  process_query_body query st = (Ok r, st') ->
  exists s, r_decision r = PStr s /\ In s DECISIONS.
Proof.
  unfold process_query_body. intros H. invert_run.
  match goal with
  | H : explanation_agent_process _ _ = _ |- _ =>
      unfold explanation_agent_process in H
  end.
  invert_run. cbn [r_decision].
  match goal with
  | H : reasoning_agent_process _ _ = _ |- _ =>
      apply reasoning_agent_process_ok in H; rename H into Hok
  end.
  match goal with
  | H : py_get _ "decision" _ = Ok ?v |- _ => rename H into Hget
  end.
  cbn [set_explanation decision] in Hget.
  match type of Hget with
  | py_get (if truthy ?dec then _ else _) _ _ = _ =>
      destruct (truthy dec); [destruct dec eqn:Edec; try discriminate Hget|]
  end.
  - simpl in Hget. destruct (dict_lookup d "decision") as [entry|] eqn:El.
    + injection Hget as <-.
      destruct (Hok d entry eq_refl El) as (s & -> & Hs).
      exists s. split; auto. simpl in Hs |- *. tauto.
    + injection Hget as <-. exists "ERROR". simpl. auto 6.
  - simpl in Hget. injection Hget as <-. exists "ERROR". simpl. auto 6.
Qed.

Lemma process_query_decision (query : string) (st : state W) :
  exists s, r_decision (fst (process_query query st)) = PStr s /\ In s DECISIONS.
Proof.
  unfold process_query.
  destruct (process_query_body query st) as [[r|e] st'] eqn:E.
  - exact (process_query_body_decision query st st' r E).
  - exists "ERROR". simpl. auto 6.
Qed.

(** C1, [process_query] always answers, and its decision is never null: for
    every query, every state and every behaviour of the model API, the
    vector store and the JSON parser, the decision of the response is a
    string, one of APPROVED, REJECTED, PENDING and ERROR; and when an
    exception escapes the four stages, the response is the error response:
    decision ERROR, confidence 0, and the justification "Processing failed: "
    followed by the text of the exception. *)
Theorem process_query_total (query : string) (st : state W) :
  (exists s,
      r_decision (fst (process_query query st)) = PStr s /\ In s DECISIONS)
  /\ (forall e st',
        process_query_body query st = (Raise e, st') ->
        fst (process_query query st)
        = mk_response (PStr "ERROR") PNone
                      (PStr ("Processing failed: " ++ exn_str e))
                      [] (PInt 0) ["Error occurred during processing"]
        /\ str_in (exn_str e) ("Processing failed: " ++ exn_str e) = true).
Proof.
  split.
  - apply process_query_decision.
  - intros e st' H. unfold process_query. rewrite H. split; [reflexivity|].
    rewrite <- (append_nil_r (exn_str e)) at 2.
    apply str_in_append.
Qed.

(** ** Batched question answering *)

Lemma batches_of_cons (q : string) (questions : list string) :
  exists later,
    batches_of (q :: questions) = (q :: firstn 4 questions) :: later.
Proof.
  unfold batches_of, batch_size.
  replace (List.length (q :: questions) + (5 - 1))
    with (List.length questions + 1 * 5) by (simpl; lia).
  rewrite Nat.div_add by discriminate.
  rewrite Nat.add_1_r. cbn [List.seq map]. eauto.
Qed.

(** C2, the batch endpoint is gone: for every request, whatever the
    questions and whatever the document source, the model client and the
    other collaborators would do, [hackrx_run] raises the HTTP error 410
    (Endpoint deprecated) as its first statement; it returns no answer,
    reads nothing of the request and leaves the state as it was: no call
    to the model, no pause. *)
Theorem hackrx_run_gone
  (fetch_text : pyval -> Endpoint W (string * string))
  (sha256_hexdigest : string -> string)
  (split_text : Z -> Z -> string -> list string)
  (new_model_client : M W unit)
  (answer_other_questions :
     list pyval -> list Document -> Z -> string -> M W (list pyval))
  (request_json : result pyval) (st : state W) :
  hackrx_run fetch_text sha256_hexdigest split_text new_model_client
             answer_other_questions request_json st
  = (HTTPException 410
       "Endpoint deprecated. Use /upload-document, /upload-document-url, and /query.",
     st).
Proof. unfold hackrx_run, then_, http_raise. reflexivity. Qed.

(** The batching, were it reached, raises on every list of questions that
    is not empty: the first question of the first batch calls
    [retriever.dynamic_k(doc_length)], a plain function reached through an
    instance, which raises a TypeError; only a TimeoutError is caught
    around the body of [generate_answer], so the error escapes it and the
    gathering of the batches, before any call to the model. *)
Theorem answer_batch_raises (q : string) (questions : list string)
  (documents : list Document) (doc_length : Z) (doc_hash : string)
  (st : state W) :
  answer_batch (q :: questions) documents doc_length doc_hash st
  = (Raise (mk_exn TypeError
              (dynamic_k_name
               ++ "() takes 1 positional argument but 2 were given")),
     st).
Proof.
  unfold answer_batch.
  destruct (batches_of_cons q questions) as [later ->].
  reflexivity.
Qed.

Lemma answer_batch_empty (documents : list Document) (doc_length : Z)
  (doc_hash : string) (st : state W) :
  answer_batch [] documents doc_length doc_hash st = (Ok [], st).
Proof. reflexivity. Qed.

Lemma length_sentinels (questions_batch : list string) :
  List.length (sentinels questions_batch) = List.length questions_batch.
Proof. unfold sentinels. apply length_map. Qed.

Lemma batch_attempt_length (questions_batch : list string) (p : prompt)
  (st st' : state W) (l : list pyval) :
  batch_attempt questions_batch p st = (Ok l, st') ->
  List.length l = List.length questions_batch.
Proof.
  unfold batch_attempt. intros H. invert_run.
  match goal with
  | H : match ?a with PList _ => _ | _ => _ end _ = _ |- _ =>
      destruct a; try (destruct (raise_not_ok _ _ _ _ H))
  end.
  destruct (List.length l0 =? List.length questions_batch) eqn:E;
    [|destruct (raise_not_ok _ _ _ _ H)].
  invert_run. apply Nat.eqb_eq. exact E.
Qed.

(** The retry loop by itself always ends with one answer per question:
    the parsed answers of an attempt, or the sentinel once per question
    when an attempt fails with an error that is not retried. *)
Lemma retry_from_answers (questions_batch : list string) (p : prompt)
  (remaining attempt : nat) (st : state W) :
  0 < remaining -> attempt + remaining = batch_max_retries ->
  exists l,
    fst (retry_from remaining attempt questions_batch p st) = Ok (Some l)
    /\ List.length l = List.length questions_batch.
Proof.
  revert attempt st. induction remaining as [|remaining IH];
    intros attempt st Hpos Hsum; [lia|].
  cbn [retry_from]. unfold catch, bind at 1.
  destruct (batch_attempt questions_batch p st) as [[l|e] st1] eqn:E.
  - exists l. split; [reflexivity|].
    eapply batch_attempt_length; eauto.
  - destruct (str_in "429" (exn_str e) && (attempt <? batch_max_retries - 1))
      eqn:Eretry.
    + apply andb_true_iff in Eretry as [_ Hlt].
      apply Nat.ltb_lt in Hlt. unfold batch_max_retries in *.
      unfold bind, sleep.
      apply IH; lia.
    + exists (sentinels questions_batch). split; [reflexivity|].
      apply length_sentinels.
Qed.

(** A first attempt that fails with an error other than a rate limit, a
    timeout of the model call among them, ends the loop with the sentinel
    once per question. *)
Lemma retry_from_failure (questions_batch : list string) (p : prompt)
  (remaining attempt : nat) (st st1 : state W) (e : exn) :
  batch_attempt questions_batch p st = (Raise e, st1) ->
  str_in "429" (exn_str e) = false ->
  retry_from (S remaining) attempt questions_batch p st
  = (Ok (Some (sentinels questions_batch)), st1).
Proof.
  intros Hfail Hrate. cbn [retry_from]. unfold catch, bind at 1.
  rewrite Hfail, Hrate. reflexivity.
Qed.

Lemma batch_attempt_timeout (questions_batch : list string) (p : prompt)
  (st : state W) :
  deadline_passed (batch_timeout questions_batch) (world st)
                  (world (snd (generate_content_async p st))) = true ->
  batch_attempt questions_batch p st
  = (Raise (mk_exn TimeoutError ""), snd (generate_content_async p st)).
Proof.
  intros H. unfold batch_attempt, bind, wait_for.
  destruct (generate_content_async p st) as [r st1]. simpl in H.
  rewrite H. reflexivity.
Qed.

(** * Further properties of the code *)

(** ** Parts of a text *)

Lemma take_drop (n : nat) (s : string) : take n s ++ drop n s = s.
Proof.
  revert s; induction n as [|n IH]; intros [|c s]; simpl; auto.
  rewrite IH. reflexivity.
Qed.

Lemma is_part_refl (s : string) : is_part s s.
Proof. exists "", "". simpl. rewrite append_nil_r. reflexivity. Qed.

Lemma is_part_trans (a b c : string) : is_part a b -> is_part b c -> is_part a c.
Proof.
  intros (p1 & q1 & ->) (p2 & q2 & ->).
  exists (p2 ++ p1), (q1 ++ q2). rewrite !append_assoc. reflexivity.
Qed.

Lemma take_is_part (n : nat) (s : string) : is_part (take n s) s.
Proof.
  exists "", (drop n s). simpl. apply eq_sym, take_drop.
Qed.

Lemma drop_is_part (n : nat) (s : string) : is_part (drop n s) s.
Proof.
  exists (take n s), "". rewrite append_nil_r. apply eq_sym, take_drop.
Qed.

Lemma slice_is_part (s : string) (lo hi : option Z) : is_part (slice s lo hi) s.
Proof.
  unfold slice. eapply is_part_trans; [apply take_is_part | apply drop_is_part].
Qed.

Lemma lstrip_is_part (s : string) : is_part (lstrip s) s.
Proof.
  destruct (lstrip_prefix s) as [pre H]. exists pre, "".
  rewrite append_nil_r. exact H.
Qed.

Lemma rstrip_is_part (s : string) : is_part (rstrip s) s.
Proof.
  destruct (rstrip_suffix s) as [post H]. exists "", post. exact H.
Qed.

Lemma strip_is_part (s : string) : is_part (strip s) s.
Proof.
  unfold strip. eapply is_part_trans; [apply rstrip_is_part | apply lstrip_is_part].
Qed.

(** ** More on the windowed excerpt *)

(** The excerpt is cut out of the document: it is a contiguous part of the
    document text, whatever the query and the window size. *)
Theorem build_windowed_context_is_part (query chunk : string) (window : Z) :
  is_part (build_windowed_context query chunk window) chunk.
Proof.
  unfold build_windowed_context.
  destruct (first_hit _ _); apply slice_is_part.
Qed.

Lemma startswith_length (s p : string) :
  startswith s p = true -> String.length p <= String.length s.
Proof.
  intros H. apply startswith_inv in H as [post ->].
  rewrite length_append. lia.
Qed.

Lemma find_bound (s p : string) (i : nat) :
  find s p = Some i -> i + String.length p <= String.length s.
Proof.
  revert i. induction s as [|c s IH]; intros i; cbn [find].
  - destruct (startswith "" p) eqn:E; [|discriminate].
    intros H. injection H as <-. apply startswith_length in E. exact E.
  - destruct (startswith (String c s) p) eqn:E.
    + intros H. injection H as <-. apply startswith_length in E. exact E.
    + destruct (find s p) as [k|]; [|discriminate].
      intros H. injection H as <-. specialize (IH k eq_refl). simpl. lia.
Qed.

Lemma first_hit_some (cl : string) (terms : list string) (hit : nat) :
  first_hit cl terms = Some hit ->
  exists term, In term terms /\ find cl term = Some hit.
Proof.
  unfold first_hit. induction terms as [|t terms IH]; simpl; [discriminate|].
  destruct (find cl t) as [idx|] eqn:E.
  - intros H. injection H as <-. eauto.
  - intros H. destruct (IH H) as (term & Hin & Hf). eauto.
Qed.

Lemma query_terms_long (query term : string) :
  In term (query_terms query) -> 4 <= String.length term.
Proof.
  unfold query_terms. intros H. apply filter_In in H as [_ H].
  apply Nat.leb_le. exact H.
Qed.

(** The offset of a hit is an offset of the lower-cased document, and the
    excerpt is cut from the document itself.  When lower-casing keeps the
    length of the document (it lengthens only a text with the letter
    U+0130), a query word is found at offset [hit] and the window is at
    least 1, the excerpt starts at most half a window before the hit and
    reaches beyond it: the character at the hit is in the excerpt. *)
Theorem build_windowed_context_covers_hit (query chunk : string) (window : Z)
  (hit : nat) :
  String.length (lower chunk) = String.length chunk ->
  first_hit (lower chunk) (query_terms query) = Some hit ->
  (1 <= window)%Z ->
  exists pre post,
    chunk = pre ++ build_windowed_context query chunk window ++ post
    /\ String.length pre <= hit
    /\ hit < String.length pre
             + String.length (build_windowed_context query chunk window)
    /\ (Z.of_nat hit - Z.of_nat (String.length pre) <= window / 2)%Z.
Proof.
  intros Hlower Hhit Hw.
  assert (Hlen : hit + 4 <= String.length chunk).
  { destruct (first_hit_some _ _ _ Hhit) as (term & Hin & Hf).
    apply find_bound in Hf. apply query_terms_long in Hin.
    rewrite Hlower in Hf. lia. }
  unfold build_windowed_context. fold (query_terms query). rewrite Hhit.
  set (len := Z.of_nat (String.length chunk)).
  set (start := Z.max 0 (Z.of_nat hit - window / 2)).
  assert (Hhalf : (0 <= window / 2 < window)%Z).
  { split; [apply Z.div_pos; lia | apply Z.div_lt; lia]. }
  assert (Hs : (0 <= start <= Z.of_nat hit)%Z) by (unfold start; lia).
  unfold slice. fold len.
  rewrite (norm_index_nonneg len start) by (unfold len; lia).
  rewrite (norm_index_nonneg len (Z.min len (start + window)))
    by (unfold len; lia).
  exists (take (Z.to_nat (Z.min start len)) chunk).
  exists (drop (Z.to_nat (Z.min (Z.min len (start + window)) len
                          - Z.min start len))
               (drop (Z.to_nat (Z.min start len)) chunk)).
  rewrite take_drop, take_drop.
  rewrite !length_take, length_drop.
  split; [reflexivity|].
  unfold len in *. unfold start in *. lia.
Qed.

(** When no query word of four characters or more occurs in the document,
    the excerpt is the beginning of the document. *)
Theorem build_windowed_context_no_hit (query chunk : string) (window : Z) :
  first_hit (lower chunk) (query_terms query) = None ->
  (0 <= window)%Z ->
  build_windowed_context query chunk window
  = take (Nat.min (String.length chunk) (Z.to_nat window)) chunk.
Proof.
  intros Hhit Hw. unfold build_windowed_context.
  fold (query_terms query). rewrite Hhit. unfold slice.
  rewrite norm_index_nonneg by lia. cbn [drop Z.to_nat].
  f_equal. lia.
Qed.

(** The length bound of the excerpt, for a window that is not negative. *)
Lemma windowed_excerpt_within_window (query chunk : string) (window : Z) :
  (0 <= window)%Z ->
  (Z.of_nat (String.length (build_windowed_context query chunk window))
   <= window)%Z.
Proof.
  intros Hw. unfold build_windowed_context.
  set (len := Z.of_nat (String.length chunk)).
  assert (Hlen : (0 <= len)%Z) by (unfold len; lia).
  destruct (first_hit _ _) as [hit|]; unfold slice; fold len;
    rewrite length_take, length_drop.
  - set (start := Z.max 0 (Z.of_nat hit - window / 2)).
    assert (Hs : (0 <= start)%Z) by (unfold start; lia).
    rewrite (norm_index_nonneg len start) by lia.
    rewrite (norm_index_nonneg len (Z.min len (start + window))) by lia.
    lia.
  - rewrite (norm_index_nonneg len (Z.min len window)) by lia. lia.
Qed.

Lemma reasoning_windows_budget (original : string) (docs : list Document)
  (remaining : Z) :
  (0 <= remaining)%Z ->
  (Z.of_nat (windows_total (reasoning_windows original docs remaining))
   <= remaining)%Z
  /\ Forall (fun w => String.length (snd w) <= 400)
            (reasoning_windows original docs remaining)
  /\ List.length (reasoning_windows original docs remaining)
     <= List.length docs.
Proof.
  revert remaining. induction docs as [|doc docs IH]; intros remaining Hr.
  - simpl. repeat split; auto; lia.
  - cbn [reasoning_windows].
    destruct (Z.leb_spec remaining 0) as [Hle|Hgt].
    + simpl. repeat split; auto; lia.
    + set (excerpt := build_windowed_context original (page_content doc)
                                             PER_CLAUSE_WINDOW).
      set (take_ := slice excerpt None (Some remaining)).
      assert (Hex : String.length excerpt <= 400).
      { pose proof (windowed_excerpt_within_window original (page_content doc)
                      PER_CLAUSE_WINDOW) as H.
        fold excerpt in H. unfold PER_CLAUSE_WINDOW in H. lia. }
      assert (Htake : (Z.of_nat (String.length take_) <= remaining)%Z
                      /\ String.length take_ <= String.length excerpt).
      { unfold take_, slice. rewrite norm_index_nonneg by lia.
        rewrite length_take. cbn [drop Z.to_nat]. lia. }
      destruct (IH (remaining - Z.of_nat (String.length take_))%Z)
        as (Htot & Hall & Hcount); [lia|].
      cbn [windows_total fold_right snd List.length].
      fold (windows_total
              (reasoning_windows original docs
                 (remaining - Z.of_nat (String.length take_)))).
      split; [lia|]. split; [|lia].
      constructor; [cbn [snd]; lia | exact Hall].
Qed.

(** The excerpts of a reasoning prompt respect the context budget: together
    they hold at most 1500 characters, each holds at most 400, and there is
    at most one per document. *)
Theorem reasoning_prompt_within_budget (structured : pyval)
  (docs : list Document) (original : string) :
  exists windows,
    _build_reasoning_prompt structured docs original
    = ReasoningPrompt original structured windows
    /\ windows_total windows <= 1500
    /\ Forall (fun w => String.length (snd w) <= 400) windows
    /\ List.length windows <= List.length docs.
Proof.
  exists (reasoning_windows original docs MAX_CONTEXT_CHARS).
  split; [reflexivity|].
  destruct (reasoning_windows_budget original docs MAX_CONTEXT_CHARS)
    as (H1 & H2 & H3); [unfold MAX_CONTEXT_CHARS; lia|].
  set (windows := reasoning_windows original docs MAX_CONTEXT_CHARS) in *.
  unfold MAX_CONTEXT_CHARS in H1.
  split; [lia|]. split; assumption.
Qed.

(** ** More on the response normaliser *)

Lemma up_to_last_prefix (c : ascii) (s r : string) :
  up_to_last c s = Some r -> exists post, s = r ++ post.
Proof.
  revert r; induction s as [|a s IH]; simpl; intros r H; [discriminate|].
  destruct (up_to_last c s) as [r'|].
  - injection H as <-. destruct (IH r' eq_refl) as [post Hp].
    exists post. simpl. congruence.
  - destruct (Ascii.eqb a c); [|discriminate].
    injection H as <-. exists s. reflexivity.
Qed.

Lemma re_search_span_is_part (o c : ascii) (s g : string) :
  re_search_span o c s = Some g -> is_part g s.
Proof.
  induction s as [|a s IH]; simpl; [discriminate|].
  assert (Hrec : re_search_span o c s = Some g -> is_part g (String a s)).
  { intros H. destruct (IH H) as (pre & post & ->).
    exists (String a pre), post. reflexivity. }
  destruct (Ascii.eqb a o); auto.
  destruct (up_to_last c s) as [r|] eqn:Er; auto.
  intros H. injection H as <-.
  destruct (up_to_last_prefix _ _ _ Er) as [post ->].
  exists "", post. reflexivity.
Qed.

Lemma fence_stripped_is_part (text : string) : is_part (fence_stripped text) text.
Proof.
  unfold fence_stripped.
  eapply is_part_trans; [apply strip_is_part|].
  eapply is_part_trans; [|apply strip_is_part].
  destruct (startswith (strip text) "```json").
  - eapply is_part_trans; [|apply slice_is_part].
    destruct (endswith _ "```"); [apply slice_is_part | apply is_part_refl].
  - destruct (endswith _ "```"); [apply slice_is_part | apply is_part_refl].
Qed.

(** [clean_json_response] only cuts: its result is a contiguous part of its
    input, so every character of the result comes from the model's text. *)
Theorem clean_json_response_is_part (text : string) :
  is_part (clean_json_response text) text.
Proof.
  unfold clean_json_response.
  destruct (is_empty text || is_empty (strip text)); [apply is_part_refl|].
  destruct (index_of "{" (fence_stripped text)) as [start|];
    [|apply fence_stripped_is_part].
  destruct (re_search_braces _) as [g|] eqn:E; [|apply fence_stripped_is_part].
  unfold re_search_braces in E. apply re_search_span_is_part in E.
  eapply is_part_trans; [exact E|].
  eapply is_part_trans; [apply slice_is_part | apply fence_stripped_is_part].
Qed.

Lemma strip_of_span (mid : string) :
  strip (String "{" (mid ++ "}")) = String "{" (mid ++ "}").
Proof.
  unfold strip. cbn [lstrip]. change (isspace "{") with false. cbv iota.
  apply (rstrip_last _ "}"); [|reflexivity].
  exact (last_append_char (String "{" mid) "}").
Qed.

(** The result of cleaning a text that is not blank has no whitespace at
    either end. *)
Theorem clean_json_response_stripped (text : string) :
  is_empty (strip text) = false ->
  strip (clean_json_response text) = clean_json_response text.
Proof.
  intros Hn. unfold clean_json_response.
  assert (E : is_empty text || is_empty (strip text) = false).
  { rewrite Hn. destruct text; [discriminate Hn | reflexivity]. }
  rewrite E.
  destruct (index_of "{" (fence_stripped text)) as [start|];
    [|apply fence_stripped_stripped].
  destruct (re_search_braces _) as [g|] eqn:Eg; [|apply fence_stripped_stripped].
  unfold re_search_braces in Eg.
  apply re_search_span_shape in Eg as [mid ->]. apply strip_of_span.
Qed.

Lemma last_append (a b : string) : b <> "" -> last (a ++ b) = last b.
Proof.
  intros Hb. induction a as [|c a IH]; simpl; auto.
  rewrite IH. destruct (a ++ b) eqn:E; auto.
  destruct a; simpl in E; [contradiction | discriminate].
Qed.

Lemma endswith_append (a p : string) : endswith (a ++ p) p = true.
Proof.
  induction a as [|c a IH]; simpl.
  - destruct p; cbn [endswith]; rewrite String.eqb_refl; reflexivity.
  - rewrite IH. apply orb_true_r.
Qed.

Lemma take_length_append (z p : string) : take (String.length z) (z ++ p) = z.
Proof. induction z as [|c z IH]; simpl; [destruct p|]; congruence. Qed.

Lemma lstrip_spaces (ws r : string) :
  str_forall isspace ws = true -> lstrip (ws ++ r) = lstrip r.
Proof.
  induction ws as [|c ws IH]; simpl; auto.
  intros H. apply andb_true_iff in H as [Hc Hws]. rewrite Hc. auto.
Qed.

Lemma rstrip_spaces (x ws : string) :
  str_forall isspace ws = true -> rstrip (x ++ ws) = rstrip x.
Proof.
  intros Hws. induction x as [|c x IH]; simpl.
  - induction ws as [|d ws IHws]; simpl; auto.
    simpl in Hws. apply andb_true_iff in Hws as [Hd Hrest].
    rewrite (IHws Hrest), Hd. reflexivity.
  - rewrite IH. reflexivity.
Qed.

(** The usual answer of the model, an object between a json fence and a
    closing fence, with any whitespace after the one and before the other,
    is cleaned to the object itself. *)
Theorem clean_json_response_fenced_object (ws1 ws2 mid : string) :
  str_forall isspace ws1 = true ->
  str_forall isspace ws2 = true ->
  clean_json_response
    ("```json" ++ ws1 ++ String "{" (mid ++ "}") ++ ws2 ++ "```")
  = String "{" (mid ++ "}").
Proof.
  intros H1 H2.
  set (o := String "{" (mid ++ "}")).
  set (x := "```json" ++ ws1 ++ o ++ ws2 ++ "```").
  assert (Hsx : strip x = x).
  { unfold strip, x. cbn [append lstrip]. change (isspace "`") with false.
    cbv iota. apply (rstrip_last _ "`"); [|reflexivity].
    change (String "`" (String "`" (String "`" (String "j" (String "s"
              (String "o" (String "n" (ws1 ++ o ++ ws2 ++ "```"))))))))
      with ("```json" ++ ws1 ++ o ++ ws2 ++ "```").
    rewrite <- !append_assoc. rewrite last_append by discriminate.
    reflexivity. }
  assert (Hf : fence_stripped x = o).
  { unfold fence_stripped. rewrite Hsx.
    assert (Hp : startswith x "```json" = true)
      by (unfold x; apply startswith_append).
    rewrite Hp.
    assert (Hs7 : slice x (Some 7%Z) None = ws1 ++ o ++ ws2 ++ "```")
      by (unfold x; exact (slice_from_append "```json" _)).
    rewrite Hs7.
    replace (ws1 ++ o ++ ws2 ++ "```") with ((ws1 ++ o ++ ws2) ++ "```")
      by (rewrite !append_assoc; reflexivity).
    rewrite endswith_append.
    assert (Hcut : slice ((ws1 ++ o ++ ws2) ++ "```") None (Some (-3)%Z)
                   = ws1 ++ o ++ ws2).
    { unfold slice. rewrite length_append. cbn [String.length].
      unfold norm_index. cbn [Z.ltb Z.compare].
      replace (Z.to_nat (Z.max 0 (Z.of_nat (String.length (ws1 ++ o ++ ws2) + 3)
                                  + -3) - 0))
        with (String.length (ws1 ++ o ++ ws2)) by lia.
      cbn [Z.to_nat drop]. apply take_length_append. }
    rewrite Hcut. unfold strip. rewrite (lstrip_spaces _ _ H1).
    assert (Hl : lstrip (o ++ ws2) = o ++ ws2) by reflexivity.
    rewrite Hl, (rstrip_spaces _ _ H2).
    exact (strip_of_span mid). }
  rewrite clean_json_response_nonblank by (rewrite Hf; discriminate).
  rewrite Hf. unfold o. cbn [index_of].
  change (Ascii.eqb "{" "{") with true. cbv iota.
  rewrite slice_from_zero. unfold re_search_braces. cbn [re_search_span].
  change (Ascii.eqb "{" "{") with true. cbv iota.
  rewrite (up_to_last_append "}" mid "" eq_refl). reflexivity.
Qed.

(** ** The clause bias and the ranking *)

Lemma lower_char_idempotent (c : ascii) : lower_char (lower_char c) = lower_char c.
Proof. destruct c as [[] [] [] [] [] [] [] []]; reflexivity. Qed.

Lemma is_lower_lower (s : string) : is_lower (lower s) = true.
Proof.
  unfold is_lower. induction s as [|c s IH]; simpl; auto.
  rewrite lower_char_idempotent, Ascii.eqb_refl. exact IH.
Qed.

(** A keyword with an upper-case letter never occurs in a lower-cased
    text. *)
Lemma upper_case_keyword_dead (keyword s : string) :
  is_lower keyword = false -> str_in keyword (lower s) = false.
Proof.
  intros Hk. destruct (str_in keyword (lower s)) eqn:E; auto.
  apply str_in_inv in E as (pre & post & E).
  pose proof (is_lower_lower s) as Hl. rewrite E in Hl.
  unfold is_lower in *. rewrite !str_forall_append in Hl.
  rewrite Hk, andb_false_r in Hl. discriminate.
Qed.

(** The keywords "PED" and "NCD" of the table never match, since the query
    and the document are lower-cased before the comparison: the score is
    the one of the table without them. *)
Theorem score_clause_bias_upper_case_keywords (query text : string) :
  str_in "PED" (lower query) = false
  /\ str_in "NCD" (lower text) = false
  /\ score_clause_bias query text = score_over LOWER_CASE_KEYWORDS query text.
Proof.
  split; [apply upper_case_keyword_dead; reflexivity|].
  split; [apply upper_case_keyword_dead; reflexivity|].
  unfold score_clause_bias, score_over, CLAUSE_KEYWORDS, LOWER_CASE_KEYWORDS.
  cbn [fold_left snd any_in existsb filter].
  rewrite !(upper_case_keyword_dead "PED") by reflexivity.
  rewrite !(upper_case_keyword_dead "NCD") by reflexivity.
  reflexivity.
Qed.

Lemma score_fold_untriggered (table : list (string * list string))
  (ql tl : string) (hits : nat) :
  (forall entry, In entry table -> any_in (snd entry) ql = false) ->
  fold_left
    (fun hits entry =>
       let keywords := snd entry in
       if any_in keywords ql
       then hits + List.length (filter (fun k => str_in k tl) keywords)
       else hits)
    table hits = hits.
Proof.
  revert hits. induction table as [|entry table IH]; intros hits H; simpl; auto.
  rewrite (H entry) by (left; reflexivity).
  apply IH. intros e He. apply H. right. exact He.
Qed.

Lemma score_zero_without_keywords (query text : string) :
  (forall entry, In entry CLAUSE_KEYWORDS ->
                 any_in (snd entry) (lower query) = false) ->
  score_clause_bias query text = 0.
Proof.
  intros H. unfold score_clause_bias. apply score_fold_untriggered. exact H.
Qed.

Lemma insert_desc_perm {A} (key : A -> nat) (x : A) (l : list A) :
  Permutation (insert_desc key x l) (x :: l).
Proof.
  induction l as [|y l IH]; simpl; auto.
  destruct (key y <=? key x); auto.
  eapply perm_trans; [apply perm_skip, IH | apply perm_swap].
Qed.

Lemma sorted_reverse_perm {A} (key : A -> nat) (l : list A) :
  Permutation (sorted_reverse key l) l.
Proof.
  unfold sorted_reverse. induction l as [|x l IH]; simpl; auto.
  eapply perm_trans; [apply insert_desc_perm | apply perm_skip, IH].
Qed.

Lemma insert_desc_sorted {A} (key : A -> nat) (x : A) (l : list A) :
  StronglySorted (fun a b => key b <= key a) l ->
  StronglySorted (fun a b => key b <= key a) (insert_desc key x l).
Proof.
  induction l as [|y l IH]; simpl; intros Hs.
  - constructor; constructor.
  - inversion Hs as [|? ? Hl Hy]; subst.
    destruct (Nat.leb_spec (key y) (key x)) as [Hle|Hgt].
    + constructor; [exact Hs|].
      constructor; [exact Hle|].
      eapply Forall_impl; [|exact Hy]. intros b Hb. simpl in *. lia.
    + constructor; [apply IH; exact Hl|].
      eapply Permutation_Forall;
        [apply Permutation_sym, insert_desc_perm|].
      constructor; [lia | exact Hy].
Qed.

Lemma sorted_reverse_sorted {A} (key : A -> nat) (l : list A) :
  StronglySorted (fun a b => key b <= key a) (sorted_reverse key l).
Proof.
  unfold sorted_reverse. induction l as [|x l IH]; simpl.
  - constructor.
  - apply insert_desc_sorted, IH.
Qed.

Lemma insert_desc_filter {A} (key : A -> nat) (k : nat) (x : A) (l : list A) :
  filter (fun y => key y =? k) (insert_desc key x l)
  = filter (fun y => key y =? k) (x :: l).
Proof.
  induction l as [|y l IH]; simpl; auto.
  destruct (Nat.leb_spec (key y) (key x)) as [Hle|Hgt]; [reflexivity|].
  simpl. rewrite IH. simpl.
  destruct (Nat.eqb_spec (key x) k) as [Hx|Hx];
    destruct (Nat.eqb_spec (key y) k) as [Hy|Hy]; auto. lia.
Qed.

Lemma sorted_reverse_filter {A} (key : A -> nat) (k : nat) (l : list A) :
  filter (fun y => key y =? k) (sorted_reverse key l)
  = filter (fun y => key y =? k) l.
Proof.
  unfold sorted_reverse. induction l as [|x l IH]; simpl; auto.
  rewrite insert_desc_filter. simpl. rewrite IH. reflexivity.
Qed.

Lemma sorted_reverse_of_sorted {A} (key : A -> nat) (l : list A) :
  StronglySorted (fun a b => key b <= key a) l -> sorted_reverse key l = l.
Proof.
  unfold sorted_reverse. induction l as [|x l IH]; simpl; auto.
  intros Hs. inversion Hs as [|? ? Hl Hx]; subst.
  rewrite (IH Hl). destruct l as [|y l]; simpl; auto.
  inversion Hx as [|? ? Hy _]; subst.
  apply Nat.leb_le in Hy. rewrite Hy. reflexivity.
Qed.

(** The retrieval stage stores the documents ranked: when the search
    string could be built and the search (in the cache or in the store)
    gave documents, the stage stores them in the order of a stable
    descending sort by the clause bias of the original query: every
    document found, once; no document precedes one with a higher score;
    and documents with the same score keep the order in which they were
    found. *)
Theorem retrieval_ranking_stable_sort (context : QueryContext)
  (st st' : state W) (search_query : string) (found : list Document) :
  search_query_of (structured_query context) (original_query context)
  = Ok search_query ->
  cached_search search_query st = (Ok found, st') ->
  let bias := bias_of (original_query context) in
  exists ranked,
    retrieval_agent_process context st
    = (Ok (set_retrieved_docs context ranked), st')
    /\ Permutation ranked found
    /\ StronglySorted (fun a b => bias b <= bias a) ranked
    /\ (forall score,
          filter (fun d => bias d =? score) ranked
          = filter (fun d => bias d =? score) found).
Proof.
  intros Hq Hs. cbv zeta.
  exists (sorted_reverse (bias_of (original_query context)) found).
  split.
  - unfold retrieval_agent_process. rewrite Hq.
    unfold bind at 1, lift, catch, bind. rewrite Hs. reflexivity.
  - split; [apply sorted_reverse_perm|].
    split; [apply sorted_reverse_sorted|].
    intros score. apply sorted_reverse_filter.
Qed.

(** For a query without any clause keyword the ranking changes nothing:
    the documents stay in the order of the store. *)
Theorem retrieval_ranking_without_keywords (query : string)
  (docs : list Document) :
  (forall entry, In entry CLAUSE_KEYWORDS ->
                 any_in (snd entry) (lower query) = false) ->
  sorted_reverse (bias_of query) docs = docs.
Proof.
  intros H. apply sorted_reverse_of_sorted.
  induction docs as [|d docs IH]; constructor; auto.
  apply Forall_forall. intros b _. unfold bias_of.
  rewrite !score_zero_without_keywords by exact H.
  apply Nat.le_refl.
Qed.

(** ** The retrieval cache and the retrieval stage *)

Lemma assoc_lookup_store_same {A} (l : list (string * A)) (k : string) (v : A) :
  assoc_lookup (assoc_store l k v) k = Some v.
Proof.
  induction l as [|[k' v'] l IH]; simpl.
  - rewrite String.eqb_refl. reflexivity.
  - destruct (String.eqb k' k) eqn:E; simpl; rewrite E; auto.
Qed.

(** A search string that was answered once is answered from the cache
    afterwards: the same documents, without a call to the vector store and
    without any change of the state. *)
Theorem cached_search_repeat (search_query : string) (st st' : state W)
  (docs : list Document) :
  cached_search search_query st = (Ok docs, st') ->
  assoc_lookup (retrieval_cache st') search_query = Some docs
  /\ cached_search search_query st' = (Ok docs, st').
Proof.
  unfold cached_search at 1.
  destruct (assoc_lookup (retrieval_cache st) search_query) as [cached|] eqn:E.
  - intros H. injection H as <- <-. split; [exact E|].
    unfold cached_search. rewrite E. reflexivity.
  - destruct (similarity_search search_query 4%Z (world st)) as [[found|e] w'];
      intros H; [|discriminate].
    injection H as <- <-.
    assert (Hl : assoc_lookup
                   (assoc_store (retrieval_cache st) search_query found)
                   search_query = Some found)
      by apply assoc_lookup_store_same.
    split; [exact Hl|].
    unfold cached_search. cbn [retrieval_cache]. rewrite Hl. reflexivity.
Qed.

(** A search that fails is not remembered: the cache is left as it was. *)
Theorem cached_search_failure_not_cached (search_query : string)
  (st st' : state W) (e : exn) :
  cached_search search_query st = (Raise e, st') ->
  retrieval_cache st' = retrieval_cache st
  /\ assoc_lookup (retrieval_cache st) search_query = None.
Proof.
  unfold cached_search.
  destruct (assoc_lookup (retrieval_cache st) search_query) as [cached|];
    [discriminate|].
  destruct (similarity_search search_query 4%Z (world st)) as [[found|e'] w'];
    intros H; [discriminate|].
  injection H as _ <-. auto.
Qed.

(** Once the search string is built, the retrieval stage cannot raise: a
    failure of the vector store gives the empty list of documents, and a
    successful search gives the documents found, every one of them once. *)
Theorem retrieval_agent_process_outcome (context : QueryContext)
  (st : state W) (search_query : string) :
  search_query_of (structured_query context) (original_query context)
  = Ok search_query ->
  exists docs st',
    retrieval_agent_process context st
    = (Ok (set_retrieved_docs context docs), st')
    /\ (forall e, fst (cached_search search_query st) = Raise e -> docs = [])
    /\ (forall found, fst (cached_search search_query st) = Ok found ->
                      Permutation docs found).
Proof.
  intros Hq. unfold retrieval_agent_process, bind at 1, lift, catch, bind.
  rewrite Hq.
  destruct (cached_search search_query st) as [[found|e] st1]; cbn [fst].
  - eexists _, st1. split; [reflexivity|].
    split; [discriminate|].
    intros found' H. injection H as <-. apply sorted_reverse_perm.
  - exists [], st1. split; [reflexivity|].
    split; [reflexivity | discriminate].
Qed.

(** When the search string cannot be built (the structured query is not a
    dict, or one of its entries is neither null nor a string), the
    retrieval stage raises that error without a search. *)
Theorem retrieval_agent_process_raises (context : QueryContext)
  (st : state W) (e : exn) :
  search_query_of (structured_query context) (original_query context)
  = Raise e ->
  retrieval_agent_process context st = (Raise e, st).
Proof.
  intros Hq. unfold retrieval_agent_process, bind, lift. rewrite Hq.
  reflexivity.
Qed.

(** ** The stages that never raise *)

(** The query understanding stage never raises (on a query whose numbers
    have at most 4300 digits), it changes the state only by its call to
    the model client, and it keeps the other fields of the context.  The
    structured query is what [json.loads] makes of the cleaned answer of
    the model; it is the result of the regular expression fallback when
    that parse fails and when the model client raises. *)
Theorem query_agent_process_never_raises (context : QueryContext)
  (st : state W) :
  numbers_convertible (original_query context) ->
  let answer :=
    generate_content_async (ExtractionPrompt (original_query context)) st in
  let fallback := _extract_entities_fallback (original_query context) in
  exists structured,
    query_agent_process context st
    = (Ok (set_structured_query context structured), snd answer)
    /\ (forall text v,
          fst answer = Ok text ->
          json_loads (clean_json_response text) = Ok v ->
          structured = v)
    /\ (forall text e,
          fst answer = Ok text ->
          json_loads (clean_json_response text) = Raise e ->
          structured = fallback)
    /\ (forall e, fst answer = Raise e -> structured = fallback).
Proof.
  intros _. cbv zeta. unfold query_agent_process, catch, bind.
  destruct (generate_content_async _ st) as [[text|e] st1]; cbn [fst snd].
  - unfold lift.
    destruct (json_loads (clean_json_response text)) as [v|e] eqn:E.
    + exists v. split; [reflexivity|]. split; [|split].
      * intros text' v' Ht Hv. injection Ht as <-. congruence.
      * intros text' e' Ht He. injection Ht as <-. congruence.
      * discriminate.
    + eexists. split; [reflexivity|]. split; [|split].
      * intros text' v' Ht Hv. injection Ht as <-. congruence.
      * reflexivity.
      * reflexivity.
  - eexists. split; [reflexivity|]. split; [|split].
    + discriminate.
    + discriminate.
    + reflexivity.
Qed.

Lemma clean_json_response_not_blank (text : string) :
  is_empty (strip text) = false ->
  is_empty (clean_json_response text) = false ->
  String.eqb (strip (clean_json_response text)) "" = false.
Proof.
  intros Hn Hc.
  assert (E : strip (clean_json_response text) = clean_json_response text).
  { unfold clean_json_response.
    assert (E : is_empty text || is_empty (strip text) = false).
    { rewrite Hn. destruct text; [discriminate Hn | reflexivity]. }
    rewrite E.
    destruct (index_of "{" (fence_stripped text)) as [start|];
      [|apply fence_stripped_stripped].
    destruct (re_search_braces _) as [g|] eqn:Eg;
      [|apply fence_stripped_stripped].
    unfold re_search_braces in Eg.
    apply re_search_span_shape in Eg as [mid ->]. apply strip_of_span. }
  rewrite E. destruct (clean_json_response text); [discriminate Hc | reflexivity].
Qed.

(** The extraction of the policy rules never raises (on documents whose
    numbers have at most 4300 digits) and changes the state only by its
    call to the model client.  The rules are what [json.loads] makes of
    the cleaned, stripped answer of the model; they are the result of the
    regular expression fallback when the answer is blank, when nothing is
    left of it after cleaning, when that parse fails and when the model
    client raises. *)
Theorem extract_policy_rules_ai_never_raises (docs : list Document)
  (structured : pyval) (st : state W) :
  Forall (fun doc => numbers_convertible (page_content doc)) docs ->
  let policy_text :=
    join (NEWLINE ++ NEWLINE) (map page_content (firstn 3 docs)) in
  let answer :=
    generate_content_async
      (RulesPrompt structured (slice policy_text None (Some 3000%Z))) st in
  let fallback := _extract_policy_rules_fallback docs in
  exists rules,
    _extract_policy_rules_ai docs structured st = (Ok rules, snd answer)
    /\ (forall response v,
          fst answer = Ok response ->
          is_empty (strip response) = false ->
          is_empty (clean_json_response (strip response)) = false ->
          json_loads (clean_json_response (strip response)) = Ok v ->
          rules = v)
    /\ (forall response,
          fst answer = Ok response ->
          is_empty (strip response) = true
          \/ is_empty (clean_json_response (strip response)) = true
          \/ (exists e,
                json_loads (clean_json_response (strip response)) = Raise e) ->
          rules = fallback)
    /\ (forall e, fst answer = Raise e -> rules = fallback).
Proof.
  intros _. cbv zeta. unfold _extract_policy_rules_ai, catch, bind.
  destruct (generate_content_async _ st) as [[response|e] st1]; cbn [fst snd].
  - unfold raise_if. rewrite strip_idempotent, orb_diag.
    destruct (is_empty (strip response)) eqn:Er.
    + eexists. split; [reflexivity|]. split; [|split].
      * intros r v Hr Hn. injection Hr as <-. congruence.
      * reflexivity.
      * reflexivity.
    + unfold ret at 1.
      destruct (is_empty (clean_json_response (strip response))) eqn:Ec.
      * cbn [orb]. eexists. split; [reflexivity|]. split; [|split].
        -- intros r v Hr _ Hc. injection Hr as <-. congruence.
        -- reflexivity.
        -- reflexivity.
      * rewrite (clean_json_response_not_blank (strip response))
          by (rewrite ?strip_idempotent; assumption).
        cbn [orb]. unfold ret at 1, lift.
        destruct (json_loads (clean_json_response (strip response)))
          as [v|e] eqn:E.
        -- exists v. split; [reflexivity|]. split; [|split].
           ++ intros r v' Hr _ _ Hv. injection Hr as <-. congruence.
           ++ intros r Hr [H | [H | [e H]]]; injection Hr as <-; congruence.
           ++ discriminate.
        -- eexists. split; [reflexivity|]. split; [|split].
           ++ intros r v' Hr _ _ Hv. injection Hr as <-. congruence.
           ++ reflexivity.
           ++ reflexivity.
  - eexists. split; [reflexivity|]. split; [|split].
    + discriminate.
    + discriminate.
    + reflexivity.
Qed.

(** ** The regular expression fallback of the entity extractor *)

Lemma is_digit_lower_char (c : ascii) : is_digit (lower_char c) = is_digit c.
Proof. destruct c as [[] [] [] [] [] [] [] []]; reflexivity. Qed.

Lemma no_digits_lower (s : string) : no_digits (lower s) = no_digits s.
Proof.
  unfold no_digits. induction s as [|c s IH]; simpl; auto.
  rewrite is_digit_lower_char, IH. reflexivity.
Qed.

(** A pattern that starts with the group of digits finds nothing in a text
    without digits. *)
Lemma re_search_from_no_digits (rest : regex) (offset : nat) (s : string) :
  no_digits s = true ->
  re_search_from (Seq (Group (Plus digit)) rest) offset s = None.
Proof.
  revert offset. induction s as [|c s IH]; intros offset H.
  - reflexivity.
  - unfold no_digits in H. cbn [str_forall] in H.
    apply andb_true_iff in H as [Hc Hs]. apply negb_true_iff in Hc.
    cbn [re_search_from rmatch Plus digit]. rewrite Hc.
    apply IH. exact Hs.
Qed.

(** A query without any digit has no age and the default policy duration
    of one month. *)
Theorem fallback_without_digits (query : string) :
  no_digits query = true ->
  py_get (_extract_entities_fallback query) "age" PNone = Ok PNone
  /\ py_get (_extract_entities_fallback query) "policy_duration_months" PNone
     = Ok (PInt 1).
Proof.
  intros H. rewrite <- no_digits_lower in H.
  assert (Hage : re_search AGE_RE (lower query) = None)
    by (apply re_search_from_no_digits; exact H).
  assert (H1 : re_search OLD_POLICY_RE (lower query) = None)
    by (apply re_search_from_no_digits; exact H).
  assert (H2 : re_search POLICY_RE (lower query) = None)
    by (apply re_search_from_no_digits; exact H).
  assert (H3 : re_search DURATION_RE (lower query) = None)
    by (apply re_search_from_no_digits; exact H).
  unfold _extract_entities_fallback, fallback_policy_duration.
  rewrite Hage, H1, H2, H3. split; reflexivity.
Qed.

Lemma first_in_procedures_truthy (s w : string) :
  first_in PROCEDURES s = Some w -> truthy (PStr w) = true.
Proof.
  unfold first_in. intros H. apply find_some in H as [Hin _].
  simpl in Hin.
  repeat destruct Hin as [<- | Hin]; try reflexivity. contradiction.
Qed.

Lemma _apply_basic_rules_fallback (query : string) (docs : list Document) :
  exists justification confidence,
    _apply_basic_rules (_extract_entities_fallback query) docs
    = Ok (decision_record "PENDING" justification confidence)
    /\ (first_in PROCEDURES (lower query) = None -> confidence = 30%Z)
    /\ (first_in PROCEDURES (lower query) <> None ->
        confidence
        = if (fallback_policy_duration (lower query) <? 3)%Z then 40%Z else 60%Z).
Proof.
  unfold _apply_basic_rules, _extract_entities_fallback.
  cbn [py_get dict_lookup String.eqb Ascii.eqb Bool.eqb rbind].
  destruct (first_in PROCEDURES (lower query)) as [w|] eqn:E.
  - cbn [opt_str]. rewrite (first_in_procedures_truthy _ _ E).
    cbn [negb py_lt_3 rbind].
    destruct (fallback_policy_duration (lower query) <? 3)%Z;
      eexists _, _; (split; [reflexivity|]); split; congruence.
  - cbn [opt_str truthy negb].
    eexists _, _. split; [reflexivity|]. split; congruence.
Qed.

(** The basic rules cannot fail on a structured query that comes from the
    regular expression fallback (on a query whose numbers have at most
    4300 digits, so that each can be converted): the answer is PENDING,
    with confidence 30 when no procedure keyword occurs in the query, and
    otherwise 40 or 60 as the policy duration found is below 3 months or
    not. *)
Theorem basic_rules_after_fallback (query : string) (docs : list Document) :
  numbers_convertible query ->
  exists justification confidence,
    _apply_basic_rules (_extract_entities_fallback query) docs
    = Ok (decision_record "PENDING" justification confidence)
    /\ (first_in PROCEDURES (lower query) = None -> confidence = 30%Z)
    /\ (first_in PROCEDURES (lower query) <> None ->
        confidence
        = if (fallback_policy_duration (lower query) <? 3)%Z then 40%Z else 60%Z).
Proof. intros _. exact (_apply_basic_rules_fallback query docs). Qed.

Lemma _apply_basic_rules_raises (structured : pyval) (docs : list Document)
  (e : exn) :
  _apply_basic_rules structured docs = Raise e ->
  exn_cls e = AttributeError \/ exn_cls e = TypeError.
Proof.
  intros E. unfold _apply_basic_rules in E.
  destruct structured; try (injection E as <-; left; reflexivity).
  cbn [py_get rbind] in E.
  destruct (negb (truthy _)); [discriminate|].
  destruct (py_lt_3 _) as [b|e'] eqn:Elt.
  - cbn [rbind] in E. destruct b; discriminate.
  - cbn [rbind] in E. injection E as <-.
    unfold py_lt_3 in Elt.
    destruct (match dict_lookup d "policy_duration_months" with
              | Some x => x | None => PInt 1 end);
      try discriminate; injection Elt as <-; right; reflexivity.
Qed.

(** The basic rules never approve and never reject: whenever they return,
    the record is PENDING with a null amount and a confidence of 30, 40 or
    60; and they raise only an AttributeError (the structured query is not
    a dict) or a TypeError (the policy duration is not a number). *)
Theorem basic_rules_pending_only (structured : pyval) (docs : list Document) :
  match _apply_basic_rules structured docs with
  | Ok v =>
      exists justification confidence,
        v = PDict [ ("decision", PStr "PENDING");
                    ("justification", PStr justification);
                    ("amount", PNone);
                    ("confidence_score", PInt confidence) ]
        /\ In confidence [30; 40; 60]%Z
  | Raise e => exn_cls e = AttributeError \/ exn_cls e = TypeError
  end.
Proof.
  destruct (_apply_basic_rules structured docs) as [v|e] eqn:E.
  - apply _apply_basic_rules_ok in E. destruct E as (j & c & Hv & Hc).
    exists j, c. split; [exact Hv | exact Hc].
  - exact (_apply_basic_rules_raises structured docs e E).
Qed.

(** ** What a call to the model client leaves untouched *)

Lemma try_model_frame (model : string) (p : prompt) (st : state W) :
  retrieval_cache (snd (try_model model p st)) = retrieval_cache st
  /\ sleeps (snd (try_model model p st)) = sleeps st.
Proof.
  unfold try_model, bind, call_model.
  destruct (chat_completions_create model p (world st)) as [reply w'].
  destruct reply as [e | [c|]]; [ | destruct (usable (Some c)) | ];
    split; reflexivity.
Qed.

Lemma try_fallbacks_frame (models : list string) (p : prompt) (st : state W) :
  retrieval_cache (snd (try_fallbacks models p st)) = retrieval_cache st
  /\ sleeps (snd (try_fallbacks models p st)) = sleeps st.
Proof.
  revert st. induction models as [|m models IH]; intros st.
  - split; reflexivity.
  - cbn [try_fallbacks]. unfold catch.
    destruct (try_model_frame m p st) as [Hc Hs].
    destruct (try_model m p st) as [[c|e] st1]; cbn [snd] in *.
    + split; assumption.
    + destruct (IH st1) as [Hc' Hs']. split; congruence.
Qed.

Lemma generate_content_async_frame (p : prompt) (st : state W) :
  retrieval_cache (snd (generate_content_async p st)) = retrieval_cache st
  /\ sleeps (snd (generate_content_async p st)) = sleeps st.
Proof.
  unfold generate_content_async, catch.
  destruct (try_model_frame primary_model p st) as [Hc Hs].
  destruct (try_model primary_model p st) as [[c|e] st1]; cbn [snd] in *.
  - split; assumption.
  - destruct (try_fallbacks_frame fallback_models p st1) as [Hc' Hs'].
    split; congruence.
Qed.

(** ** With every model down *)

Lemma try_model_down (model : string) (p : prompt) (st : state W) :
  models_down -> exists e, fst (try_model model p st) = Raise e.
Proof.
  intros H. unfold try_model, bind, call_model.
  specialize (H model p (world st)).
  destruct (chat_completions_create model p (world st)) as [reply w'].
  cbn [fst] in H.
  destruct reply as [e | [c|]]; cbn [reply_usable] in H.
  - eexists; reflexivity.
  - rewrite H. eexists; reflexivity.
  - eexists; reflexivity.
Qed.

Lemma try_fallbacks_down (models : list string) (p : prompt) (st : state W) :
  models_down -> fst (try_fallbacks models p st) = Raise all_models_failed.
Proof.
  intros H. revert st. induction models as [|m models IH]; intros st.
  - reflexivity.
  - cbn [try_fallbacks]. unfold catch.
    destruct (try_model_down m p st H) as [e He].
    destruct (try_model m p st) as [[c|e'] st1]; cbn [fst] in He;
      [discriminate|]. apply IH.
Qed.

Lemma generate_content_async_down (p : prompt) (st : state W) :
  models_down -> fst (generate_content_async p st) = Raise all_models_failed.
Proof.
  intros H. unfold generate_content_async, catch.
  destruct (try_model_down primary_model p st H) as [e He].
  destruct (try_model primary_model p st) as [[c|e'] st1]; cbn [fst] in He;
    [discriminate|]. apply try_fallbacks_down. exact H.
Qed.

Lemma generate_content_async_down_run (p : prompt) (st : state W) :
  models_down ->
  exists st', generate_content_async p st = (Raise all_models_failed, st').
Proof.
  intros H. pose proof (generate_content_async_down p st H) as E.
  destruct (generate_content_async p st) as [r st']. cbn [fst] in E.
  subst r. eauto.
Qed.

Lemma query_agent_process_down (context : QueryContext) (st : state W) :
  models_down ->
  exists st',
    query_agent_process context st
    = (Ok (set_structured_query context
             (_extract_entities_fallback (original_query context))), st').
Proof.
  intros H. unfold query_agent_process, catch, bind.
  destruct (generate_content_async_down_run
              (ExtractionPrompt (original_query context)) st H) as [st' ->].
  eexists. reflexivity.
Qed.

Lemma join_items_strings (i : nat) (l : list string) :
  join_items i (map PStr l) = Ok l.
Proof.
  revert i. induction l as [|s l IH]; intros i; cbn [map join_items]; auto.
  rewrite IH. reflexivity.
Qed.

Lemma search_query_of_fallback (query original : string) :
  exists search_query,
    search_query_of (_extract_entities_fallback query) original = Ok search_query.
Proof.
  unfold search_query_of, _extract_entities_fallback.
  cbn [py_get dict_lookup String.eqb Ascii.eqb Bool.eqb rbind].
  destruct (first_in PROCEDURES (lower query)) as [w|];
    destruct (option_map title (first_in LOCATIONS (lower query))) as [l|];
    cbn [opt_str filter truthy negb is_empty];
    repeat match goal with
           | |- context [is_empty ?s] => destruct (is_empty s)
           end;
    cbn [negb join_items rbind]; eexists; reflexivity.
Qed.

Lemma retrieval_agent_process_fallback (context : QueryContext) (st : state W) :
  structured_query context = _extract_entities_fallback (original_query context) ->
  exists docs st',
    retrieval_agent_process context st
    = (Ok (set_retrieved_docs context docs), st').
Proof.
  intros Hs. unfold retrieval_agent_process. rewrite Hs.
  destruct (search_query_of_fallback (original_query context)
                                     (original_query context)) as [sq ->].
  unfold bind at 1, lift, catch, bind.
  destruct (cached_search sq st) as [[docs|e] st1]; eexists _, _; reflexivity.
Qed.

Lemma _make_decision_fallback_down (structured : pyval) (doc : Document)
  (docs : list Document) (original : string) (st : state W) :
  models_down ->
  exists st',
    _make_decision_fallback structured (doc :: docs) original st
    = (_apply_basic_rules structured (doc :: docs), st').
Proof.
  intros H. cbn [_make_decision_fallback]. unfold catch. unfold bind at 1.
  destruct (_extract_policy_rules_ai (doc :: docs) structured st)
    as [[rules|e] st1].
  - unfold _make_ai_decision. unfold bind at 1.
    destruct (generate_content_async_down_run
                (DecisionPrompt original structured rules) st1 H) as [st2 ->].
    eexists. reflexivity.
  - eexists. reflexivity.
Qed.

Lemma reasoning_agent_process_down (context : QueryContext) (st : state W) :
  models_down ->
  structured_query context = _extract_entities_fallback (original_query context) ->
  exists justification confidence st',
    reasoning_agent_process context st
    = (Ok (set_decision context
             (decision_record "PENDING" justification confidence)), st')
    /\ In confidence [20; 30; 40; 60]%Z.
Proof.
  intros H Hs. unfold reasoning_agent_process.
  destruct (docs_of (retrieved_docs context)) as [|doc docs].
  - eexists _, _, _. split; [reflexivity | simpl; auto].
  - unfold catch. unfold bind at 1.
    destruct (generate_content_async_down_run
                (_build_reasoning_prompt (structured_query context)
                   (doc :: docs) (original_query context)) st H) as [st1 ->].
    unfold bind.
    destruct (_make_decision_fallback_down (structured_query context) doc docs
                (original_query context) st1 H) as [st2 ->].
    rewrite Hs.
    destruct (_apply_basic_rules_fallback (original_query context) (doc :: docs))
      as (j & c & E & _).
    destruct (_apply_basic_rules_ok _ _ _ E) as (j' & c' & Heq & Hin).
    injection Heq as _ <-. rewrite E.
    exists j, c, st2. split; [reflexivity|].
    right. exact Hin.
Qed.

Lemma py_get_dict (d : list (string * pyval)) (key : string) (default : pyval) :
  py_get (PDict d) key default
  = Ok (match dict_lookup d key with Some v => v | None => default end).
Proof. reflexivity. Qed.

(** With every model down, a query (whose numbers have at most 4300
    digits) is still answered, and never with an error: the
    response is PENDING with a null amount and a confidence of 20 (no
    document retrieved), 30, 40 or 60 (the basic rules on the entities of
    the regular expression fallback), and it carries the three entries of
    the audit trail. *)
Theorem process_query_models_down (query : string) (st : state W) :
  models_down ->
  numbers_convertible query ->
  exists justification confidence,
    r_decision (fst (process_query query st)) = PStr "PENDING"
    /\ r_amount (fst (process_query query st)) = PNone
    /\ r_justification (fst (process_query query st)) = PStr justification
    /\ r_confidence_score (fst (process_query query st)) = PInt confidence
    /\ In confidence [20; 30; 40; 60]%Z
    /\ List.length (r_audit_trail (fst (process_query query st))) = 3.
Proof.
  intros H _. remember (process_query query st) as run eqn:E.
  unfold process_query, process_query_body in E.
  unfold bind at 1 in E.
  destruct (query_agent_process_down (QueryContext_new query) st H) as [st1 E1].
  rewrite E1 in E. unfold bind at 1 in E.
  destruct (retrieval_agent_process_fallback
              (set_structured_query (QueryContext_new query)
                 (_extract_entities_fallback
                    (original_query (QueryContext_new query)))) st1 eq_refl)
    as (docs & st2 & E2).
  rewrite E2 in E. unfold bind at 1 in E.
  destruct (reasoning_agent_process_down
              (set_retrieved_docs
                 (set_structured_query (QueryContext_new query)
                    (_extract_entities_fallback
                       (original_query (QueryContext_new query)))) docs)
              st2 H eq_refl) as (j & c & st3 & E3 & Hc).
  rewrite E3 in E. subst run.
  exists j, c. repeat (split; [reflexivity|]). split; [exact Hc | reflexivity].
Qed.

(** ** The explanation stage *)

Lemma slice_head (s : string) (n : Z) :
  (0 <= n)%Z ->
  slice s None (Some n) = take (Z.to_nat n) s.
Proof.
  intros Hn. unfold slice.
  rewrite norm_index_nonneg by lia.
  change (Z.to_nat 0) with 0. change (drop 0 s) with s.
  rewrite Z.sub_0_r.
  destruct (Z.le_ge_cases n (Z.of_nat (String.length s))) as [Hle|Hge].
  - rewrite Z.min_l by exact Hle. reflexivity.
  - rewrite Z.min_r by exact Hge. rewrite Nat2Z.id.
    rewrite !take_all by lia. reflexivity.
Qed.

Lemma startswith_take (n : nat) (s : string) : startswith s (take n s) = true.
Proof.
  rewrite <- (take_drop n s) at 1. apply startswith_append.
Qed.

(** The explanation stage cannot fail and leaves the state alone; it maps
    at most three clauses, the first documents retrieved, each as at most
    200 characters of the document followed by an ellipsis, and it writes
    three audit entries. *)
Theorem explanation_agent_process_bounds (context : QueryContext)
  (st : state W) :
  exists e,
    explanation_agent_process context st = (Ok (set_explanation context e), st)
    /\ List.length (exp_clause_mappings e)
       = Nat.min 3 (List.length (docs_of (retrieved_docs context)))
    /\ Forall2 (fun m doc =>
                  exists excerpt,
                    clause_text m = excerpt ++ "..."
                    /\ startswith (page_content doc) excerpt = true
                    /\ String.length excerpt <= 200)
               (exp_clause_mappings e)
               (firstn 3 (docs_of (retrieved_docs context)))
    /\ List.length (exp_audit_trail e) = 3.
Proof.
  unfold explanation_agent_process, ret. eexists. split; [reflexivity|].
  cbn [exp_clause_mappings exp_audit_trail].
  split; [rewrite length_map, length_firstn; reflexivity|].
  split; [|reflexivity].
  induction (firstn 3 (docs_of (retrieved_docs context))) as [|doc l IH];
    cbn [map]; constructor; [|exact IH].
  exists (slice (page_content doc) None (Some 200%Z)).
  cbn [clause_text]. split; [reflexivity|]. split.
  - rewrite slice_head by lia. apply startswith_take.
  - rewrite slice_head by lia. rewrite length_take. lia.
Qed.

(** ** The retry loop of a batch *)

Lemma batch_attempt_sleeps (questions_batch : list string) (p : prompt)
  (st : state W) :
  sleeps (snd (batch_attempt questions_batch p st)) = sleeps st.
Proof.
  unfold batch_attempt, bind, wait_for.
  destruct (generate_content_async_frame p st) as [_ Hs].
  destruct (generate_content_async p st) as [r st1]. cbn [snd] in Hs.
  destruct (deadline_passed _ _ _); [exact Hs|].
  destruct r as [response|e]; [|exact Hs].
  destruct (json_loads (strip (removesuffix _ _))) as [v|e].
  - unfold ret.
    destruct v; try exact Hs.
    destruct (_ =? _); exact Hs.
  - destruct (re_search_brackets (strip response)) as [m|].
    + unfold lift. destruct (json_loads m) as [v|e']; [|exact Hs].
      destruct v; try exact Hs. destruct (_ =? _); exact Hs.
    + unfold ret. cbn [List.length].
      destruct (_ =? _); exact Hs.
Qed.

(** The retry loop of a batch always ends with one answer per question,
    and it pauses only between attempts: not at all, for 5 seconds, or for
    5 and then 10 seconds; never after the third attempt. *)
Theorem retry_loop_backoff (questions_batch : list string) (p : prompt)
  (st : state W) :
  let run := retry_from batch_max_retries 0 questions_batch p st in
  exists l slept,
    fst run = Ok (Some l)
    /\ List.length l = List.length questions_batch
    /\ sleeps (snd run) = (sleeps st ++ slept)%list
    /\ In slept [[]; [5]; [5; 10]]%Z.
Proof.
  cbv zeta. unfold batch_max_retries.
  assert (Hstep : forall st0 remaining attempt,
             (exists l,
                 retry_from (S remaining) attempt questions_batch p st0
                 = (Ok (Some l), snd (batch_attempt questions_batch p st0))
                 /\ List.length l = List.length questions_batch)
             \/ (attempt < 2
                 /\ retry_from (S remaining) attempt questions_batch p st0
                    = retry_from remaining (S attempt) questions_batch p
                        (snd (sleep (5 * 2 ^ Z.of_nat attempt)%Z
                                (snd (batch_attempt questions_batch p st0)))))).
  { intros st0 remaining attempt. cbn [retry_from]. unfold catch, bind.
    destruct (batch_attempt questions_batch p st0) as [[l|e] st1] eqn:E.
    - left. exists l. split; [reflexivity|].
      eapply batch_attempt_length; eauto.
    - cbn [snd].
      destruct (str_in "429" (exn_str e) && (attempt <? batch_max_retries - 1))
        eqn:Eretry.
      + right. apply andb_true_iff in Eretry as [_ Hlt].
        apply Nat.ltb_lt in Hlt. unfold batch_max_retries in Hlt.
        split; [lia|]. reflexivity.
      + left. exists (sentinels questions_batch). split; [reflexivity|].
        apply length_sentinels. }
  pose proof (batch_attempt_sleeps questions_batch p) as Hs.
  destruct (Hstep st 2 0) as [(l & -> & Hl) | [_ ->]].
  { exists l, []. cbn [fst snd]. rewrite Hs, app_nil_r.
    split; [reflexivity|]. split; [exact Hl|]. split; [reflexivity|].
    left. reflexivity. }
  set (st1 := snd (sleep _ _)).
  assert (Hs1 : sleeps st1 = (sleeps st ++ [5%Z])%list).
  { subst st1. cbn [sleep snd sleeps]. rewrite Hs. reflexivity. }
  destruct (Hstep st1 1 1) as [(l & -> & Hl) | [_ ->]].
  { exists l, [5%Z]. cbn [fst snd]. rewrite Hs, Hs1.
    split; [reflexivity|]. split; [exact Hl|]. split; [reflexivity|].
    right. left. reflexivity. }
  set (st2 := snd (sleep _ _)).
  assert (Hs2 : sleeps st2 = (sleeps st ++ [5; 10]%Z)%list).
  { subst st2. cbn [sleep snd sleeps]. rewrite Hs, Hs1, <- app_assoc.
    reflexivity. }
  destruct (Hstep st2 0 2) as [(l & -> & Hl) | [Hlt _]]; [|lia].
  exists l, [5; 10]%Z. cbn [fst snd]. rewrite Hs, Hs2.
  split; [reflexivity|]. split; [exact Hl|]. split; [reflexivity|].
  right. right. left. reflexivity.
Qed.

(** ** The batching of the questions *)

Lemma chunks_concat (n k : nat) (l : list string) :
  List.length l <= k * n ->
  concat (map (fun i => firstn n (skipn (n * i) l)) (List.seq 0 k)) = l.
Proof.
  revert l. induction k as [|k IH]; intros l Hlen.
  - destruct l; [reflexivity | simpl in Hlen; lia].
  - cbn [List.seq map concat]. rewrite Nat.mul_0_r. cbn [skipn].
    rewrite <- seq_shift, map_map.
    transitivity (firstn n l ++ skipn n l)%list; [|apply firstn_skipn].
    f_equal.
    etransitivity; [|apply (IH (skipn n l)); rewrite length_skipn; lia].
    f_equal. apply map_ext. intros i.
    rewrite skipn_skipn. f_equal. f_equal. lia.
Qed.

(** The batching loses no question, repeats none and keeps the order: the
    batches put end to end are the questions; and every batch has from one
    to five questions. *)
Theorem batches_of_partition (questions : list string) :
  concat (batches_of questions) = questions
  /\ Forall (fun batch => 1 <= List.length batch <= batch_size)
            (batches_of questions).
Proof.
  unfold batches_of, batch_size.
  pose proof (Nat.div_mod_eq (List.length questions + (5 - 1)) 5) as Hdiv.
  pose proof (Nat.mod_upper_bound (List.length questions + (5 - 1)) 5) as Hmod.
  split.
  - apply chunks_concat. lia.
  - apply Forall_forall. intros batch Hin.
    apply in_map_iff in Hin as (i & <- & Hi).
    apply in_seq in Hi.
    rewrite length_firstn, length_skipn. lia.
Qed.

(** ** The amount of a decision *)

Lemma lower_char_p (a : ascii) :
  lower_char a = "p"%char -> isdigit_char a = false /\ amount_noise a = false.
Proof.
  destruct a as [[] [] [] [] [] [] [] []]; intros H; vm_compute in H;
    try discriminate H; split; reflexivity.
Qed.

Lemma scan_digits_all (c : string) :
  str_forall is_digit c = true -> scan_digits false c = Some (c, "").
Proof.
  induction c as [|a c IH]; intros H; [reflexivity|].
  cbn [str_forall] in H. apply andb_true_iff in H as [Ha Hc].
  cbn [scan_digits]. rewrite Ha, (IH Hc). reflexivity.
Qed.

Lemma isdigit_char_plain (a : ascii) :
  isdigit_char a = true ->
  int_space a = false /\ Ascii.eqb a "_" = false.
Proof.
  destruct a as [[] [] [] [] [] [] [] []]; intros H; vm_compute in H;
    try discriminate H; split; reflexivity.
Qed.

Lemma scan_digits_superscript (c : string) :
  str_forall isdigit_char c = true -> str_forall is_digit c = false ->
  exists digits a rest,
    scan_digits false c = Some (digits, String a rest) /\ int_space a = false.
Proof.
  induction c as [|a c IH]; intros H Hd; [discriminate Hd|].
  cbn [str_forall] in H, Hd. apply andb_true_iff in H as [Ha Hc].
  cbn [scan_digits]. destruct (is_digit a) eqn:Ea.
  - cbn [andb] in Hd. destruct (IH Hc Hd) as (digits & a' & rest & -> & Hs).
    eexists _, a', rest. split; [reflexivity | exact Hs].
  - destruct (isdigit_char_plain a Ha) as [Hs Hu]. rewrite Hu.
    exists "", a, c. split; [reflexivity | exact Hs].
Qed.

Lemma is_digit_isdigit_char (a : ascii) :
  is_digit a = true -> isdigit_char a = true.
Proof. unfold isdigit_char. intros ->. reflexivity. Qed.

(** [int] on a text of ASCII digits, and on a text of digits of
    [str.isdigit] that are not all ASCII digits. *)
Lemma int_of_str_digits (c : string) :
  str_forall is_digit c = true -> is_empty c = false ->
  String.length c <= INT_MAX_STR_DIGITS ->
  int_of_str c = Ok (int_of_digits c).
Proof.
  intros Hd Hne Hlen. pose proof (scan_digits_all c Hd) as Hscan.
  apply Nat.ltb_ge in Hlen.
  destruct c as [|a c]; [discriminate Hne|].
  cbn [str_forall] in Hd. apply andb_true_iff in Hd as [Ha _].
  destruct (isdigit_char_plain a (is_digit_isdigit_char a Ha)) as [Hs _].
  unfold int_of_str. cbn [skip_int_space]. rewrite Hs.
  destruct a as [[] [] [] [] [] [] [] []]; vm_compute in Ha;
    try discriminate Ha; clear Ha Hs;
    cbv beta iota zeta; rewrite Hscan, Hlen; reflexivity.
Qed.

Lemma int_of_str_superscript (c : string) :
  str_forall isdigit_char c = true -> str_forall is_digit c = false ->
  exists e, int_of_str c = Raise e.
Proof.
  intros H Hd.
  destruct (scan_digits_superscript c H Hd) as (digits & b & rest & Hscan & Hb).
  destruct c as [|a c]; [discriminate Hd|].
  cbn [str_forall] in H. apply andb_true_iff in H as [Ha _].
  destruct (isdigit_char_plain a Ha) as [Hs _].
  unfold int_of_str. cbn [skip_int_space]. rewrite Hs.
  destruct a as [[] [] [] [] [] [] [] []]; vm_compute in Ha;
    try discriminate Ha; clear Ha Hs;
    cbv beta iota zeta; rewrite Hscan; cbn [skip_int_space]; rewrite Hb;
    (destruct (INT_MAX_STR_DIGITS <? String.length digits);
     [ | destruct (is_empty digits) ]; eexists; reflexivity).
Qed.

(** An amount given as a text that, once the separators and currency marks
    are removed, is a number of at most 4300 digits: the amount is that
    number when the digits are the ASCII ones, and it is null, whatever the
    policy rules hold, when a digit is one of the superscripts that
    [str.isdigit] accepts and [int] refuses. *)
Theorem process_amount_field_numeric_text (s : string) (policy_rules : pyval) :
  is_empty (clean_amount_of s) = false ->
  str_forall isdigit_char (clean_amount_of s) = true ->
  String.length (clean_amount_of s) <= INT_MAX_STR_DIGITS ->
  _process_amount_field (PStr s) policy_rules
  = if str_forall is_digit (clean_amount_of s)
    then PInt (int_of_digits (clean_amount_of s))
    else PNone.
Proof.
  unfold clean_amount_of. intros Hne Hdig Hlen.
  unfold _process_amount_field, amount_from_model.
  assert (Hprovided :
            truthy (PStr s) && negb (eq_str (PStr s) "null")
            && negb (String.eqb (lower s) "pending") = true).
  { destruct s as [|a s]; [discriminate Hne|].
    cbn [truthy is_empty negb andb eq_str].
    destruct (String.eqb_spec (String a s) "null") as [E|_].
    { rewrite E in Hdig. vm_compute in Hdig. discriminate Hdig. }
    destruct (String.eqb_spec (lower (String a s)) "pending") as [E|_];
      [|reflexivity].
    cbn [lower] in E. injection E as Ea _.
    destruct (lower_char_p a Ea) as [Hd Hn].
    cbn [str_filter] in Hdig. rewrite Hn in Hdig.
    cbn [negb str_forall] in Hdig. rewrite Hd in Hdig. discriminate Hdig. }
  rewrite Hprovided, Hne, Hdig. cbn [negb andb].
  destruct (str_forall is_digit _) eqn:Eascii.
  - rewrite (int_of_str_digits _ Eascii Hne Hlen). reflexivity.
  - destruct (int_of_str_superscript _ Hdig Eascii) as [e ->]. reflexivity.
Qed.

(** ** The chunking parameters *)

(** Whatever the length of the text, the overlap is positive and smaller
    than the chunk size, in the document processor and in the batch
    endpoint (whose overlap of 300 is used only from 200000 characters on,
    where the chunk size is at least 1000). *)
Theorem chunk_overlap_below_chunk_size (length : Z) :
  (0 < snd (_split_text_dynamic_params length)
   < fst (_split_text_dynamic_params length))%Z
  /\ (0 < hackrx_chunk_overlap length < hackrx_chunk_size length)%Z.
Proof.
  unfold _split_text_dynamic_params, hackrx_chunk_overlap, hackrx_chunk_size.
  destruct (Z.ltb_spec length 100000), (Z.ltb_spec length 500000),
    (Z.leb_spec 200000 length); cbn [fst snd]; lia.
Qed.

(** ** The policy rules of the regular expression fallback *)

Lemma digits_value_nonneg (s : string) (acc : Z) :
  (0 <= acc)%Z -> (0 <= digits_value acc s)%Z.
Proof.
  revert acc. induction s as [|c s IH]; intros acc H; cbn [digits_value];
    [exact H | apply IH; lia].
Qed.

Lemma dict_store_keys (d : list (string * pyval)) (k : string) (v : pyval) :
  In k (map fst d) -> map fst (dict_store d k v) = map fst d.
Proof.
  induction d as [|[k' v'] d IH]; intros Hin; [destruct Hin|].
  cbn [dict_store]. destruct (String.eqb_spec k' k) as [E|E]; [reflexivity|].
  cbn [map fst]. f_equal. apply IH.
  destruct Hin as [Hin|Hin]; [contradiction | exact Hin].
Qed.

Lemma dict_store_values (P : pyval -> Prop) (d : list (string * pyval))
  (k : string) (v : pyval) :
  Forall P (map snd d) -> P v -> Forall P (map snd (dict_store d k v)).
Proof.
  intros Hd Hv. induction d as [|[k' v'] d IH]; cbn [dict_store map snd].
  - constructor; [exact Hv | constructor].
  - inversion Hd as [|x l Hx Hl]; subst.
    destruct (String.eqb k' k); cbn [map snd]; constructor; auto.
Qed.

Lemma dict_lookup_keys (d : list (string * pyval)) (k : string) :
  dict_lookup d k = None -> ~ In k (map fst d).
Proof.
  induction d as [|[k' v'] d IH]; intros H; [intros []|].
  cbn [dict_lookup] in H. destruct (String.eqb_spec k' k) as [E|E];
    [discriminate|].
  intros [Hin|Hin]; [contradiction | exact (IH H Hin)].
Qed.

Lemma coverage_fold (text : string) (patterns : list (regex * string))
  (coverage : list (string * pyval)) :
  Forall (fun entry => In (snd entry) (map fst coverage)) patterns ->
  Forall coverage_value_ok (map snd coverage) ->
  let result :=
    fold_left
      (fun coverage entry =>
         match re_search (fst entry) text with
         | Some m =>
             let amount_str :=
               str_filter (fun c => negb (Ascii.eqb c ","))
                          (match group1 m with Some g => g | None => "" end) in
             let amount := PInt (int_of_digits amount_str) in
             match dict_lookup coverage (snd entry) with
             | Some v => if eq_str v "as_per_policy"
                         then dict_store coverage (snd entry) amount
                         else coverage
             | None => dict_store coverage (snd entry) amount
             end
         | None => coverage
         end)
      patterns coverage in
  map fst result = map fst coverage
  /\ Forall coverage_value_ok (map snd result).
Proof.
  cbv zeta. revert coverage.
  induction patterns as [|[pattern key] patterns IH]; intros coverage Hk Hv.
  - split; [reflexivity | exact Hv].
  - inversion Hk as [|x l Hkey Hrest]; subst. cbn [snd] in Hkey.
    cbn [fold_left fst snd].
    match goal with
    | |- context [fold_left ?f patterns ?c] =>
        assert (Hc : map fst c = map fst coverage
                     /\ Forall coverage_value_ok (map snd c))
    end.
    { destruct (re_search pattern text) as [m|]; [|split; [reflexivity|exact Hv]].
      assert (Hstore : forall amount_str,
                 map fst (dict_store coverage key (PInt (int_of_digits amount_str)))
                 = map fst coverage
                 /\ Forall coverage_value_ok
                      (map snd (dict_store coverage key
                                  (PInt (int_of_digits amount_str))))).
      { intros amount_str. split; [apply dict_store_keys; exact Hkey|].
        apply dict_store_values; [exact Hv|].
        right. eexists. split; [reflexivity|].
        apply digits_value_nonneg. lia. }
      destruct (dict_lookup coverage key) as [v|]; [|apply Hstore].
      destruct (eq_str v "as_per_policy");
        [apply Hstore | split; [reflexivity | exact Hv]]. }
    destruct Hc as [Hc1 Hc2].
    match goal with
    | |- context [fold_left ?f patterns ?c] =>
        destruct (IH c) as [H1 H2]
    end.
    + rewrite Hc1. exact Hrest.
    + exact Hc2.
    + split; [rewrite H1; exact Hc1 | exact H2].
Qed.

Lemma _extract_policy_rules_fallback_shape (docs : list Document) :
  exists waiting room_rent icu surgery general_coverage,
    _extract_policy_rules_fallback docs
    = PDict [ ("waiting_periods", PDict waiting);
              ("coverage_limits",
               PDict [ ("room_rent", room_rent); ("icu", icu);
                       ("surgery", surgery);
                       ("general_coverage", general_coverage) ]);
              ("exclusions", PList []);
              ("special_benefits", PList []) ]
    /\ map fst waiting = ["major_surgery"; "minor_procedure"; "preventive_care"]
    /\ Forall coverage_value_ok [room_rent; icu; surgery; general_coverage].
Proof.
  unfold _extract_policy_rules_fallback.
  match goal with
  | |- context [fold_left ?f AMOUNT_PATTERNS ?c] =>
      destruct (coverage_fold
                  (join " " (map (fun doc => lower (page_content doc)) docs))
                  AMOUNT_PATTERNS c) as [Hkeys Hvals];
        [ | | remember (fold_left f AMOUNT_PATTERNS c) as coverage eqn:Ec;
              clear Ec ]
  end.
  - unfold AMOUNT_PATTERNS.
    repeat (apply Forall_cons; [cbn [In map fst snd]; auto 10|]).
    apply Forall_nil.
  - repeat constructor; left; reflexivity.
  - cbn [map fst] in Hkeys.
    destruct coverage as [|[k1 v1] [|[k2 v2] [|[k3 v3] [|[k4 v4] [|]]]]];
      try discriminate Hkeys.
    cbn [map fst snd] in Hkeys, Hvals. injection Hkeys as -> -> -> ->.
    destruct (re_search WAITING_RE _);
      eexists _, v1, v2, v3, v4; (split; [reflexivity|]);
      (split; [reflexivity | exact Hvals]).
Qed.

(** The rules of the regular expression fallback (on documents whose
    numbers have at most 4300 digits) always have the same four entries,
    the three waiting periods and the four coverage limits, and every
    coverage limit is the default marker or an amount that is not
    negative. *)
Theorem extract_policy_rules_fallback_shape (docs : list Document) :
  Forall (fun doc => numbers_convertible (page_content doc)) docs ->
  exists waiting room_rent icu surgery general_coverage,
    _extract_policy_rules_fallback docs
    = PDict [ ("waiting_periods", PDict waiting);
              ("coverage_limits",
               PDict [ ("room_rent", room_rent); ("icu", icu);
                       ("surgery", surgery);
                       ("general_coverage", general_coverage) ]);
              ("exclusions", PList []);
              ("special_benefits", PList []) ]
    /\ map fst waiting = ["major_surgery"; "minor_procedure"; "preventive_care"]
    /\ Forall coverage_value_ok [room_rent; icu; surgery; general_coverage].
Proof. intros _. exact (_extract_policy_rules_fallback_shape docs). Qed.

(** When the model gave no amount and the rules are those of the regular
    expression fallback, the amount of the decision is null or an amount
    that is not negative: the first limit found among general coverage,
    surgery, room rent and ICU. *)
Theorem process_amount_field_fallback_rules (amount_value : pyval)
  (docs : list Document) :
  amount_from_model amount_value = Ok None ->
  Forall (fun doc => numbers_convertible (page_content doc)) docs ->
  let amount :=
    _process_amount_field amount_value (_extract_policy_rules_fallback docs) in
  amount = PNone \/ exists n, amount = PInt n /\ (0 <= n)%Z.
Proof.
  intros Hmodel _. cbv zeta. unfold _process_amount_field.
  rewrite Hmodel. cbn [rbind].
  destruct (_extract_policy_rules_fallback_shape docs)
    as (waiting & a & b & c & d & -> & _ & Hv).
  inversion Hv as [|? ? Ha Hv1]; subst.
  inversion Hv1 as [|? ? Hb Hv2]; subst.
  inversion Hv2 as [|? ? Hc Hv3]; subst.
  inversion Hv3 as [|? ? Hd _]; subst.
  unfold amount_from_rules.
  cbn [truthy py_in py_getitem dict_lookup String.eqb Ascii.eqb Bool.eqb rbind
       COVERAGE_KEYS first_coverage].
  destruct Hd as [-> | (n & -> & Hn)]; cbn [eq_str String.eqb Ascii.eqb Bool.eqb negb];
    [|right; exists n; split; [reflexivity | exact Hn]].
  destruct Hc as [-> | (n & -> & Hn)]; cbn [eq_str String.eqb Ascii.eqb Bool.eqb negb];
    [|right; exists n; split; [reflexivity | exact Hn]].
  destruct Ha as [-> | (n & -> & Hn)]; cbn [eq_str String.eqb Ascii.eqb Bool.eqb negb];
    [|right; exists n; split; [reflexivity | exact Hn]].
  destruct Hb as [-> | (n & -> & Hn)]; cbn [eq_str String.eqb Ascii.eqb Bool.eqb negb];
    [left; reflexivity | right; exists n; split; [reflexivity | exact Hn]].
Qed.

(** ** The tiers below the primary prompt *)

(** The tiers below the primary prompt return a record with a normalised
    decision and an integer confidence from 0 to 100; they raise only when
    documents were retrieved and the basic rules, the last tier, raise on
    the structured query: an AttributeError or a TypeError. *)
Theorem make_decision_fallback_outcome (structured : pyval)
  (docs : list Document) (original : string) (st : state W) :
  match fst (_make_decision_fallback structured docs original st) with
  | Ok v => tier_record v
  | Raise e =>
      docs <> []
      /\ _apply_basic_rules structured docs = Raise e
      /\ (exn_cls e = AttributeError \/ exn_cls e = TypeError)
  end.
Proof.
  destruct (_make_decision_fallback structured docs original st)
    as [[v|e] st'] eqn:E; cbn [fst].
  - eapply _make_decision_fallback_ok; eauto.
  - destruct docs as [|doc docs]; [discriminate E|].
    split; [discriminate|].
    cbn [_make_decision_fallback] in E. unfold catch in E.
    match type of E with
    | (let (_, _) := ?m st in _) = _ => destruct (m st) as [[v|e1] st1]
    end; [discriminate E|].
    unfold lift in E. injection E as E _.
    split; [exact E | eapply _apply_basic_rules_raises; exact E].
Qed.

(** ** The number of calls to the API *)

Lemma ret_calls {A} (a : A) : makes_at_most 0 (ret a).
Proof. intros st. exists []. rewrite app_nil_r. split; [reflexivity | apply Nat.le_refl]. Qed.

Lemma raise_calls {A} (e : exn) : makes_at_most 0 (@raise W A e).
Proof. intros st. exists []. rewrite app_nil_r. split; [reflexivity | apply Nat.le_refl]. Qed.

Lemma lift_calls {A} (r : result A) : makes_at_most 0 (@lift W A r).
Proof. intros st. exists []. rewrite app_nil_r. split; [reflexivity | apply Nat.le_refl]. Qed.

Lemma raise_if_calls (b : bool) (e : exn) : makes_at_most 0 (@raise_if W b e).
Proof.
  intros st. exists []. rewrite app_nil_r.
  split; [destruct b; reflexivity | apply Nat.le_refl].
Qed.

Lemma bind_calls {A B} (n k : nat) (m : M W A) (f : A -> M W B) :
  makes_at_most n m -> (forall a, makes_at_most k (f a)) ->
  makes_at_most (n + k) (bind m f).
Proof.
  intros Hm Hf st. unfold bind.
  destruct (Hm st) as (entries & Hlog & Hlen).
  destruct (m st) as [[a|e] st1]; cbn [snd] in Hlog.
  - destruct (Hf a st1) as (entries' & Hlog' & Hlen').
    exists (entries ++ entries')%list.
    rewrite Hlog', Hlog, <- app_assoc, length_app. split; [reflexivity | lia].
  - exists entries. split; [exact Hlog | lia].
Qed.

Lemma catch_calls {A} (n k : nat) (m : M W A) (h : exn -> M W A) :
  makes_at_most n m -> (forall e, makes_at_most k (h e)) ->
  makes_at_most (n + k) (catch m h).
Proof.
  intros Hm Hh st. unfold catch.
  destruct (Hm st) as (entries & Hlog & Hlen).
  destruct (m st) as [[a|e] st1]; cbn [snd] in Hlog.
  - exists entries. split; [exact Hlog | lia].
  - destruct (Hh e st1) as (entries' & Hlog' & Hlen').
    exists (entries ++ entries')%list.
    rewrite Hlog', Hlog, <- app_assoc, length_app. split; [reflexivity | lia].
Qed.

Lemma calls_le {A} (n k : nat) (m : M W A) :
  makes_at_most n m -> n <= k -> makes_at_most k m.
Proof.
  intros Hm Hle st. destruct (Hm st) as (entries & Hlog & Hlen).
  exists entries. split; [exact Hlog | lia].
Qed.

Lemma generate_content_async_calls (p : prompt) :
  makes_at_most 5 (generate_content_async p).
Proof.
  intros st. unfold generate_content_async, catch.
  destruct (try_model_spec primary_model p st) as (reply0 & Hlog & _).
  destruct (try_model primary_model p st) as [[c|e] st1]; cbn [snd] in *.
  - exists [(primary_model, reply0)]. split; [exact Hlog | simpl; lia].
  - destruct (try_fallbacks_spec fallback_models p st1)
      as (later & rest & Hlog' & Hmodels & _).
    exists ((primary_model, reply0) :: later).
    rewrite Hlog', Hlog, <- app_assoc. split; [reflexivity|].
    apply (f_equal (@List.length string)) in Hmodels.
    rewrite length_app, length_map in Hmodels. simpl in Hmodels.
    simpl. lia.
Qed.

Lemma cached_search_calls (search_query : string) :
  makes_at_most 0 (cached_search search_query).
Proof.
  intros st. exists []. rewrite app_nil_r. split; [|apply Nat.le_refl].
  unfold cached_search.
  destruct (assoc_lookup (retrieval_cache st) search_query); [reflexivity|].
  destruct (similarity_search search_query 4%Z (world st)) as [[docs|e] w'];
    reflexivity.
Qed.

Ltac count_calls :=
  repeat first
    [ apply ret_calls | apply raise_calls | apply lift_calls
    | apply raise_if_calls | apply generate_content_async_calls
    | apply cached_search_calls
    | eapply bind_calls; [|intros ?]
    | eapply catch_calls; [|intros ?]
    | match goal with
      | |- makes_at_most _ (match ?x with _ => _ end) => destruct x
      end ].

Lemma query_agent_process_calls (context : QueryContext) :
  makes_at_most 5 (query_agent_process context).
Proof.
  unfold query_agent_process.
  eapply calls_le; [count_calls | simpl; lia].
Qed.

Lemma retrieval_agent_process_calls (context : QueryContext) :
  makes_at_most 0 (retrieval_agent_process context).
Proof.
  unfold retrieval_agent_process.
  eapply calls_le; [count_calls | simpl; lia].
Qed.

Lemma _extract_policy_rules_ai_calls (docs : list Document) (structured : pyval) :
  makes_at_most 5 (_extract_policy_rules_ai docs structured).
Proof.
  unfold _extract_policy_rules_ai.
  eapply calls_le; [count_calls | simpl; lia].
Qed.

Lemma _make_ai_decision_calls (structured rules : pyval) (original : string) :
  makes_at_most 5 (_make_ai_decision structured rules original).
Proof.
  unfold _make_ai_decision.
  eapply calls_le; [count_calls | simpl; lia].
Qed.

Lemma _make_decision_fallback_calls (structured : pyval) (docs : list Document)
  (original : string) :
  makes_at_most 10 (_make_decision_fallback structured docs original).
Proof.
  unfold _make_decision_fallback. destruct docs as [|doc docs].
  - eapply calls_le; [apply ret_calls | lia].
  - eapply calls_le.
    + eapply catch_calls; [|intros e; apply lift_calls].
      eapply bind_calls; [apply _extract_policy_rules_ai_calls|].
      intros rules. apply _make_ai_decision_calls.
    + simpl; lia.
Qed.

Lemma reasoning_agent_process_calls (context : QueryContext) :
  makes_at_most 15 (reasoning_agent_process context).
Proof.
  unfold reasoning_agent_process.
  destruct (docs_of (retrieved_docs context)) as [|doc docs].
  - eapply calls_le; [apply ret_calls | lia].
  - eapply calls_le.
    + eapply catch_calls.
      * count_calls.
      * intros e. eapply bind_calls; [apply _make_decision_fallback_calls|].
        intros d. apply ret_calls.
    + simpl; lia.
Qed.

Lemma explanation_agent_process_calls (context : QueryContext) :
  makes_at_most 0 (explanation_agent_process context).
Proof. unfold explanation_agent_process. apply ret_calls. Qed.

Lemma process_query_body_calls (query : string) :
  makes_at_most 20 (process_query_body query).
Proof.
  unfold process_query_body.
  eapply calls_le.
  - eapply bind_calls; [apply query_agent_process_calls|]. intros c1.
    eapply bind_calls; [apply retrieval_agent_process_calls|]. intros c2.
    eapply bind_calls; [apply reasoning_agent_process_calls|]. intros c3.
    eapply bind_calls; [apply explanation_agent_process_calls|]. intros c4.
    count_calls.
  - simpl; lia.
Qed.

(** One query costs at most twenty calls to the API: five for the
    extraction prompt, five for the reasoning prompt, and five each for the
    rules prompt and the decision prompt of the tier below; the error
    response changes nothing of it. *)
Theorem process_query_call_budget (query : string) (st : state W) :
  exists entries,
    api_log (snd (process_query query st)) = (api_log st ++ entries)%list
    /\ List.length entries <= 20.
Proof.
  destruct (process_query_body_calls query st) as (entries & Hlog & Hlen).
  exists entries. split; [|exact Hlen].
  unfold process_query.
  destruct (process_query_body query st) as [[response|e] st']; exact Hlog.
Qed.

End Pipeline.

(** * The properties on concrete inputs *)

Import Doubles.

(** An excerpt within both bounds. *)
Lemma build_windowed_context_bounded_witness :
  String.length (build_windowed_context "knee surgery" "Cover for KNEE replacement" 8)
  <= String.length "Cover for KNEE replacement"
  /\ (Z.of_nat (String.length
                  (build_windowed_context "knee surgery"
                                          "Cover for KNEE replacement" 8))
      <= 8)%Z.
Proof.
  destruct (build_windowed_context_bounded
              "knee surgery" "Cover for KNEE replacement" 8) as [H1 H2].
  split; [exact H1 | apply H2; lia].
Defined.

(** Both cases of the normaliser on texts with an opening brace. *)
Lemma clean_json_response_object_witness :
  clean_json_response "Sure: {a} and {b} ok" = "{a} and {b}"
  /\ clean_json_response "Answer: {decision" = "Answer: {decision".
Proof.
  split.
  - exact (proj1 (clean_json_response_object "Sure: {a} and {b} ok" 6 eq_refl)
                 "a} and {b" " ok" eq_refl eq_refl).
  - exact (proj2 (clean_json_response_object "Answer: {decision" 8 eq_refl)
                 eq_refl).
Defined.

(** A text with an opening brace and no closing brace: the result keeps
    the part before the brace, it is not the text from the brace on. *)
Lemma clean_json_response_unclosed_counterexample :
  index_of "{" (fence_stripped "Answer: {decision") = Some 8
  /\ index_of "}" (drop 9 (fence_stripped "Answer: {decision")) = None
  /\ slice (fence_stripped "Answer: {decision") (Some 8%Z) None = "{decision"
  /\ clean_json_response "Answer: {decision" = "Answer: {decision"
  /\ clean_json_response "Answer: {decision" <> "{decision".
Proof. repeat split; try reflexivity. discriminate. Qed.

(** A fenced object is cleaned to the object, and cleaning again changes
    nothing. *)
Lemma clean_json_response_idempotent_witness :
  clean_json_response "```json
{ x }
```" = "{ x }"
  /\ clean_json_response (clean_json_response "```json
{ x }
```") = clean_json_response "```json
{ x }
```".
Proof.
  split; [reflexivity|].
  exact (proj1 (clean_json_response_idempotent "```json
{ x }
```") eq_refl eq_refl).
Defined.

(** An answer fenced twice holds no object at all, and cleaning it twice
    differs from cleaning it once. *)
Lemma clean_json_response_not_idempotent :
  let x := "```json
```json
[]
```
```" in
  top_level_objects x <= 1
  /\ clean_json_response x = "```json
[]
```"
  /\ clean_json_response (clean_json_response x) = "[]"
  /\ clean_json_response (clean_json_response x) <> clean_json_response x.
Proof.
  cbv zeta. split; [vm_compute; lia|].
  split; [reflexivity|]. split; [reflexivity|].
  vm_compute. discriminate.
Qed.

(** The search string of a fully extracted query. *)
Lemma search_query_of_spec_witness :
  search_query_of
    (PDict [ ("procedure", PStr "knee"); ("location", PStr "Pune");
             ("intent", PStr "claim_eligibility") ])
    "Is knee surgery covered in Pune?"
  = Ok "knee claim_eligibility Pune waiting period"
  /\ is_empty "knee claim_eligibility Pune waiting period" = false.
Proof.
  exact (search_query_of_spec
           (PDict [ ("procedure", PStr "knee"); ("location", PStr "Pune");
                    ("intent", PStr "claim_eligibility") ])
           "Is knee surgery covered in Pune?"
           (Some "knee") (Some "claim_eligibility") (Some "Pune")
           eq_refl eq_refl eq_refl).
Defined.

(** The search string is not the join of procedure, location, intent and
    the hint "insurance policy coverage"; and for a structured query with
    no entry at all it is the hint "waiting period". *)
Lemma search_query_of_counterexample :
  search_query_of
    (PDict [ ("procedure", PStr "knee"); ("location", PStr "Pune");
             ("intent", PStr "claim_eligibility") ])
    "Is knee surgery covered in Pune?"
  = Ok "knee claim_eligibility Pune waiting period"
  /\ "knee claim_eligibility Pune waiting period"
     <> join " " ["knee"; "Pune"; "claim_eligibility"; "insurance policy coverage"]
  /\ search_query_of (PDict []) "Is knee surgery covered in Pune?"
     = Ok "waiting period".
Proof.
  split; [reflexivity|]. split; [|reflexivity]. vm_compute. discriminate.
Qed.

(** The model answers the extraction prompt with [null]: the retriever
    raises on the structured query, and the error response is returned. *)
Lemma process_query_total_witness :
  fst (process_query scripted_create (search_returning [policy_doc])
         example_json str_stub knee_query (start [ApiContent (Some "null")]))
  = mk_response (PStr "ERROR") PNone
      (PStr "Processing failed: 'NoneType' object has no attribute 'get'")
      [] (PInt 0) ["Error occurred during processing"]
  /\ str_in "'NoneType' object has no attribute 'get'"
            "Processing failed: 'NoneType' object has no attribute 'get'"
     = true.
Proof.
  exact (proj2 (process_query_total scripted_create
                  (search_returning [policy_doc]) example_json str_stub
                  knee_query (start [ApiContent (Some "null")]))
               (mk_exn AttributeError "'NoneType' object has no attribute 'get'")
               (mk_state [] [(primary_model, ApiContent (Some "null"))] [] [])
               eq_refl).
Defined.

(** The scenario of the specification: the primary model fails, the first
    fallback answers "Hello"; the result is "Hello", two calls were made,
    and the reply of the next model is still unread. *)
Example generate_content_async_hello :
  generate_content_async scripted_create (ExtractionPrompt knee_query)
    (start [timed_out; ApiContent (Some "Hello"); ApiContent (Some "unread")])
  = (Ok "Hello",
     mk_state [ApiContent (Some "unread")]
              [ (primary_model, timed_out);
                ("openai/gpt-5-2025-08-07", ApiContent (Some "Hello")) ]
              [] []).
Proof. reflexivity. Qed.

(** A whitespace answer of the primary model counts as a failure, and when
    every model fails the one error of the client is raised, after one call
    to each of the five models. *)
Example generate_content_async_exhausted :
  let run :=
    generate_content_async scripted_create (ExtractionPrompt knee_query)
      (start [ApiContent (Some "  "); timed_out; ApiContent None;
              ApiContent (Some ""); timed_out]) in
  fst run = Raise all_models_failed
  /\ map fst (api_log (snd run)) = primary_model :: fallback_models.
Proof. split; reflexivity. Qed.

(** C4, the confidence of the primary prompt is not clamped: with one
    retrieved document, a model that answers the reasoning prompt with the
    decision APPROVED and the confidence 250 makes [process_query] return
    the confidence 250; when the same answer is given to the decision
    prompt of the tier below (the primary prompt having failed on all five
    models), the confidence returned is 100. *)
Theorem process_query_confidence_not_clamped :
  let primary :=
    fst (process_query scripted_create (search_returning [policy_doc])
           example_json str_stub knee_query
           (start [ ApiContent (Some entities_text);
                    ApiContent (Some decision_text) ])) in
  let lower_tier :=
    fst (process_query scripted_create (search_returning [policy_doc])
           example_json str_stub knee_query
           (start [ ApiContent (Some entities_text);
                    timed_out; timed_out; timed_out; timed_out; timed_out;
                    ApiContent (Some "no rules");
                    ApiContent (Some decision_text) ])) in
  r_decision primary = PStr "APPROVED"
  /\ r_confidence_score primary = PInt 250
  /\ r_decision lower_tier = PStr "APPROVED"
  /\ r_confidence_score lower_tier = PInt 100.
Proof. cbv zeta. repeat split; vm_compute; reflexivity. Qed.

(** A request with one question, a document source and a model that
    would both answer: the endpoint raises the HTTP error 410; it returns
    no answers, where one answer is expected, and the reply of the model
    is still unread. *)
Lemma hackrx_run_one_question :
  let run :=
    hackrx_run scripted_create example_json no_deadline context_stub
      fetched_text hash_stub one_chunk client_ready no_other_questions
      (Ok one_question_request)
      (start [ApiContent (Some ("[" ++ quoted "Yes" ++ "]"))]) in
  fst run
  = HTTPException 410
      "Endpoint deprecated. Use /upload-document, /upload-document-url, and /query."
  /\ (forall answers, fst run <> Returned (PDict [("answers", PList answers)]))
  /\ snd run = start [ApiContent (Some ("[" ++ quoted "Yes" ++ "]"))].
Proof.
  cbv zeta. split; [reflexivity|]. split; [|reflexivity].
  intros answers H. discriminate H.
Qed.

(** One question, and five questions with a model that would time out:
    the orchestrator raises before the model is called. *)
Example answer_batch_one_question :
  answer_batch scripted_create example_json no_deadline context_stub
    ["Is knee surgery covered?"] [policy_doc] 60%Z "hash" (start [timed_out])
  = (Raise (mk_exn TypeError
              (dynamic_k_name
               ++ "() takes 1 positional argument but 2 were given")),
     start [timed_out]).
Proof. reflexivity. Qed.

(** A query about a woman: the letter "m" of "woman" selects "male". *)
Lemma fallback_gender_never_female_witness :
  str_in "m" (lower "A woman aged 30") = true
  /\ py_get (_extract_entities_fallback "A woman aged 30") "gender" PNone
     = Ok (PStr "male").
Proof.
  exact (proj2 (proj2 (proj2 (fallback_gender_never_female "A woman aged 30")))
               (or_intror eq_refl)).
Defined.

(** The text "not eligible" itself. *)
Lemma normalize_decision_not_eligible_witness :
  any_in REJECT_WORDS (lower "not eligible") = true
  /\ _normalize_decision "not eligible" = "APPROVED".
Proof. exact (normalize_decision_not_eligible "not eligible" eq_refl). Defined.

(** ** The further properties on concrete inputs *)

(** The word "knee" of the query occurs at offset 10 of the text, and the
    excerpt of width 8 covers it. *)
Lemma build_windowed_context_covers_hit_witness :
  String.length (lower "Cover for KNEE replacement")
  = String.length "Cover for KNEE replacement"
  /\ first_hit (lower "Cover for KNEE replacement") (query_terms "knee surgery")
     = Some 10
  /\ exists pre post,
       "Cover for KNEE replacement"
       = pre ++ build_windowed_context "knee surgery"
                                       "Cover for KNEE replacement" 8 ++ post
       /\ String.length pre <= 10
       /\ 10 < String.length pre
               + String.length
                   (build_windowed_context "knee surgery"
                                           "Cover for KNEE replacement" 8)
       /\ (Z.of_nat 10 - Z.of_nat (String.length pre) <= 8 / 2)%Z.
Proof.
  split; [reflexivity|]. split; [reflexivity|].
  apply build_windowed_context_covers_hit; [reflexivity | reflexivity | lia].
Defined.

(** No word of the query occurs in the text: the excerpt is its start. *)
Lemma build_windowed_context_no_hit_witness :
  first_hit (lower "Cover for KNEE replacement") (query_terms "dental") = None
  /\ build_windowed_context "dental" "Cover for KNEE replacement" 8
     = take (Nat.min (String.length "Cover for KNEE replacement") (Z.to_nat 8))
            "Cover for KNEE replacement".
Proof.
  split; [reflexivity|].
  apply build_windowed_context_no_hit; [reflexivity | lia].
Defined.

Lemma clean_json_response_stripped_witness :
  is_empty (strip "  {a} b ") = false
  /\ strip (clean_json_response "  {a} b ") = clean_json_response "  {a} b ".
Proof.
  split; [reflexivity|].
  apply clean_json_response_stripped. reflexivity.
Defined.

Lemma clean_json_response_fenced_object_witness :
  str_forall isspace NEWLINE = true
  /\ clean_json_response
       ("```json" ++ NEWLINE ++ String "{" ("a" ++ "}") ++ NEWLINE ++ "```")
     = String "{" ("a" ++ "}").
Proof.
  split; [reflexivity|].
  apply clean_json_response_fenced_object; reflexivity.
Defined.

(** A query about the waiting period: the document that speaks of it,
    second in the store, is stored first. *)
Lemma retrieval_ranking_stable_sort_witness :
  let context :=
    set_structured_query (QueryContext_new "waiting period for knee surgery")
                         entities_value in
  let search_query := "knee surgery claim_eligibility Pune waiting period" in
  let found := [mk_doc "Room rent and ICU charges." []; policy_doc] in
  let st' := mk_state ([] : list api_reply) [] [(search_query, found)] [] in
  let bias := bias_of (original_query context) in
  search_query_of (structured_query context) (original_query context)
  = Ok search_query
  /\ cached_search (search_returning found) search_query (start [])
     = (Ok found, st')
  /\ exists ranked,
       retrieval_agent_process (search_returning found) context (start [])
       = (Ok (set_retrieved_docs context ranked), st')
       /\ Permutation ranked found
       /\ StronglySorted (fun a b => bias b <= bias a) ranked
       /\ (forall score,
             filter (fun d => bias d =? score) ranked
             = filter (fun d => bias d =? score) found).
Proof.
  cbv zeta. split; [reflexivity|]. split; [reflexivity|].
  exact (retrieval_ranking_stable_sort
           (search_returning [mk_doc "Room rent and ICU charges." []; policy_doc])
           (set_structured_query
              (QueryContext_new "waiting period for knee surgery")
              entities_value)
           (start []) _ _ _ eq_refl eq_refl).
Defined.

(** The query has no clause keyword: two documents keep their order. *)
Lemma retrieval_ranking_without_keywords_witness :
  (forall entry, In entry CLAUSE_KEYWORDS ->
                 any_in (snd entry) (lower knee_query) = false)
  /\ sorted_reverse (bias_of knee_query)
                    [mk_doc "Room rent and ICU charges." []; policy_doc]
     = [mk_doc "Room rent and ICU charges." []; policy_doc].
Proof.
  assert (H : forall entry, In entry CLAUSE_KEYWORDS ->
                            any_in (snd entry) (lower knee_query) = false).
  { intros entry Hin. unfold CLAUSE_KEYWORDS in Hin. cbn [In] in Hin.
    repeat destruct Hin as [<- | Hin]; try reflexivity. destruct Hin. }
  split; [exact H|].
  apply retrieval_ranking_without_keywords. exact H.
Defined.

(** A search that succeeded is answered from the cache the next time. *)
Lemma cached_search_repeat_witness :
  cached_search (search_returning [policy_doc]) "knee" (start [])
  = (Ok [policy_doc],
     mk_state ([] : list api_reply) [] [("knee", [policy_doc])] [])
  /\ assoc_lookup
       (retrieval_cache (mk_state ([] : list api_reply) []
                                  [("knee", [policy_doc])] []))
       "knee"
     = Some [policy_doc]
  /\ cached_search (search_returning [policy_doc]) "knee"
       (mk_state ([] : list api_reply) [] [("knee", [policy_doc])] [])
     = (Ok [policy_doc],
        mk_state ([] : list api_reply) [] [("knee", [policy_doc])] []).
Proof.
  split; [reflexivity|].
  apply (cached_search_repeat (search_returning [policy_doc]) "knee" (start [])).
  reflexivity.
Defined.

(** A search that failed leaves the cache as it was. *)
Lemma cached_search_failure_not_cached_witness :
  cached_search failing_search "knee" (start [])
  = (Raise (mk_exn Exception "Vector store unavailable."), start [])
  /\ retrieval_cache (start []) = retrieval_cache (start [])
  /\ assoc_lookup (retrieval_cache (start [])) "knee" = None.
Proof.
  split; [reflexivity|].
  apply (cached_search_failure_not_cached failing_search "knee" (start [])
           (start []) (mk_exn Exception "Vector store unavailable.")).
  reflexivity.
Defined.

(** The retrieval stage on the entities of the example query. *)
Lemma retrieval_agent_process_outcome_witness :
  let context :=
    set_structured_query (QueryContext_new knee_query) entities_value in
  search_query_of (structured_query context) (original_query context)
  = Ok "knee surgery claim_eligibility Pune waiting period"
  /\ exists docs st',
       retrieval_agent_process (search_returning [policy_doc]) context (start [])
       = (Ok (set_retrieved_docs context docs), st')
       /\ (forall e,
             fst (cached_search (search_returning [policy_doc])
                    "knee surgery claim_eligibility Pune waiting period"
                    (start [])) = Raise e ->
             docs = [])
       /\ (forall found,
             fst (cached_search (search_returning [policy_doc])
                    "knee surgery claim_eligibility Pune waiting period"
                    (start [])) = Ok found ->
             Permutation docs found).
Proof.
  cbv zeta. split; [reflexivity|].
  apply (retrieval_agent_process_outcome (search_returning [policy_doc])).
  reflexivity.
Defined.

(** A structured query that is [null] makes the retrieval stage raise. *)
Lemma retrieval_agent_process_raises_witness :
  search_query_of (structured_query (QueryContext_new knee_query))
                  (original_query (QueryContext_new knee_query))
  = Raise (mk_exn AttributeError "'NoneType' object has no attribute 'get'")
  /\ retrieval_agent_process (search_returning [policy_doc])
       (QueryContext_new knee_query) (start [])
     = (Raise (mk_exn AttributeError "'NoneType' object has no attribute 'get'"),
        start []).
Proof.
  split; [reflexivity|].
  apply (retrieval_agent_process_raises (search_returning [policy_doc])).
  reflexivity.
Defined.

Lemma fallback_without_digits_witness :
  no_digits "knee surgery in Pune" = true
  /\ py_get (_extract_entities_fallback "knee surgery in Pune") "age" PNone
     = Ok PNone
  /\ py_get (_extract_entities_fallback "knee surgery in Pune")
            "policy_duration_months" PNone
     = Ok (PInt 1).
Proof.
  split; [reflexivity|].
  apply fallback_without_digits. reflexivity.
Defined.

Lemma numbers_convertible_knee_query : numbers_convertible knee_query.
Proof. unfold numbers_convertible. apply Nat.leb_le. reflexivity. Defined.

Lemma numbers_convertible_policy_doc :
  Forall (fun doc => numbers_convertible (page_content doc)) [policy_doc].
Proof.
  constructor; [|constructor].
  unfold numbers_convertible. apply Nat.leb_le. reflexivity.
Defined.

(** The basic rules on the example query: the policy is 3 months old. *)
Lemma basic_rules_after_fallback_witness :
  numbers_convertible knee_query
  /\ exists justification confidence,
       _apply_basic_rules str_stub (_extract_entities_fallback knee_query)
                          [policy_doc]
       = Ok (decision_record "PENDING" justification confidence)
       /\ (first_in PROCEDURES (lower knee_query) = None -> confidence = 30%Z)
       /\ (first_in PROCEDURES (lower knee_query) <> None ->
           confidence
           = if (fallback_policy_duration (lower knee_query) <? 3)%Z
             then 40%Z else 60%Z).
Proof.
  split; [exact numbers_convertible_knee_query|].
  apply basic_rules_after_fallback. exact numbers_convertible_knee_query.
Defined.

(** The example query with the API down and one document in the store. *)
Lemma process_query_models_down_witness :
  models_down (W := list api_reply) failing_create
  /\ numbers_convertible knee_query
  /\ exists justification confidence,
       let response :=
         fst (process_query failing_create (search_returning [policy_doc])
                example_json str_stub knee_query (start [])) in
       r_decision response = PStr "PENDING"
       /\ r_amount response = PNone
       /\ r_justification response = PStr justification
       /\ r_confidence_score response = PInt confidence
       /\ In confidence [20; 30; 40; 60]%Z
       /\ List.length (r_audit_trail response) = 3.
Proof.
  assert (H : models_down (W := list api_reply) failing_create)
    by (intros model p w; reflexivity).
  split; [exact H|]. split; [exact numbers_convertible_knee_query|].
  apply (process_query_models_down failing_create
           (search_returning [policy_doc]) example_json str_stub knee_query
           (start []) H numbers_convertible_knee_query).
Defined.

(** An amount with a currency mark and a separator. *)
Lemma process_amount_field_numeric_text_witness :
  is_empty (clean_amount_of "rs 50,000") = false
  /\ str_forall isdigit_char (clean_amount_of "rs 50,000") = true
  /\ String.length (clean_amount_of "rs 50,000") <= INT_MAX_STR_DIGITS
  /\ _process_amount_field (PStr "rs 50,000") PNone
     = if str_forall is_digit (clean_amount_of "rs 50,000")
       then PInt (int_of_digits (clean_amount_of "rs 50,000"))
       else PNone.
Proof.
  assert (H : String.length (clean_amount_of "rs 50,000") <= INT_MAX_STR_DIGITS)
    by (apply Nat.leb_le; reflexivity).
  split; [reflexivity|]. split; [reflexivity|]. split; [exact H|].
  apply process_amount_field_numeric_text; [reflexivity | reflexivity | exact H].
Defined.

Lemma extract_policy_rules_fallback_shape_witness :
  Forall (fun doc => numbers_convertible (page_content doc)) [policy_doc]
  /\ exists waiting room_rent icu surgery general_coverage,
       _extract_policy_rules_fallback [policy_doc]
       = PDict [ ("waiting_periods", PDict waiting);
                 ("coverage_limits",
                  PDict [ ("room_rent", room_rent); ("icu", icu);
                          ("surgery", surgery);
                          ("general_coverage", general_coverage) ]);
                 ("exclusions", PList []);
                 ("special_benefits", PList []) ]
       /\ map fst waiting
          = ["major_surgery"; "minor_procedure"; "preventive_care"]
       /\ Forall coverage_value_ok [room_rent; icu; surgery; general_coverage].
Proof.
  split; [exact numbers_convertible_policy_doc|].
  apply extract_policy_rules_fallback_shape.
  exact numbers_convertible_policy_doc.
Defined.

Lemma process_amount_field_fallback_rules_witness :
  amount_from_model PNone = Ok None
  /\ Forall (fun doc => numbers_convertible (page_content doc)) [policy_doc]
  /\ (_process_amount_field PNone (_extract_policy_rules_fallback [policy_doc])
      = PNone
      \/ exists n,
           _process_amount_field PNone
             (_extract_policy_rules_fallback [policy_doc]) = PInt n
           /\ (0 <= n)%Z).
Proof.
  split; [reflexivity|]. split; [exact numbers_convertible_policy_doc|].
  apply (process_amount_field_fallback_rules PNone [policy_doc]);
    [reflexivity | exact numbers_convertible_policy_doc].
Defined.

(** The model answers the extraction prompt with the entities of the
    example query. *)
Lemma query_agent_process_never_raises_witness :
  numbers_convertible (original_query (QueryContext_new knee_query))
  /\ let context := QueryContext_new knee_query in
     let st := start [ApiContent (Some entities_text)] in
     let answer :=
       generate_content_async scripted_create
         (ExtractionPrompt (original_query context)) st in
     let fallback := _extract_entities_fallback (original_query context) in
     exists structured,
       query_agent_process scripted_create example_json context st
       = (Ok (set_structured_query context structured), snd answer)
       /\ (forall text v,
             fst answer = Ok text ->
             example_json (clean_json_response text) = Ok v ->
             structured = v)
       /\ (forall text e,
             fst answer = Ok text ->
             example_json (clean_json_response text) = Raise e ->
             structured = fallback)
       /\ (forall e, fst answer = Raise e -> structured = fallback).
Proof.
  split; [exact numbers_convertible_knee_query|].
  exact (query_agent_process_never_raises scripted_create example_json
           (QueryContext_new knee_query)
           (start [ApiContent (Some entities_text)])
           numbers_convertible_knee_query).
Defined.

(** The API is down when the rules are asked for. *)
Lemma extract_policy_rules_ai_never_raises_witness :
  Forall (fun doc => numbers_convertible (page_content doc)) [policy_doc]
  /\ let docs := [policy_doc] in
     let st := start [] in
     let policy_text :=
       join (NEWLINE ++ NEWLINE) (map page_content (firstn 3 docs)) in
     let answer :=
       generate_content_async scripted_create
         (RulesPrompt entities_value (slice policy_text None (Some 3000%Z)))
         st in
     let fallback := _extract_policy_rules_fallback docs in
     exists rules,
       _extract_policy_rules_ai scripted_create example_json docs
         entities_value st
       = (Ok rules, snd answer)
       /\ (forall response v,
             fst answer = Ok response ->
             is_empty (strip response) = false ->
             is_empty (clean_json_response (strip response)) = false ->
             example_json (clean_json_response (strip response)) = Ok v ->
             rules = v)
       /\ (forall response,
             fst answer = Ok response ->
             is_empty (strip response) = true
             \/ is_empty (clean_json_response (strip response)) = true
             \/ (exists e,
                   example_json (clean_json_response (strip response))
                   = Raise e) ->
             rules = fallback)
       /\ (forall e, fst answer = Raise e -> rules = fallback).
Proof.
  split; [exact numbers_convertible_policy_doc|].
  exact (extract_policy_rules_ai_never_raises scripted_create example_json
           [policy_doc] entities_value (start [])
           numbers_convertible_policy_doc).
Defined.
